(** * Influencer checker: reconciliation and synchronisation engine

    A shallow embedding of the parts of the dashboard that carry its
    invariants: identity clean-up, header de-duplication and worksheet
    loading ([utils.py]), the merge of an upload against the vetted roster
    ([pages.List.py]) and the editable working copy with its fingerprint
    check and its push ([pages/Credibility.py]).

    Conventions.  A Python [str] is a [string]: the sequence of its code
    points, each below 256.  A pandas frame is its column labels and its
    rows of cells; what pandas itself computes (number parsing, the
    refusal of a merge) comes in as a record of the library's behaviour.
    Session state is an explicit record threaded through each step of the
    script, and an exception is a constructor of the step's result. *)

From Stdlib Require Import String Ascii List Arith NArith Bool Lia.
From Stdlib Require Import Numbers.DecimalString.
From Stdlib Require Numbers.DecimalNat Numbers.DecimalFacts.
From stdpp Require Import base option list strings gmap.

Open Scope string_scope.
Open Scope list_scope.

(** ** Python string primitives *)

Module PyStr.

(** [str.isspace] on one character, for code points below 256: TAB..CR,
    FS..US and SPACE, NEL and NBSP. *)
Definition is_space (c : ascii) : bool :=
  let n := nat_of_ascii c in
  ((9 <=? n)%nat && (n <=? 13)%nat) || ((28 <=? n)%nat && (n <=? 32)%nat)
  || (n =? 133)%nat || (n =? 160)%nat.

(** [s.lstrip()] *)
Fixpoint lstrip (s : string) : string :=
  match s with
  | EmptyString => EmptyString
  | String c s' => if is_space c then lstrip s' else s
  end.

(** [s.rstrip()] *)
Fixpoint rstrip (s : string) : string :=
  match s with
  | EmptyString => EmptyString
  | String c s' =>
      match rstrip s' with
      | EmptyString => if is_space c then EmptyString else String c EmptyString
      | r => String c r
      end
  end.

(** [s.strip()] *)
Definition strip (s : string) : string := rstrip (lstrip s).

(** [s.lstrip(ch)] for a one-character argument: every leading [ch] goes. *)
Fixpoint lstrip_chr (ch : ascii) (s : string) : string :=
  match s with
  | EmptyString => EmptyString
  | String c s' => if Ascii.eqb c ch then lstrip_chr ch s' else s
  end.

(** [c.lower()] on one character, for code points below 256: A..Z and the
    Latin-1 capitals (all of 192..222 but the multiplication sign). *)
Definition lower_chr (c : ascii) : ascii :=
  let n := nat_of_ascii c in
  if ((65 <=? n)%nat && (n <=? 90)%nat)
     || ((192 <=? n)%nat && (n <=? 222)%nat && negb (n =? 215)%nat)
  then ascii_of_nat (n + 32) else c.

(** [s.lower()] *)
Fixpoint lower (s : string) : string :=
  match s with
  | EmptyString => EmptyString
  | String c s' => String (lower_chr c) (lower s')
  end.

(** [str(n)] for a non-negative [int]. *)
Definition str_of_nat (n : nat) : string :=
  NilZero.string_of_uint (Nat.to_uint n).

(** [sep.join(parts)] with the empty separator. *)
Fixpoint join (parts : list string) : string :=
  match parts with
  | [] => EmptyString
  | p :: ps => p +:+ join ps
  end.

Definition first_chr (s : string) : option ascii :=
  match s with
  | EmptyString => None
  | String c _ => Some c
  end.

Fixpoint last_chr (s : string) : option ascii :=
  match s with
  | EmptyString => None
  | String c EmptyString => Some c
  | String _ s' => last_chr s'
  end.

Definition starts_with_space (s : string) : bool :=
  match first_chr s with Some c => is_space c | None => false end.

Definition ends_with_space (s : string) : bool :=
  match last_chr s with Some c => is_space c | None => false end.

Definition starts_with (ch : ascii) (s : string) : bool :=
  match first_chr s with Some c => Ascii.eqb c ch | None => false end.

End PyStr.

(** ** Identity normaliser

    [new_df["ID"].astype(str).str.lstrip("@").str.strip()] in
    [process_uploaded_file], and [new_id.lstrip("@").strip()] in the
    add/update form: the same two calls in the same order. *)

Definition normalize (raw : string) : string :=
  PyStr.strip (PyStr.lstrip_chr "@" raw).

(** The normaliser as the specification words it: one leading "@" is
    dropped if there is one, then the ends are trimmed. *)
Definition normalize_as_specified (raw : string) : string :=
  PyStr.strip
    match raw with
    | String "@" rest => rest
    | _ => raw
    end.

(** ** [utils.py]: headers and worksheet loading *)

Module Utils.

(** One turn of the loop of [make_unique_headers]: [seen] counts the
    repeats of each header met so far, [result] grows at its end. *)
Definition unique_step (st : gmap string nat * list string) (h : string)
  : gmap string nat * list string :=
  let '(seen, result) := st in
  match seen !! h with
  | None => (<[h := 0]> seen, result ++ [h])
  | Some n =>
      (<[h := S n]> seen, result ++ [h +:+ "_" +:+ PyStr.str_of_nat (S n)])
  end.

Definition make_unique_headers (headers : list string) : list string :=
  snd (fold_left unique_step headers (∅, [])).

(** The header that a turn of the loop appends. *)
Definition renamed (seen : gmap string nat) (h : string) : string :=
  match seen !! h with
  | None => h
  | Some n => h +:+ "_" +:+ PyStr.str_of_nat (S n)
  end.

Definition counted (seen : gmap string nat) (h : string) : gmap string nat :=
  match seen !! h with
  | None => <[h := 0]> seen
  | Some n => <[h := S n]> seen
  end.

(** The loop, unrolled from the left. *)
Fixpoint unique_from (seen : gmap string nat) (headers : list string)
  : list string :=
  match headers with
  | [] => []
  | h :: hs => renamed seen h :: unique_from (counted seen h) hs
  end.

(** A [pandas.DataFrame] with a default [RangeIndex]: the column labels and
    the rows, each row holding one cell per column. *)
Record Frame (C : Type) := mkFrame {
  columns : list string;
  rows : list (list C)
}.
Arguments mkFrame {C} _ _.
Arguments columns {C} _.
Arguments rows {C} _.

(** [pd.DataFrame()] *)
Definition empty_frame {C} : Frame C := mkFrame [] [].

(** [df[name]] for a label that occurs once; [None] is the [KeyError]. *)
Fixpoint index_of (name : string) (cols : list string) : option nat :=
  match cols with
  | [] => None
  | c :: cs => if String.eqb c name then Some 0 else S <$> index_of name cs
  end.

(** The cells of the column at position [j], top down. *)
Definition column_of {C} (d : C) (j : nat) (rows : list (list C)) : list C :=
  (λ r, default d (r !! j)) <$> rows.

(** A cell of a pandas column as the script meets it: a [str], a number,
    a [bool], or a missing value.  A number is given by what [str] prints
    for it, which is all that the code embedded here asks of one. *)
Inductive Scalar :=
  | Str (s : string)
  | Num (shown : string)
  | Boolean (b : bool)
  | NaN.

#[export] Instance Scalar_eq_dec : EqDecision Scalar.
Proof. solve_decision. Defined.

(** [Series.astype(str)] on one cell. *)
Definition astype_str (c : Scalar) : string :=
  match c with
  | Str s => s
  | Num shown => shown
  | Boolean true => "True"
  | Boolean false => "False"
  | NaN => "nan"
  end.

(** What the script leaves to pandas and what differs between versions of
    it.  The library is no part of the repository: the functions below
    take it as this record, and what is proved of them holds for every
    such record.
    - [to_numeric_ignore col] is [pd.to_numeric(col, errors='ignore')] on a
      column of strings: [None] when the column comes back as it is
      (some cell is no number), otherwise what each text of the column
      reads as in the converted column, a number or a missing value.
    - [to_numeric_coerce col c] is the cell that [c] becomes in
      [pd.to_numeric(col, errors='coerce')].
    - [merge_error] tells whether [merge] raises [MergeError] when its
      suffix gives two columns of the right frame one label (it does from
      pandas 2.0 on, and warns before). *)
Record Pandas := mkPandas {
  to_numeric_ignore : list string → option (string → Scalar);
  to_numeric_coerce : list Scalar → Scalar → Scalar;
  merge_error : bool
}.

(** What [worksheet.get_all_values()] gives: the grid of the sheet, header
    row first, every cell a string and every row of one width; or an
    exception ([worksheet] may also be the [None] that
    [get_worksheet_by_key] returns after its own failure, on which the call
    raises as well). *)
Inductive Fetch :=
  | Fetched (data : list (list string))
  | FetchFailed.

(** What the script shows to the operator with [st.error]. *)
Inductive Message :=
  | FailedToLoadWorksheet
  | ErrorLoadingData.

(** [pd.DataFrame(data, columns=columns)] on rows of strings; [None] is
    the [ValueError] for rows that are not as wide as the labels. *)
Definition data_frame (data : list (list string)) (columns : list string)
  : option (Frame string) :=
  if forallb (λ r, length r =? length columns)%nat data
  then Some (mkFrame columns data) else None.

(** [optimize_dataframe] on a frame of strings, whose columns are all of
    dtype [object]: each column goes through
    [pd.to_numeric(df[col], errors='ignore')]; a column that stays may
    then become a category, which changes none of its cells.  On a label
    that two columns bear [df[col]] is a frame, which has no [dtype]:
    [None] is that [AttributeError]. *)
Definition optimize_dataframe (pd : Pandas) (df : Frame string)
  : option (Frame Scalar) :=
  if bool_decide (NoDup (columns df)) then
    Some (mkFrame (columns df)
            ((λ r, imap (λ j s,
                           default Str
                             (to_numeric_ignore pd (column_of "" j (rows df)))
                             s) r)
               <$> rows df))
  else None.

(** [load_worksheet_df].  Everything under its [try] that raises ends in
    the [except] branch, which reports and returns an empty frame: a
    failed fetch, the [ValueError] of [pd.DataFrame(data[1:],
    columns=headers)] and the [AttributeError] of [optimize_dataframe]. *)
Definition load_worksheet_df (pd : Pandas) (worksheet : Fetch)
  : list Message * Frame Scalar :=
  match worksheet with
  | FetchFailed => ([FailedToLoadWorksheet], empty_frame)
  | Fetched data =>
      match data with
      | [] | [_] => ([], empty_frame)
      | header :: body =>
          match data_frame body (make_unique_headers header)
                ≫= optimize_dataframe pd with
          | Some df => ([], df)
          | None => ([FailedToLoadWorksheet], empty_frame)
          end
      end
  end.

End Utils.

(** ** [pages.List.py]: roster cache, upload and reconciliation *)

Module ListPage.
Import Utils.

(** A row of the roster as the merge reads it: the identity and the
    credibility are strings after the clean-up of [load_all_data], the
    comment is the cell of the frame. *)
Record RosterRow := mkRosterRow {
  ros_ID : string;
  ros_Comment : Scalar;
  ros_Credibility : string
}.

(** [inf_df] after [load_all_data]: the labels of its columns and its
    rows.  The cells of the columns that the page does not read are left
    out. *)
Record Roster := mkRoster {
  ros_columns : list string;
  ros_rows : list RosterRow
}.

(** What [load_all_data] returns (the worksheet handle apart). *)
Record Loaded := mkLoaded {
  inf_df : Roster;
  master_df : Frame (option Scalar)
}.

(** A script step either runs on or ends the request with [st.stop()]. *)
Inductive Outcome (A : Type) :=
  | Returned (a : A)
  | Stopped.
Arguments Returned {A} _.
Arguments Stopped {A}.

Definition required_cols : list string :=
  ["ID"; "Post Price"; "Story price"; "Publication date(Miladi)";
   "Category"; "Follower"].

(** [for col in required_cols: if col not in master_df.columns:
    master_df[col] = None] *)
Definition add_required (master : Frame Scalar) : Frame (option Scalar) :=
  let missing :=
    filter (λ c, c ∉ columns master) required_cols in
  mkFrame (columns master ++ missing)
          ((λ r, (Some <$> r) ++ replicate (length missing) None)
             <$> rows master).

(** The cell of row [r] in the column at position [i]. *)
Definition cell_at (i : nat) (r : list Scalar) : Scalar :=
  default NaN (r !! i).

(** [inf_df.get(name, pd.Series([dflt] * len(inf_df)))] read row by row. *)
Definition get_or (name : string) (dflt : Scalar) (df : Frame Scalar)
    (r : list Scalar) : Scalar :=
  match index_of name (columns df) with
  | Some i => cell_at i r
  | None => dflt
  end.

(** One roster row after the column clean-up of [load_all_data]:
    [inf_df["ID"]...astype(str).str.strip()], the "Comment" column or its
    default, and [inf_df["Credibility"].astype(str).str.strip().str.lower()]
    over the "Credibility" column or its default. *)
Definition load_inf_row (inf : Frame Scalar) (i : nat) (r : list Scalar)
  : RosterRow :=
  mkRosterRow
    (PyStr.strip (astype_str (cell_at i r)))
    (get_or "Comment" (Str "") inf r)
    (PyStr.lower
       (PyStr.strip (astype_str (get_or "Credibility" (Str "False") inf r)))).

(** The labels of [inf_df] after the clean-up: "Comment" and "Credibility"
    come last when the sheet lacks them. *)
Definition load_inf_columns (inf : Frame Scalar) : list string :=
  columns inf
  ++ filter (λ c, c ∉ columns inf) ["Comment"; "Credibility"].

(** The body of [load_all_data].  [inf_df.get("ID", inf_df.columns[0])]
    evaluates [inf_df.columns[0]] first, an [IndexError] on a frame without
    columns; without an "ID" column the default, a [str], has no [astype].
    Both end in the [except] branch: [st.error] then [st.stop()]. *)
Definition load_all_data_body (pd : Pandas) (ws_inf ws_master : Fetch)
  : list Message * Outcome Loaded :=
  let '(m1, inf) := load_worksheet_df pd ws_inf in
  let '(m2, master) := load_worksheet_df pd ws_master in
  match columns inf, index_of "ID" (columns inf) with
  | _ :: _, Some i =>
      (m1 ++ m2,
       Returned (mkLoaded (mkRoster (load_inf_columns inf)
                                    (load_inf_row inf i <$> rows inf))
                          (add_required master)))
  | _, _ => (m1 ++ m2 ++ [ErrorLoadingData], Stopped)
  end.

(** [@st.cache_data(ttl=60)] around [load_all_data], which takes no
    argument: one entry.  [None] is an absent or expired entry; the body
    runs then, and its value is stored only when it returns. *)
Definition load_all_data (pd : Pandas) (cache : option Loaded)
    (ws_inf ws_master : Fetch)
  : option Loaded * list Message * Outcome Loaded :=
  match cache with
  | Some v => (cache, [], Returned v)
  | None =>
      match load_all_data_body pd ws_inf ws_master with
      | (msgs, Returned v) => (Some v, msgs, Returned v)
      | (msgs, Stopped) => (None, msgs, Stopped)
      end
  end.

(** The part of [st.session_state] that the load touches. *)
Record Session := mkSession {
  data_loaded : bool;
  ss_inf_df : option Roster;
  ss_master_df : option (Frame (option Scalar))
}.

(** [if not st.session_state.data_loaded or st.session_state.inf_df is
    None: ... = load_all_data(); st.session_state.data_loaded = True].
    The session state outlives a request that [st.stop()] ends; the boolean
    tells whether the request was ended. *)
Definition load_step (pd : Pandas) (cache : option Loaded) (ss : Session)
    (ws_inf ws_master : Fetch)
  : option Loaded * Session * list Message * bool :=
  if negb (data_loaded ss) || bool_decide (ss_inf_df ss = None) then
    match load_all_data pd cache ws_inf ws_master with
    | (cache', msgs, Returned v) =>
        (cache', mkSession true (Some (inf_df v)) (Some (master_df v)),
         msgs, false)
    | (cache', msgs, Stopped) => (cache', ss, msgs, true)
    end
  else (cache, ss, [], false).

(** A row of [new_df], the upload after [process_uploaded_file]: the
    identity, a string, and the cells of the other columns. *)
Record Candidate := mkCandidate {
  cand_ID : string;
  cand_cells : list Scalar
}.

(** [new_df]: the labels of its columns other than "ID", in order, and
    its rows.  The readers of pandas give no label twice (a repeated
    header comes out as [label.1], [label.2], ...). *)
Record NewDf := mkNewDf {
  nd_labels : list string;
  nd_rows : list Candidate
}.

Definition numeric_columns : list string :=
  ["Followers"; "Post price"; "Avg View"; "CPV"; "IER"; "Avg like";
   "Avg comments"].

(** [for col in numeric_columns: if col in new_df.columns:
    new_df[col] = pd.to_numeric(new_df[col], errors="coerce")] *)
Definition coerce_numeric (pd : Pandas) (df : NewDf) : NewDf :=
  let cells := cand_cells <$> nd_rows df in
  mkNewDf (nd_labels df)
    ((λ c, mkCandidate (cand_ID c)
             (imap (λ j x,
                      match nd_labels df !! j with
                      | Some label =>
                          if bool_decide (label ∈ numeric_columns)
                          then to_numeric_coerce pd (column_of NaN j cells) x
                          else x
                      | None => x
                      end) (cand_cells c)))
       <$> nd_rows df).

(** The position of the identity column of an uploaded frame: that of
    the label "ID", or else the first. *)
Definition id_position (file : Frame Scalar) : nat :=
  default 0 (index_of "ID" (columns file)).

(** The body of [process_uploaded_file], on the frame that [pd.read_csv]
    or [pd.read_excel] made of the file.  The identity column is the one
    labelled "ID", or else the first one, which is renamed; on a frame
    without columns [new_df.columns[0]] raises, and [None] is that
    [IndexError].  The identities go through
    [astype(str).str.lstrip("@").str.strip()]. *)
Definition process_uploaded_file_body (pd : Pandas) (file : Frame Scalar)
  : option NewDf :=
  match columns file with
  | [] => None
  | _ :: _ =>
      let i := id_position file in
      Some (coerce_numeric pd
              (mkNewDf (delete i (columns file))
                 ((λ r, mkCandidate (normalize (astype_str (cell_at i r)))
                                    (delete i r))
                    <$> rows file)))
  end.

(** [@st.cache_data] around [process_uploaded_file(_uploaded_file)]: the
    one parameter starts with an underscore, so Streamlit leaves it out of
    the key of the entry, and the function is one function on every run of
    the script.  Once an entry is stored, every call is answered with it,
    whatever file is handed over, until [st.cache_data.clear()].  An
    exception of the body stores nothing. *)
Definition process_uploaded_file (pd : Pandas) (cache : option NewDf)
    (file : Frame Scalar) : option NewDf * option NewDf :=
  match cache with
  | Some df => (cache, Some df)
  | None =>
      let result := process_uploaded_file_body pd file in
      (result, result)
  end.

(** An uploaded file: the digest of its bytes and the frame that the
    reader of pandas makes of it. *)
Record File := mkFile {
  file_hash : string;
  file_frame : Frame Scalar
}.

(** The entry of [st.cache_data] for [process_uploaded_file] and the two
    keys of the session that the upload section writes. *)
Record UploadState := mkUploadState {
  up_cache : option NewDf;
  current_file_hash : option string;
  ss_new_df : option NewDf
}.

(** [if st.session_state.current_file_hash != current_file_hash: ...
    st.session_state.new_df = process_uploaded_file(uploaded_file)].  The
    boolean tells whether the call raised; the hash is recorded before the
    call. *)
Definition upload_step (pd : Pandas) (st : UploadState)
    (uploaded_file : File) : UploadState * bool :=
  if bool_decide (current_file_hash st = Some (file_hash uploaded_file))
  then (st, false)
  else
    match process_uploaded_file pd (up_cache st)
                                (file_frame uploaded_file) with
    | (cache', Some new_df) =>
        (mkUploadState cache' (Some (file_hash uploaded_file))
                       (Some new_df), false)
    | (cache', None) =>
        (mkUploadState cache' (Some (file_hash uploaded_file))
                       (ss_new_df st), true)
    end.

(** A row of [merged_df], with the columns that the page reads from it. *)
Record Merged := mkMerged {
  m_ID : string;
  m_cells : list Scalar;
  m_Comment : Scalar;
  m_Credibility : Scalar;
  m_Link : string
}.

Definition link_of (id : string) : string :=
  "https://www.instagram.com/" +:+ id.

(** The roster rows that the join pairs with an identity. *)
Definition matches_of (roster : list RosterRow) (id : string)
  : list RosterRow :=
  filter (λ r, ros_ID r = id) roster.

(** The cell of a row of the upload under a label of its own, if the
    upload has that label. *)
Definition own (label : string) (new_df : NewDf) (c : Candidate)
  : option Scalar :=
  (λ i, default NaN (cand_cells c !! i)) <$> index_of label (nd_labels new_df).

(** [merged_df[label]] for "Comment" or "Credibility" on one joined row.
    With [suffixes=("", "_sheet")] a label that both frames have stays with
    the column of the upload, and the column of the roster is found under
    [label_sheet]: the upload's own cell is read when it has the label,
    and the roster's cell, missing on a row without match, when not. *)
Definition merged_cell (label : string) (new_df : NewDf) (c : Candidate)
    (of_roster : Scalar) : Scalar :=
  default of_roster (own label new_df c).

(** The rows that one row of the upload gives in the left join: one per
    roster row of that identity, in roster order, or one with missing
    roster cells. *)
Definition merge_row (new_df : NewDf) (roster : list RosterRow)
    (c : Candidate) : list Merged :=
  match matches_of roster (cand_ID c) with
  | [] => [mkMerged (cand_ID c) (cand_cells c)
                    (merged_cell "Comment" new_df c NaN)
                    (merged_cell "Credibility" new_df c NaN)
                    (link_of (cand_ID c))]
  | matches =>
      (λ r, mkMerged (cand_ID c) (cand_cells c)
                     (merged_cell "Comment" new_df c (ros_Comment r))
                     (merged_cell "Credibility" new_df c
                                  (Str (ros_Credibility r)))
                     (link_of (cand_ID c))) <$> matches
  end.

(** The labels that the join gives to the columns of the roster, the key
    apart: [label_sheet] for a label that the upload has too. *)
Definition suffixed (left right : list string) : list string :=
  (λ x, if bool_decide (x ∈ left) then x +:+ "_sheet" else x)
    <$> filter (λ x, x ≠ "ID") right.

(** [new_df.merge(inf_df, on="ID", how="left", suffixes=("", "_sheet"))].
    [None] is the [MergeError] of a pandas that refuses a suffix which
    makes two labels of the roster one (the roster has no label twice
    before). *)
Definition merge (pd : Pandas) (new_df : NewDf) (roster : Roster)
  : option (list Merged) :=
  if merge_error pd
     && negb (bool_decide
                (NoDup (suffixed (nd_labels new_df) (ros_columns roster))))
  then None
  else Some (nd_rows new_df ≫= merge_row new_df (ros_rows roster)).

(** [merged_df["Credibility"].isin(["false", "False"])] *)
Definition isin_false (m : Merged) : bool :=
  match m_Credibility m with
  | Str v => String.eqb v "false" || String.eqb v "False"
  | _ => false
  end.

(** [merged_df["Credibility"].isna()] *)
Definition isna (m : Merged) : bool :=
  match m_Credibility m with
  | NaN => true
  | _ => false
  end.

Record RejectedRow := mkRejected {
  rej_ID : string;
  rej_Comment : Scalar;
  rej_Link : string
}.

Record UnknownRow := mkUnknown {
  unk_ID : string;
  unk_Link : string;
  unk_Comment : string;
  unk_Select_Sheet : bool;
  unk_Status : string
}.

Record PendingRow := mkPending {
  pen_ID : string;
  pen_cells : list Scalar;
  pen_Link : string;
  pen_Select : bool;
  pen_Compare : bool
}.

Record Partition := mkPartition {
  pending_df : list PendingRow;
  rejected_df : list RejectedRow;
  unknown_df : list UnknownRow
}.

(** The categorisation, from [merged_df] to the three frames kept in the
    session.  A pending row is the row of the upload with the columns
    "Link", "Select" and "Compare" that the page sets; the metric columns
    that the upload lacks are added empty to [pending_df] and are left out
    here. *)
Definition categorize (new_df : NewDf) (merged_df : list Merged)
  : Partition :=
  let rejected :=
    (λ m, mkRejected (m_ID m) (m_Comment m) (m_Link m))
      <$> filter (λ m, isin_false m = true) merged_df in
  let unknown :=
    (λ m, mkUnknown (m_ID m) (m_Link m) "No comment yet" false "Rejected")
      <$> filter (λ m, isna m = true) merged_df in
  let pending_ids : gset string :=
    list_to_set (cand_ID <$> nd_rows new_df)
      ∖ list_to_set (rej_ID <$> rejected)
      ∖ list_to_set (unk_ID <$> unknown) in
  let pending :=
    (λ c, mkPending (cand_ID c) (cand_cells c) (link_of (cand_ID c))
                    true false)
      <$> filter (λ c, cand_ID c ∈ pending_ids) (nd_rows new_df) in
  mkPartition pending rejected unknown.

(** The merge of the upload against the roster and the categorisation;
    [None] when the merge raises. *)
Definition reconcile (pd : Pandas) (new_df : NewDf) (roster : Roster)
  : option Partition :=
  categorize new_df <$> merge pd new_df roster.

(** The identities held by each bucket, and by the upload. *)
Definition pending_ids (p : Partition) : gset string :=
  list_to_set (pen_ID <$> pending_df p).
Definition rejected_ids (p : Partition) : gset string :=
  list_to_set (rej_ID <$> rejected_df p).
Definition unknown_ids (p : Partition) : gset string :=
  list_to_set (unk_ID <$> unknown_df p).
Definition identities (new_df : NewDf) : gset string :=
  list_to_set (cand_ID <$> nd_rows new_df).

End ListPage.

(** ** The digest of [hashlib.md5]

    MD5 as RFC 1321 defines it, on 32-bit words held in [N] with the
    wrap-around written out, and [str.encode()], the UTF-8 form of a
    string. *)

Module Md5.

Definition mask32 (x : N) : N := N.land x 0xffffffff.
Definition add32 (x y : N) : N := mask32 (x + y).
Definition not32 (x : N) : N := N.lxor (mask32 x) 0xffffffff.
Definition rotl32 (x s : N) : N :=
  mask32 (N.lor (N.shiftl x s) (N.shiftr (mask32 x) (32 - s))).

(** The per-round shift amounts. *)
Definition shifts : list N :=
  [7; 12; 17; 22; 7; 12; 17; 22; 7; 12; 17; 22; 7; 12; 17; 22;
   5; 9; 14; 20; 5; 9; 14; 20; 5; 9; 14; 20; 5; 9; 14; 20;
   4; 11; 16; 23; 4; 11; 16; 23; 4; 11; 16; 23; 4; 11; 16; 23;
   6; 10; 15; 21; 6; 10; 15; 21; 6; 10; 15; 21; 6; 10; 15; 21]%N.

(** The integer parts of [2^32 * abs (sin (i + 1))]. *)
Definition sines : list N :=
  [0xd76aa478; 0xe8c7b756; 0x242070db; 0xc1bdceee;
   0xf57c0faf; 0x4787c62a; 0xa8304613; 0xfd469501;
   0x698098d8; 0x8b44f7af; 0xffff5bb1; 0x895cd7be;
   0x6b901122; 0xfd987193; 0xa679438e; 0x49b40821;
   0xf61e2562; 0xc040b340; 0x265e5a51; 0xe9b6c7aa;
   0xd62f105d; 0x02441453; 0xd8a1e681; 0xe7d3fbc8;
   0x21e1cde6; 0xc33707d6; 0xf4d50d87; 0x455a14ed;
   0xa9e3e905; 0xfcefa3f8; 0x676f02d9; 0x8d2a4c8a;
   0xfffa3942; 0x8771f681; 0x6d9d6122; 0xfde5380c;
   0xa4beea44; 0x4bdecfa9; 0xf6bb4b60; 0xbebfbc70;
   0x289b7ec6; 0xeaa127fa; 0xd4ef3085; 0x04881d05;
   0xd9d4d039; 0xe6db99e5; 0x1fa27cf8; 0xc4ac5665;
   0xf4292244; 0x432aff97; 0xab9423a7; 0xfc93a039;
   0x655b59c3; 0x8f0ccc92; 0xffeff47d; 0x85845dd1;
   0x6fa87e4f; 0xfe2ce6e0; 0xa3014314; 0x4e0811a1;
   0xf7537e82; 0xbd3af235; 0x2ad7d2bb; 0xeb86d391]%N.

(** [s.encode()]: the UTF-8 bytes of a string of code points below 256. *)
Fixpoint encode (s : string) : list N :=
  match s with
  | EmptyString => []
  | String c s' =>
      let n := N_of_ascii c in
      if (n <? 128)%N then n :: encode s'
      else (0xc0 + n / 64)%N :: (0x80 + n mod 64)%N :: encode s'
  end.

(** The [k] low bytes of [x], lowest first. *)
Fixpoint le_bytes (k : nat) (x : N) : list N :=
  match k with
  | O => []
  | S k' => (x mod 256)%N :: le_bytes k' (x / 256)%N
  end.

(** The message, a 1 bit, zeros up to 56 modulo 64 bytes, and the length
    in bits on 64 bits. *)
Definition pad (msg : list N) : list N :=
  let len := length msg in
  msg ++ [0x80%N] ++ replicate ((119 - len mod 64) mod 64) 0%N
      ++ le_bytes 8 (N.of_nat len * 8).

(** The blocks of 64 bytes of a padded message. *)
Fixpoint blocks (fuel : nat) (bytes : list N) : list (list N) :=
  match fuel, bytes with
  | S fuel', _ :: _ => take 64 bytes :: blocks fuel' (drop 64 bytes)
  | _, _ => []
  end.

Fixpoint word_of_le (bytes : list N) : N :=
  match bytes with
  | [] => 0
  | b :: bs => (b + 256 * word_of_le bs)%N
  end.

(** The 16 little-endian words of a block. *)
Definition words (block : list N) : list N :=
  (λ j, word_of_le (take 4 (drop (4 * j) block))) <$> seq 0 16.

Definition nth_word (l : list N) (i : nat) : N := default 0%N (l !! i).

(** One of the 64 operations on the state [(a, b, c, d)]. *)
Definition round (m : list N) (st : N * N * N * N) (i : nat)
  : N * N * N * N :=
  let '(a, b, c, d) := st in
  let '(f, g) :=
    if (i <? 16)%nat then
      (N.lor (N.land b c) (N.land (not32 b) d), i)
    else if (i <? 32)%nat then
      (N.lor (N.land d b) (N.land (not32 d) c), (5 * i + 1) mod 16)
    else if (i <? 48)%nat then
      (N.lxor b (N.lxor c d), (3 * i + 5) mod 16)
    else
      (N.lxor c (N.lor b (not32 d)), (7 * i) mod 16) in
  let f' := add32 (add32 (add32 f a) (nth_word sines i)) (nth_word m g) in
  (d, add32 b (rotl32 f' (nth_word shifts i)), b, c).

(** One block folded into the running state. *)
Definition compress (st : N * N * N * N) (block : list N)
  : N * N * N * N :=
  let '(a0, b0, c0, d0) := st in
  let '(a, b, c, d) := fold_left (round (words block)) (seq 0 64) st in
  (add32 a0 a, add32 b0 b, add32 c0 c, add32 d0 d).

Definition initial : N * N * N * N :=
  (0x67452301, 0xefcdab89, 0x98badcfe, 0x10325476)%N.

Definition digest (msg : list N) : list N :=
  let padded := pad msg in
  let '(a, b, c, d) :=
    fold_left compress (blocks (length padded) padded) initial in
  le_bytes 4 a ++ le_bytes 4 b ++ le_bytes 4 c ++ le_bytes 4 d.

Definition hex_digit (n : N) : ascii :=
  if (n <? 10)%N then ascii_of_N (48 + n) else ascii_of_N (87 + n).

Fixpoint hex (bytes : list N) : string :=
  match bytes with
  | [] => EmptyString
  | b :: bs =>
      String (hex_digit (b / 16)%N) (String (hex_digit (b mod 16)%N) (hex bs))
  end.

(** [hashlib.md5(s.encode()).hexdigest()] *)
Definition hexdigest (s : string) : string := hex (digest (encode s)).

End Md5.

(** ** [pages/Credibility.py]: working copy, fingerprint and push *)

Module Credibility.

(** A cell of the credibility column: a boolean after the [replace] of
    [load_data] or from a checkbox, a text that [replace] left as it was,
    or [None]. *)
Inductive Cell :=
  | PStr (s : string)
  | PBool (b : bool)
  | PNone.

#[export] Instance Cell_eq_dec : EqDecision Cell.
Proof. solve_decision. Defined.

(** A row of [full_table].  The identity is a string of the sheet or of
    the form; the comment is a string, or [None] once the editor has
    emptied the cell. *)
Record Row := mkRow {
  row_id : string;
  row_comment : option string;
  row_cred : Cell
}.

(** [influencers_df[[id_col, comment_col, cred_col]]]: the three column
    labels that [load_data] found and the rows under a [RangeIndex]. *)
Record Table := mkTable {
  id_col : string;
  comment_col : string;
  cred_col : string;
  tbl_rows : list Row
}.

Record Session := mkSession {
  full_table : option Table;
  editor_version : nat;
  sheet_version : option string;
  sheet_updated : bool
}.

(** [get_sheet_version], on the rows that [_ws.get_all_values()] gave. *)
Definition version_str (all_values : list (list string)) : string :=
  let last_row :=
    match last all_values with
    | Some r => PyStr.join r
    | None => ""
    end in
  PyStr.str_of_nat (length all_values) +:+ "-" +:+ last_row.

Definition get_sheet_version (all_values : list (list string)) : string :=
  Md5.hexdigest (version_str all_values).

(** The block "SESSION STATE MANAGEMENT": [sheet_version] and
    [influencers_df] are what [get_sheet_version] and [load_data] have just
    returned; the boolean tells whether [st.rerun()] was called. *)
Definition manage_session (ss : Session) (sheet_version_now : string)
    (influencers_df : Table) : Session * bool :=
  let ss1 :=
    match full_table ss with
    | None => mkSession (Some influencers_df) (editor_version ss)
                        (sheet_version ss) (sheet_updated ss)
    | Some _ => ss
    end in
  match sheet_version ss1 with
  | None =>
      (mkSession (full_table ss1) (editor_version ss1)
                 (Some sheet_version_now) (sheet_updated ss1), false)
  | Some recorded =>
      if negb (String.eqb recorded sheet_version_now) then
        (mkSession (Some influencers_df) (S (editor_version ss1))
                   (Some sheet_version_now) (sheet_updated ss1), true)
      else (ss1, false)
  end.

(** A row of [edited_table] as the update loop reads it: the original
    index (missing on a row the editor added) and the two editable cells. *)
Record EditedRow := mkEdited {
  e_orig_index : option nat;
  e_cred : Cell;
  e_comment : option string
}.

(** Python's [a != b] on cells and on comments. *)
Definition cell_ne (a b : Cell) : bool := negb (bool_decide (a = b)).
Definition comment_ne (a b : option string) : bool :=
  negb (bool_decide (a = b)).

(** One turn of the loop over [edited_table.iterrows()], on
    [(updated_full, changes)]; [None] is the [KeyError] of
    [updated_full.at[orig_idx, ...]] on a label the table does not have. *)
Definition edit_step (acc : option (list Row * list nat)) (row : EditedRow)
  : option (list Row * list nat) :=
  '(updated_full, changes) ← acc;
  match e_orig_index row with
  | None => Some (updated_full, changes)
  | Some orig_idx =>
      stored ← updated_full !! orig_idx;
      if cell_ne (row_cred stored) (e_cred row)
         || comment_ne (row_comment stored) (e_comment row)
      then Some (<[orig_idx := mkRow (row_id stored) (e_comment row)
                                     (e_cred row)]> updated_full,
                 changes ++ [orig_idx])
      else Some (updated_full, changes)
  end.

(** How a step of the script ends: it ran through, with or without a call
    of [st.rerun()], or it raised. *)
Inductive Step :=
  | Ran (ss : Session) (rerun : bool)
  | Raised.

(** The block "UPDATE FULL TABLE WITH EDITS". *)
Definition update_full_table (ss : Session) (edited_table : list EditedRow)
  : Step :=
  match full_table ss with
  | None => Raised
  | Some t =>
      match fold_left edit_step edited_table (Some (tbl_rows t, [])) with
      | None => Raised
      | Some (updated_full, []) => Ran ss false
      | Some (updated_full, _ :: _) =>
          Ran (mkSession
                 (Some (mkTable (id_col t) (comment_col t) (cred_col t)
                                updated_full))
                 (S (editor_version ss)) (sheet_version ss)
                 (sheet_updated ss))
              true
      end
  end.

(** One edit of one row: the loop over an edited table that differs from
    the displayed one in that row at most. *)
Definition apply_edit (ss : Session) (row_index : nat) (new_cred : Cell)
    (new_comment : option string) : Step :=
  update_full_table ss [mkEdited (Some row_index) new_cred new_comment].

(** A value sent to the sheet: a string, [None], or the [NaN] that
    [Series.map] gives for a key its dictionary lacks. *)
Inductive Value :=
  | VStr (s : string)
  | VNone
  | VNaN.

(** [df_to_write[cred_col].map({True: "True", False: "False"})] *)
Definition render_cred (c : Cell) : Value :=
  match c with
  | PBool true => VStr "True"
  | PBool false => VStr "False"
  | _ => VNaN
  end.

Definition comment_value (c : option string) : Value :=
  match c with
  | Some s => VStr s
  | None => VNone
  end.

(** [[df_to_write.columns.tolist()] + df_to_write.values.tolist()] *)
Definition sheet_values (df : Table) : list (list Value) :=
  [VStr (id_col df); VStr (comment_col df); VStr (cred_col df)]
    :: ((λ r, [VStr (row_id r); comment_value (row_comment r);
               render_cred (row_cred r)]) <$> tbl_rows df).

(** Modelled from the spec: the remote store's [clear()] ("removes all
    rows") and the write of a block of rows ("replaces content starting at
    row 1"), which the worksheet object of gspread provides.  The write
    covers the cells of its block and leaves every other cell as it was. *)
Definition ws_clear (sheet : list (list Value)) : list (list Value) := [].

Fixpoint overlay {A} (new old : list A) : list A :=
  match new, old with
  | [], _ => old
  | _, [] => new
  | x :: xs, _ :: os => x :: overlay xs os
  end.

Fixpoint ws_update (values sheet : list (list Value)) : list (list Value) :=
  match values, sheet with
  | [], _ => sheet
  | _, [] => values
  | v :: vs, r :: rs => overlay v r :: ws_update vs rs
  end.

(** How a push ends: [update_google_sheet] returned [True] and the sheet
    holds [remote], or one of its two remote calls raised. *)
Inductive PushResult :=
  | Pushed (remote : list (list Value))
  | PushRaised.

(** [update_google_sheet]; [clear_ok] and [update_ok] tell whether the
    remote call goes through.  The page empties [st.cache_data] after every
    push that returns, so each call runs this body. *)
Definition update_google_sheet (clear_ok update_ok : bool) (df : Table)
    (remote : list (list Value)) : PushResult :=
  let values := sheet_values df in
  if clear_ok then
    let cleared := ws_clear remote in
    if update_ok then Pushed (ws_update values cleared) else PushRaised
  else PushRaised.

End Credibility.

(** ** Reading the result of [make_unique_headers] *)

Module Headers.

(** How often [h] occurs in [l]. *)
Definition occurrences (h : string) (l : list string) : nat :=
  length (filter (λ x, x = h) l).

(** The name that the loop gives to a header met [k] times before. *)
Definition name_of (h : string) (k : nat) : string :=
  match k with
  | O => h
  | S _ => h +:+ "_" +:+ PyStr.str_of_nat k
  end.

(** The count that [seen] stands for: the occurrences met so far. *)
Definition seen_count (seen : gmap string nat) (h : string) : nat :=
  match seen !! h with
  | None => 0
  | Some n => S n
  end.

(** [ch in s] for a character. *)
Fixpoint occurs (ch : ascii) (s : string) : bool :=
  match s with
  | EmptyString => false
  | String c s' => Ascii.eqb c ch || occurs ch s'
  end.

Definition is_digit (c : ascii) : bool :=
  let n := nat_of_ascii c in (48 <=? n)%nat && (n <=? 57)%nat.

Fixpoint all_digits (s : string) : bool :=
  match s with
  | EmptyString => true
  | String c s' => is_digit c && all_digits s'
  end.

End Headers.

(** ** A pandas for the examples *)

Module Sample.
Import Utils Headers.

(** A text that reads as a whole number: digits only, one at least and
    fifteen at most. *)
Definition numeral (s : string) : bool :=
  negb (String.eqb s "") && all_digits s && (String.length s <=? 15)%nat.

(** [str(int(s))] for such a text: the leading zeros go. *)
Definition int_shown (s : string) : string :=
  match PyStr.lstrip_chr "0" s with
  | EmptyString => "0"
  | t => t
  end.

(** One record of the behaviour of pandas, for the examples and the
    worked cases below.  It is pandas 2 on the columns put to it there: a
    column of numerals is read as integers, and as floats with missing
    values where some of its cells are empty; a column with a cell that is
    neither stays as it is under [errors='ignore'] and becomes floats and
    missing values under [errors='coerce']; and a merge whose suffix
    repeats a label raises. *)
Definition pandas : Pandas :=
  mkPandas
    (λ col,
       if forallb numeral col then Some (λ s, Num (int_shown s))
       else if forallb (λ s, numeral s || String.eqb s "") col
       then Some (λ s, if String.eqb s "" then NaN
                       else Num (int_shown s +:+ ".0"))
       else None)
    (λ col c,
       let whole :=
         forallb (λ x, match x with Str s => numeral s | _ => false end) col in
       match c with
       | Str s =>
           if numeral s
           then Num (if whole then int_shown s else int_shown s +:+ ".0")
           else NaN
       | _ => c
       end)
    true.

End Sample.

(** ** [utils.py]: the retry decorator and the functions it wraps *)

Module Retry.

(** What one call of the wrapped function does. *)
Inductive Attempt (A E : Type) :=
  | Returns (a : A)
  | Raises (e : E).
Arguments Returns {A E} _.
Arguments Raises {A E} _.

(** How the wrapper ends: with the value of a call, with the [None] that
    follows the loop, or with an exception. *)
Inductive Ended (A E : Type) :=
  | Value (a : A)
  | NoValue
  | Reraised (e : E).
Arguments Value {A E} _.
Arguments NoValue {A E}.
Arguments Reraised {A E} _.

(** A run of the wrapper: how it ended, how many times it called the
    function, and the arguments of its calls of [time.sleep], in order. *)
Record Run (A E : Type) := mkRun {
  ended : Ended A E;
  calls : nat;
  sleeps : list nat
}.
Arguments mkRun {A E} _ _ _.
Arguments ended {A E} _.
Arguments calls {A E} _.
Arguments sleeps {A E} _.

(** [for attempt in range(max_retries): ...] from [attempt] on, with
    [remaining] turns left; [func k] is what call number [k] of the
    wrapped function does. *)
Fixpoint retry_from {A E} (func : nat → Attempt A E)
    (max_retries delay remaining attempt : nat) (slept : list nat)
  : Run A E :=
  match remaining with
  | O => mkRun NoValue attempt slept
  | S remaining' =>
      match func attempt with
      | Returns a => mkRun (Value a) (S attempt) slept
      | Raises e =>
          if (attempt =? max_retries - 1)%nat
          then mkRun (Reraised e) (S attempt) slept
          else retry_from func max_retries delay remaining' (S attempt)
                          (slept ++ [delay * (attempt + 1)])
      end
  end.

(** [retry_on_failure(max_retries, delay)(func)] called once. *)
Definition retry_on_failure {A E} (max_retries delay : nat)
    (func : nat → Attempt A E) : Run A E :=
  retry_from func max_retries delay max_retries 0 [].

(** What the remote calls inside the wrapped functions end in. *)
Inductive RemoteError :=
  | WorksheetNotFound
  | OtherException.

(** What the wrapped functions show with [st.error]. *)
Inductive Shown :=
  | ShownWorksheetNotFound
  | ShownFailedToAccess
  | ShownFailedToAuthenticate.

(** The body of [get_worksheet_by_key]: [remote] is what
    [client.open_by_key(sheet_id).worksheet(worksheet_name)] does. *)
Definition get_worksheet_by_key_body {W} (remote : Attempt W RemoteError)
  : Attempt (option W * list Shown) RemoteError :=
  match remote with
  | Returns worksheet => Returns (Some worksheet, [])
  | Raises WorksheetNotFound => Returns (None, [ShownWorksheetNotFound])
  | Raises OtherException => Returns (None, [ShownFailedToAccess])
  end.

(** [@retry_on_failure(max_retries=2) def get_worksheet_by_key]. *)
Definition get_worksheet_by_key {W} (remote : nat → Attempt W RemoteError)
  : Run (option W * list Shown) RemoteError :=
  retry_on_failure 2 1 (λ k, get_worksheet_by_key_body (remote k)).

(** The body of [get_worksheet_by_url]: one [except Exception]. *)
Definition get_worksheet_by_url_body {W} (remote : Attempt W RemoteError)
  : Attempt (option W * list Shown) RemoteError :=
  match remote with
  | Returns worksheet => Returns (Some worksheet, [])
  | Raises _ => Returns (None, [ShownFailedToAccess])
  end.

(** [@retry_on_failure(max_retries=2) def get_worksheet_by_url]. *)
Definition get_worksheet_by_url {W} (remote : nat → Attempt W RemoteError)
  : Run (option W * list Shown) RemoteError :=
  retry_on_failure 2 1 (λ k, get_worksheet_by_url_body (remote k)).

(** The body of [get_gsheets_client]: [remote] is what the reading of the
    credentials and [gspread.authorize] do. *)
Definition get_gsheets_client_body {C} (remote : Attempt C RemoteError)
  : Attempt (option C * list Shown) RemoteError :=
  match remote with
  | Returns client => Returns (Some client, [])
  | Raises _ => Returns (None, [ShownFailedToAuthenticate])
  end.

(** [@retry_on_failure(max_retries=3) def get_gsheets_client], on a call
    that [st.cache_resource] does not answer from its store. *)
Definition get_gsheets_client {C} (remote : nat → Attempt C RemoteError)
  : Run (option C * list Shown) RemoteError :=
  retry_on_failure 3 1 (λ k, get_gsheets_client_body (remote k)).

End Retry.

(** ** Reading the buckets of [reconcile] *)

Module Buckets.
Import Utils ListPage.

(** A roster row that [isin(["false", "False"])] selects. *)
Definition reads_false (r : RosterRow) : bool :=
  String.eqb (ros_Credibility r) "false"
  || String.eqb (ros_Credibility r) "False".

(** Whether some roster row of identity [id] reads false. *)
Definition rejects (roster : list RosterRow) (id : string) : bool :=
  existsb (λ r, String.eqb (ros_ID r) id && reads_false r) roster.

(** Whether some roster row has identity [id]. *)
Definition on_roster (roster : list RosterRow) (id : string) : bool :=
  bool_decide (id ∈ ros_ID <$> roster).

(** A cell that [isin(["false", "False"])] selects. *)
Definition is_false (x : Scalar) : bool :=
  match x with
  | Str v => String.eqb v "false" || String.eqb v "False"
  | _ => false
  end.

(** An identity that the upload classifies both ways by a "Credibility"
    column of its own: one of its rows reads "false" or "False" there and
    another has the cell missing. *)
Definition split_identity (new_df : NewDf) (id : string) : Prop :=
  ∃ c1 c2 x, c1 ∈ nd_rows new_df ∧ c2 ∈ nd_rows new_df
    ∧ cand_ID c1 = id ∧ cand_ID c2 = id
    ∧ own "Credibility" new_df c1 = Some x ∧ is_false x = true
    ∧ own "Credibility" new_df c2 = Some NaN.

End Buckets.

(** ** [pages/Credibility.py]: filters, the form, and loading the sheet *)

Module Editor.
Import Credibility.

(** [mask &= df[cred_col] == cred_filter], for a [cred_filter] that is not
    "All": [None] stands for "All", [Some b] for the boolean picked. *)
Definition cred_matches (cred_filter : option bool) (c : Cell) : bool :=
  match cred_filter with
  | None => true
  | Some b => bool_decide (c = PBool b)
  end.

(** [mask &= df[comment_col] == comment_filter], unless the filter is
    "All". *)
Definition comment_matches (comment_filter : string) (c : option string)
  : bool :=
  if String.eqb comment_filter "All" then true
  else bool_decide (c = Some comment_filter).

(** [get_filtered_table()] followed by [reset_index()]: the rows that pass
    both filters, each with its index in [full_table] (the column
    [__orig_index]).  The column "Status", made from the credibility and
    shown read-only, is left out. *)
Definition display_df (t : Table) (cred_filter : option bool)
    (comment_filter : string) : list (nat * Row) :=
  filter (λ ir, cred_matches cred_filter (row_cred ir.2)
                && comment_matches comment_filter (row_comment ir.2) = true)
         (imap (λ i r, (i, r)) (tbl_rows t)).

(** A displayed row as the update loop reads it back from the editor. *)
Definition as_edited (ir : nat * Row) : EditedRow :=
  mkEdited (Some ir.1) (row_cred ir.2) (row_comment ir.2).

(** An edited row that repeats what the table holds at its index. *)
Definition repeats (rows : list Row) (e : EditedRow) : Prop :=
  match e_orig_index e with
  | None => True
  | Some i => ∃ stored, rows !! i = Some stored
                ∧ row_cred stored = e_cred e
                ∧ row_comment stored = e_comment e
  end.

(** Whether the index of an edited row is a label of a table of [n]
    rows. *)
Definition in_range (n : nat) (e : EditedRow) : Prop :=
  match e_orig_index e with
  | None => True
  | Some i => (i < n)%nat
  end.

(** [full_table[full_table[id_col] == new_id].index.tolist()], first
    entry. *)
Fixpoint find_id (id : string) (rows : list Row) : option nat :=
  match rows with
  | [] => None
  | r :: rs => if String.eqb (row_id r) id then Some 0 else S <$> find_id id rs
  end.

(** The form "Add / Update Influencer" once submitted: without an ID an
    error is shown and nothing else happens; otherwise the cleaned ID is
    looked up, its first row is updated in place or a new row is put in
    front, the edit version goes up and the script reruns. *)
Definition add_or_update (ss : Session) (new_id new_comment : string)
    (new_cred : bool) : Step :=
  if String.eqb new_id "" then Ran ss false
  else
    match full_table ss with
    | None => Raised
    | Some t =>
        let new_id := normalize new_id in
        let rows' :=
          match find_id new_id (tbl_rows t) with
          | Some idx =>
              alter (λ r, mkRow (row_id r) (Some new_comment)
                                (PBool new_cred)) idx (tbl_rows t)
          | None =>
              mkRow new_id (Some new_comment) (PBool new_cred) :: tbl_rows t
          end in
        Ran (mkSession
               (Some (mkTable (id_col t) (comment_col t) (cred_col t) rows'))
               (S (editor_version ss)) (sheet_version ss) (sheet_updated ss))
            true
    end.

(** The first row of identity [id], if there is one. *)
Definition row_of (id : string) (rows : list Row) : option Row :=
  find_id id rows ≫= (rows !!.).

(** [needle in s] on strings. *)
Fixpoint contains (needle s : string) : bool :=
  String.prefix needle s
  || match s with
     | EmptyString => false
     | String _ s' => contains needle s'
     end.

(** [next(c for c in df.columns if needle in c)]; [None] is the
    [StopIteration]. *)
Definition find_col (needle : string) (cols : list string) : option string :=
  head (filter (λ c, contains needle c = true) cols).

(** [df[cred_col].replace({"TRUE": True, ..., "false": False})] on one
    cell; no cell of the sheet is missing, so [fillna(False)] finds
    nothing to fill. *)
Definition replace_cred (s : string) : Cell :=
  if bool_decide (s ∈ ["TRUE"; "True"; "true"]) then PBool true
  else if bool_decide (s ∈ ["FALSE"; "False"; "false"]) then PBool false
  else PStr s.

(** How [load_data] ends on the grid of the sheet: with the frame and
    the three labels it found, or with an exception. *)
Inductive LoadData :=
  | LoadedFrame (df : Utils.Frame Cell) (id_col cred_col comment_col : string)
  | LoadRaised.

(** [load_data].  It raises on a grid without header row ([data[0]]), on
    a data row that is not as wide as the header
    ([pd.DataFrame(data[1:], columns=headers)]), and when no label holds
    "ID", "Credibility" or "Comment" (the [StopIteration] of [next]).  The
    cells under the label [cred_col] go through [replace]; no cell of the
    sheet is missing, so [fillna(False)] fills nothing. *)
Definition load_data (data : list (list string)) : LoadData :=
  match data with
  | [] => LoadRaised
  | header :: body =>
      let headers := Utils.make_unique_headers header in
      match Utils.data_frame body headers with
      | None => LoadRaised
      | Some df =>
          match find_col "ID" headers, find_col "Credibility" headers,
                find_col "Comment" headers with
          | Some id_col, Some cred_col, Some comment_col =>
              LoadedFrame
                (Utils.mkFrame headers
                   ((λ r, zip_with
                            (λ label s, if String.eqb label cred_col
                                        then replace_cred s else PStr s)
                            headers r)
                      <$> Utils.rows df))
                id_col cred_col comment_col
          | _, _, _ => LoadRaised
          end
      end
  end.

(** The text of a cell that [replace] did not touch. *)
Definition cell_text (c : Cell) : option string :=
  match c with
  | PStr s => Some s
  | _ => None
  end.

(** [influencers_df[[id_col, comment_col, cred_col]].copy()] as a table of
    three columns.  It is one when the three labels differ and each is
    borne by one column of the frame; otherwise the selection has a label
    twice, and [None] stands for such a frame, which [Table] does not
    hold. *)
Definition select_table (df : Utils.Frame Cell)
    (id_col comment_col cred_col : string) : option Table :=
  if bool_decide (NoDup [id_col; comment_col; cred_col])
     && forallb (λ label, (Headers.occurrences label (Utils.columns df) =? 1)%nat)
                [id_col; comment_col; cred_col]
  then
    i ← Utils.index_of id_col (Utils.columns df);
    j ← Utils.index_of comment_col (Utils.columns df);
    k ← Utils.index_of cred_col (Utils.columns df);
    Some (mkTable id_col comment_col cred_col
            ((λ r, mkRow (default "" (r !! i ≫= cell_text))
                         (r !! j ≫= cell_text)
                         (default PNone (r !! k)))
               <$> Utils.rows df))
  else None.

(** A row that a push writes with a string in each cell: its comment is
    a string and its credibility a boolean. *)
Definition writable (r : Row) : Prop :=
  ∃ c b, row_comment r = Some c ∧ row_cred r = PBool b.

(** The cells of such a row as the sheet shows them. *)
Definition row_texts (r : Row) : list string :=
  [row_id r; default "" (row_comment r);
   match row_cred r with
   | PBool true => "True"
   | PBool false => "False"
   | _ => ""
   end].

(** Modelled from the spec: the remote store's [get_all_rows()], "all
    cells as strings", on a sheet that holds what was written to it: a
    string reads back as it is, a cell never written reads back empty.
    [None]: a [NaN] is no content of a cell. *)
Definition shown (v : Value) : option string :=
  match v with
  | VStr s => Some s
  | VNone => Some ""
  | VNaN => None
  end.

Definition get_all_values (sheet : list (list Value))
  : option (list (list string)) :=
  mapM (mapM shown) sheet.

End Editor.

(** ** [pages.List.py]: adding unknown candidates to the sheet, and the
    start of a run of the page *)

Module Commit.
Import Credibility ListPage.

(** A row of [unknown_edited], the unknown frame as the editor hands it
    back: the identity and the comment are strings, or [None] once
    emptied; the status is one of the options of its select box. *)
Record EditedUnknown := mkEditedUnknown {
  eu_ID : option string;
  eu_Comment : option string;
  eu_Status : string;
  eu_Select_Sheet : bool
}.

(** A row of the unknown frame as the editor hands it back untouched. *)
Definition untouched (u : UnknownRow) : EditedUnknown :=
  mkEditedUnknown (Some (unk_ID u)) (Some (unk_Comment u)) (unk_Status u)
                  (unk_Select_Sheet u).

(** [to_add["Status"].map({"Approved": "True", "Rejected": "False"})] *)
Definition status_value (status : string) : Value :=
  if String.eqb status "Approved" then VStr "True"
  else if String.eqb status "Rejected" then VStr "False"
  else VNaN.

(** [to_add[["ID", "Comment", "Credibility"]].values.tolist()] *)
Definition values_to_append (to_add : list EditedUnknown)
  : list (list Value) :=
  (λ e, [comment_value (eu_ID e); comment_value (eu_Comment e);
         status_value (eu_Status e)]) <$> to_add.

(** Modelled from the spec: the remote store's [append_rows], which
    "appends without disturbing existing rows". *)
Definition ws_append_rows (values sheet : list (list Value))
  : list (list Value) :=
  sheet ++ values.

(** What a run of the page works on: the sheet, the store of
    [st.cache_data] for [load_all_data], and the keys of the session that
    the page reads at its start. *)
Record State := mkState {
  st_remote : list (list Value);
  st_cache : option Loaded;
  st_current_page : option string;
  st_sheet_updated : bool;
  st_session : Session
}.

(** How a click on "Add Selected to Google Sheet" ends. *)
Inductive Clicked :=
  | NothingSelected
  | Added (st : State)
  | AppendFailed.

(** The handler of the button; [append_ok] tells whether the remote call
    goes through.  After a call that went through the script reruns. *)
Definition add_selected (append_ok : bool)
    (unknown_edited : list EditedUnknown) (st : State) : Clicked :=
  match filter (λ e, eu_Select_Sheet e = true) unknown_edited with
  | [] => NothingSelected
  | to_add =>
      if append_ok then
        Added (mkState (ws_append_rows (values_to_append to_add)
                                       (st_remote st))
                       None (st_current_page st) true (st_session st))
      else AppendFailed
  end.

(** The start of a run of the page, up to the load: the check of
    [current_page] and the check of [sheet_updated]. *)
Definition enter_page (st : State) : State :=
  let page := default "list" (st_current_page st) in
  let st1 :=
    if negb (String.eqb page "list") then
      mkState (st_remote st) None (Some "list") (st_sheet_updated st)
              (mkSession false (ss_inf_df (st_session st))
                         (ss_master_df (st_session st)))
    else
      mkState (st_remote st) (st_cache st) (Some page)
              (st_sheet_updated st) (st_session st) in
  if st_sheet_updated st1 then
    mkState (st_remote st1) None (st_current_page st1) false
            (mkSession false (ss_inf_df (st_session st1))
                       (ss_master_df (st_session st1)))
  else st1.

(** A run of the page up to and with the load, on the worksheets as they
    are fetched now. *)
Definition run_to_load (pd : Utils.Pandas) (st : State)
    (ws_inf ws_master : Utils.Fetch)
  : State * list Utils.Message * bool :=
  let st1 := enter_page st in
  let '(cache, session, msgs, stopped) :=
    load_step pd (st_cache st1) (st_session st1) ws_inf ws_master in
  (mkState (st_remote st1) cache (st_current_page st1)
           (st_sheet_updated st1) session, msgs, stopped).

End Commit.

(** ** Facts about the string primitives *)

Section PyStrFacts.
Import PyStr.

Lemma lstrip_no_leading_space s : starts_with_space (lstrip s) = false.
Proof.
  induction s as [|c s IH]; [reflexivity|].
  simpl. destruct (is_space c) eqn:Hc; [exact IH|].
  unfold starts_with_space. simpl. exact Hc.
Qed.

Lemma rstrip_cons c s :
  rstrip (String c s) =
  if decide (rstrip s = EmptyString)
  then (if is_space c then EmptyString else String c EmptyString)
  else String c (rstrip s).
Proof.
  simpl. destruct (rstrip s); case_decide; congruence.
Qed.

Lemma rstrip_no_trailing_space s : ends_with_space (rstrip s) = false.
Proof.
  induction s as [|c s IH]; [reflexivity|].
  rewrite rstrip_cons. case_decide as He.
  - destruct (is_space c) eqn:Hc; [reflexivity|].
    unfold ends_with_space. simpl. exact Hc.
  - unfold ends_with_space in *. simpl.
    destruct (rstrip s) eqn:Hr; [congruence|]. exact IH.
Qed.

Lemma rstrip_first_chr s :
  starts_with_space s = false → first_chr (rstrip s) = first_chr s.
Proof.
  destruct s as [|c s]; [reflexivity|].
  unfold starts_with_space. simpl. intros Hc.
  destruct (rstrip s); [rewrite Hc|]; reflexivity.
Qed.

Lemma rstrip_keeps_no_leading_space s :
  starts_with_space s = false → starts_with_space (rstrip s) = false.
Proof.
  intros H. unfold starts_with_space. rewrite rstrip_first_chr by exact H.
  exact H.
Qed.

Lemma strip_no_leading_space s : starts_with_space (strip s) = false.
Proof. apply rstrip_keeps_no_leading_space, lstrip_no_leading_space. Qed.

Lemma strip_no_trailing_space s : ends_with_space (strip s) = false.
Proof. apply rstrip_no_trailing_space. Qed.

Lemma lstrip_id s : starts_with_space s = false → lstrip s = s.
Proof.
  destruct s as [|c s]; [reflexivity|].
  unfold starts_with_space. simpl. intros ->. reflexivity.
Qed.

Lemma rstrip_id s : ends_with_space s = false → rstrip s = s.
Proof.
  induction s as [|c s IH]; [reflexivity|].
  intros H. rewrite rstrip_cons.
  destruct s as [|d s].
  - unfold ends_with_space in H. simpl in *. rewrite H. reflexivity.
  - assert (Hs : ends_with_space (String d s) = false) by exact H.
    rewrite (IH Hs). case_decide; [congruence|reflexivity].
Qed.

Lemma strip_id s :
  starts_with_space s = false → ends_with_space s = false → strip s = s.
Proof.
  intros Hl Hr. unfold strip. rewrite (lstrip_id _ Hl). apply rstrip_id, Hr.
Qed.

Lemma strip_idempotent s : strip (strip s) = strip s.
Proof.
  apply strip_id; [apply strip_no_leading_space|apply strip_no_trailing_space].
Qed.

Lemma lstrip_chr_no_leading ch s : starts_with ch (lstrip_chr ch s) = false.
Proof.
  induction s as [|c s IH]; [reflexivity|].
  simpl. destruct (Ascii.eqb c ch) eqn:Hc; [exact IH|].
  unfold starts_with. simpl. exact Hc.
Qed.

Lemma lstrip_chr_id ch s : starts_with ch s = false → lstrip_chr ch s = s.
Proof.
  destruct s as [|c s]; [reflexivity|].
  unfold starts_with. simpl. intros ->. reflexivity.
Qed.

Lemma strip_first_chr s :
  starts_with_space s = false → first_chr (strip s) = first_chr s.
Proof.
  intros H. unfold strip. rewrite (lstrip_id _ H). apply rstrip_first_chr, H.
Qed.

Lemma strip_first_chr_lstrip s : first_chr (strip s) = first_chr (lstrip s).
Proof. apply rstrip_first_chr, lstrip_no_leading_space. Qed.

Lemma length_lstrip s : (String.length (lstrip s) ≤ String.length s)%nat.
Proof.
  induction s as [|c s IH]; [done|]. simpl.
  destruct (is_space c); simpl; lia.
Qed.

Lemma length_rstrip s : (String.length (rstrip s) ≤ String.length s)%nat.
Proof.
  induction s as [|c s IH]; [done|]. rewrite rstrip_cons.
  case_decide; [destruct (is_space c)|]; simpl; lia.
Qed.

Lemma length_strip s : (String.length (strip s) ≤ String.length s)%nat.
Proof.
  unfold strip. pose proof (length_rstrip (lstrip s)).
  pose proof (length_lstrip s). lia.
Qed.

Lemma length_lstrip_chr ch s :
  (String.length (lstrip_chr ch s) ≤ String.length s)%nat.
Proof.
  induction s as [|c s IH]; [done|]. simpl.
  destruct (Ascii.eqb c ch); simpl; lia.
Qed.

Lemma length_lstrip_chr_lt ch s :
  starts_with ch s = true →
  (String.length (lstrip_chr ch s) < String.length s)%nat.
Proof.
  destruct s as [|c s]; [discriminate|].
  unfold starts_with. simpl. intros ->.
  pose proof (length_lstrip_chr ch s). lia.
Qed.

End PyStrFacts.

(** ** The identity normaliser *)

Section NormalizeFacts.
Import PyStr.

Lemma normalize_drops_every_leading_at s :
  normalize (String "@" s) = normalize s.
Proof. reflexivity. Qed.

Lemma normalize_trimmed s :
  starts_with_space (normalize s) = false
  ∧ ends_with_space (normalize s) = false.
Proof.
  split; [apply strip_no_leading_space|apply strip_no_trailing_space].
Qed.

Lemma normalize_fixpoint s :
  starts_with "@" (normalize s) = false → normalize (normalize s) = normalize s.
Proof.
  intros H. unfold normalize at 1.
  rewrite (lstrip_chr_id _ _ H). apply strip_idempotent.
Qed.

(** The code and the wording of the specification part on a doubled "@". *)
Lemma normalize_differs_from_specified :
  normalize "@@bob" = "bob" ∧ normalize_as_specified "@@bob" = "@bob".
Proof. split; reflexivity. Qed.

(** C2, as stated, fails: with a blank before the "@" the result still
    starts with "@", and a second pass changes it. *)
Lemma normalize_keeps_at_after_blank :
  normalize " @bob" = "@bob"
  ∧ starts_with "@" (normalize " @bob") = true
  ∧ normalize (normalize " @bob") ≠ normalize " @bob".
Proof. split; [reflexivity|]. split; [reflexivity|]. discriminate. Qed.

Lemma normalize_first_chr s :
  starts_with "@" (normalize s) = starts_with "@" (lstrip (lstrip_chr "@" s)).
Proof. unfold starts_with, normalize. by rewrite strip_first_chr_lstrip. Qed.

Lemma normalize_shrinks s :
  starts_with "@" (normalize s) = true →
  normalize (normalize s) ≠ normalize s.
Proof.
  intros H Heq. apply (length_lstrip_chr_lt "@") in H.
  pose proof (length_strip (lstrip_chr "@" (normalize s))) as Hs.
  fold (normalize (normalize s)) in Hs. rewrite Heq in Hs. lia.
Qed.

(** C2, amended: [normalize] drops every leading "@" and then trims; its
    result has no blank at either end; and it has no leading "@", and a
    second pass leaves it as it is, exactly when the first character of
    [s] after its leading "@"s and the blanks that follow them is no
    "@". *)
Theorem normalize_clean_and_idempotent (s : string) :
  normalize (String "@" s) = normalize s
  ∧ starts_with_space (normalize s) = false
  ∧ ends_with_space (normalize s) = false
  ∧ (starts_with "@" (normalize s) = false
     ↔ starts_with "@" (lstrip (lstrip_chr "@" s)) = false)
  ∧ (normalize (normalize s) = normalize s
     ↔ starts_with "@" (lstrip (lstrip_chr "@" s)) = false).
Proof.
  split; [reflexivity|].
  destruct (normalize_trimmed s) as [Hl Hr].
  split; [exact Hl|]. split; [exact Hr|].
  rewrite <- normalize_first_chr. split; [done|]. split.
  - intros Heq. destruct (starts_with "@" (normalize s)) eqn:Hat; [|done].
    by destruct (normalize_shrinks s Hat).
  - apply normalize_fixpoint.
Qed.

(** The two sides of the condition: a blank, or nothing, between the
    leading "@"s and the name. *)
Example normalize_on_blanks :
  normalize " bob" = "bob" ∧ normalize "@ bob" = "bob"
  ∧ normalize "@@bob " = "bob" ∧ normalize "@ @bob" = "@bob".
Proof. repeat split; reflexivity. Qed.

End NormalizeFacts.

(** ** [make_unique_headers] *)

Section HeaderFacts.
Import Utils.

Lemma unique_step_eq seen result h :
  unique_step (seen, result) h = (counted seen h, result ++ [renamed seen h]).
Proof. unfold unique_step, counted, renamed. destruct (seen !! h); reflexivity. Qed.

Lemma fold_unique_step headers : ∀ seen result,
  snd (fold_left unique_step headers (seen, result))
  = result ++ unique_from seen headers.
Proof.
  induction headers as [|h hs IH]; intros seen result; cbn [fold_left].
  - simpl. by rewrite app_nil_r.
  - rewrite unique_step_eq, IH, <- app_assoc. reflexivity.
Qed.

Lemma make_unique_headers_unfold headers :
  make_unique_headers headers = unique_from ∅ headers.
Proof. unfold make_unique_headers. by rewrite fold_unique_step. Qed.

Lemma unique_from_length headers : ∀ seen,
  length (unique_from seen headers) = length headers.
Proof. induction headers as [|h hs IH]; intros seen; simpl; [done|by rewrite IH]. Qed.

Lemma make_unique_headers_length headers :
  length (make_unique_headers headers) = length headers.
Proof. rewrite make_unique_headers_unfold. apply unique_from_length. Qed.

Lemma counted_lookup_ne seen h k :
  h ≠ k → counted seen h !! k = seen !! k.
Proof.
  intros Hne. unfold counted.
  destruct (seen !! h); by rewrite lookup_insert_ne.
Qed.

Lemma unique_from_first_occurrence headers : ∀ seen i h,
  headers !! i = Some h → h ∉ take i headers → seen !! h = None →
  unique_from seen headers !! i = Some h.
Proof.
  induction headers as [|k hs IH]; intros seen i h Hi Hnot Hseen; [done|].
  destruct i as [|i]; simpl in *.
  - injection Hi as ->. unfold renamed. by rewrite Hseen.
  - apply IH; [done| |].
    + intros Hin. apply Hnot. by right.
    + rewrite counted_lookup_ne; [done|].
      intros ->. apply Hnot. by left.
Qed.

(** The first occurrence of a header keeps its name. *)
Lemma make_unique_headers_first_occurrence headers i h :
  headers !! i = Some h → h ∉ take i headers →
  make_unique_headers headers !! i = Some h.
Proof.
  intros Hi Hnot. rewrite make_unique_headers_unfold.
  by apply unique_from_first_occurrence.
Qed.

(** A later occurrence of a header gets the header, "_" and a count. *)
Lemma unique_from_repeat headers : ∀ seen i h n,
  headers !! i = Some h → h ∉ take i headers → seen !! h = Some n →
  unique_from seen headers !! i
  = Some (h +:+ "_" +:+ PyStr.str_of_nat (S n)).
Proof.
  induction headers as [|k hs IH]; intros seen i h n Hi Hnot Hseen; [done|].
  destruct i as [|i]; simpl in *.
  - injection Hi as ->. unfold renamed. by rewrite Hseen.
  - apply IH; [done| |].
    + intros Hin. apply Hnot. by right.
    + rewrite counted_lookup_ne; [done|].
      intros ->. apply Hnot. by left.
Qed.

(** C10: the result of [make_unique_headers] can hold a header twice: the
    name made for a repeat of "a" is the name of a later header. *)
Theorem make_unique_headers_collision :
  make_unique_headers ["a"; "a"; "a_1"] = ["a"; "a_1"; "a_1"]
  ∧ ¬ NoDup (make_unique_headers ["a"; "a"; "a_1"]).
Proof.
  assert (E : make_unique_headers ["a"; "a"; "a_1"] = ["a"; "a_1"; "a_1"])
    by (vm_compute; reflexivity).
  split; [exact E|]. rewrite E. intros Hnd.
  apply NoDup_cons in Hnd as [_ Hnd].
  apply NoDup_cons in Hnd as [Hin _].
  apply Hin. by left.
Qed.

End HeaderFacts.

(** ** Reconciliation of an upload against the roster *)

Section ReconcileFacts.
Import PyStr Utils ListPage Buckets.

Implicit Types (pd : Pandas) (new_df : NewDf) (roster : Roster).
Implicit Types (rows : list RosterRow) (merged_df : list Merged).
Implicit Types (c : Candidate) (m : Merged) (id : string) (p : Partition).

Lemma index_of_None name cols : index_of name cols = None ↔ name ∉ cols.
Proof.
  induction cols as [|c cs IH]; simpl.
  - split; [intros _ ?%elem_of_nil|]; done.
  - rewrite not_elem_of_cons.
    destruct (String.eqb_spec c name) as [->|Hne].
    + split; [done|]. by intros [? _].
    + destruct (index_of name cs); simpl.
      * split; [done|]. intros [_ H]. by apply IH in H.
      * split; [|done]. intros _. split; [congruence|]. by apply IH.
Qed.

(** Without a label of its own the upload leaves the cell to the roster;
    with one, every joined row of a candidate bears the candidate's cell. *)
Lemma own_None label new_df c :
  label ∉ nd_labels new_df → own label new_df c = None.
Proof. intros H%index_of_None. unfold own. by rewrite H. Qed.

Lemma own_is_Some label new_df c :
  label ∈ nd_labels new_df → is_Some (own label new_df c).
Proof.
  intros H. unfold own.
  destruct (index_of label (nd_labels new_df)) as [i|] eqn:E; [by eexists|].
  by apply index_of_None in E.
Qed.

Lemma merged_cell_roster label new_df c x :
  label ∉ nd_labels new_df → merged_cell label new_df c x = x.
Proof. intros H. unfold merged_cell. by rewrite own_None. Qed.

Lemma merged_cell_own label new_df c x y :
  own label new_df c = Some y → merged_cell label new_df c x = y.
Proof. intros H. unfold merged_cell. by rewrite H. Qed.

Lemma elem_of_merge_row new_df rows c m :
  m ∈ merge_row new_df rows c →
  m_ID m = cand_ID c ∧ m_cells m = cand_cells c
  ∧ m_Link m = link_of (cand_ID c)
  ∧ ((matches_of rows (cand_ID c) = []
      ∧ m_Credibility m = merged_cell "Credibility" new_df c NaN
      ∧ m_Comment m = merged_cell "Comment" new_df c NaN)
     ∨ ∃ r, r ∈ rows ∧ ros_ID r = cand_ID c
            ∧ m_Credibility m
              = merged_cell "Credibility" new_df c (Str (ros_Credibility r))
            ∧ m_Comment m = merged_cell "Comment" new_df c (ros_Comment r)).
Proof.
  unfold merge_row.
  destruct (matches_of rows (cand_ID c)) as [|r0 rs] eqn:Hm.
  - intros ->%list_elem_of_singleton. simpl. tauto.
  - intros (r & -> & Hr)%list_elem_of_fmap. simpl.
    repeat split; try done. right. exists r.
    assert (Hin : r ∈ matches_of rows (cand_ID c)) by (by rewrite Hm).
    apply list_elem_of_filter in Hin as [? ?]. done.
Qed.

Lemma merge_row_unmatched new_df rows c :
  matches_of rows (cand_ID c) = [] →
  merge_row new_df rows c
  = [mkMerged (cand_ID c) (cand_cells c)
              (merged_cell "Comment" new_df c NaN)
              (merged_cell "Credibility" new_df c NaN)
              (link_of (cand_ID c))].
Proof. unfold merge_row. by intros ->. Qed.

Lemma merge_row_matched new_df rows c r :
  r ∈ rows → ros_ID r = cand_ID c →
  mkMerged (cand_ID c) (cand_cells c)
           (merged_cell "Comment" new_df c (ros_Comment r))
           (merged_cell "Credibility" new_df c (Str (ros_Credibility r)))
           (link_of (cand_ID c))
  ∈ merge_row new_df rows c.
Proof.
  intros Hr Hid. unfold merge_row.
  assert (Hin : r ∈ matches_of rows (cand_ID c))
    by (by apply list_elem_of_filter).
  destruct (matches_of rows (cand_ID c)) as [|r0 rs] eqn:Hm.
  - by apply elem_of_nil in Hin.
  - apply (list_elem_of_fmap_2
             (λ r, mkMerged (cand_ID c) (cand_cells c)
                     (merged_cell "Comment" new_df c (ros_Comment r))
                     (merged_cell "Credibility" new_df c
                                  (Str (ros_Credibility r)))
                     (link_of (cand_ID c)))). done.
Qed.

(** Every row of the upload gives a joined row. *)
Lemma merge_row_inhabited new_df rows c : ∃ m, m ∈ merge_row new_df rows c.
Proof.
  unfold merge_row.
  destruct (matches_of rows (cand_ID c)) as [|r0 rs];
    eexists; simpl; by left.
Qed.

Lemma matches_of_nil rows id :
  matches_of rows id = [] ↔ id ∉ ros_ID <$> rows.
Proof.
  unfold matches_of. split.
  - intros H (r & -> & Hr)%list_elem_of_fmap.
    assert (Hin : r ∈ filter (λ r', ros_ID r' = ros_ID r) rows)
      by (by apply list_elem_of_filter).
    rewrite H in Hin. by apply elem_of_nil in Hin.
  - intros H. destruct (filter _ rows) as [|r rs] eqn:E; [done|].
    assert (Hin : r ∈ filter (λ r', ros_ID r' = id) rows)
      by (rewrite E; by left).
    apply list_elem_of_filter in Hin as [<- Hr].
    destruct H. by apply list_elem_of_fmap_2.
Qed.

(** What [reconcile] returns when the merge goes through. *)
Lemma reconcile_Some pd new_df roster p :
  reconcile pd new_df roster = Some p →
  p = categorize new_df
        (nd_rows new_df ≫= merge_row new_df (ros_rows roster)).
Proof.
  unfold reconcile, merge.
  destruct (merge_error pd && _); simpl; [done|]. by intros [= <-].
Qed.

Lemma reconcile_lenient pd new_df roster :
  merge_error pd = false →
  reconcile pd new_df roster
  = Some (categorize new_df
            (nd_rows new_df ≫= merge_row new_df (ros_rows roster))).
Proof. intros H. unfold reconcile, merge. by rewrite H. Qed.

Lemma elem_of_joined new_df rows m :
  m ∈ nd_rows new_df ≫= merge_row new_df rows
  ↔ ∃ c, c ∈ nd_rows new_df ∧ m ∈ merge_row new_df rows c.
Proof.
  rewrite list_elem_of_bind. split.
  - intros (c & Hm & Hc). eauto.
  - intros (c & Hc & Hm). eauto.
Qed.

Lemma elem_of_rejected_ids new_df merged_df id :
  id ∈ rejected_ids (categorize new_df merged_df) ↔
  ∃ m, m ∈ merged_df ∧ isin_false m = true ∧ m_ID m = id.
Proof.
  unfold rejected_ids, categorize. simpl.
  rewrite elem_of_list_to_set, list_elem_of_fmap. split.
  - intros (rj & -> & (m & -> & Hm)%list_elem_of_fmap).
    apply list_elem_of_filter in Hm as [? ?]. eauto.
  - intros (m & Hm & Hf & <-).
    eexists (mkRejected _ _ _). split; [reflexivity|].
    apply (list_elem_of_fmap_2 (λ m, mkRejected (m_ID m) (m_Comment m) (m_Link m))).
    by apply list_elem_of_filter.
Qed.

Lemma elem_of_unknown_ids new_df merged_df id :
  id ∈ unknown_ids (categorize new_df merged_df) ↔
  ∃ m, m ∈ merged_df ∧ isna m = true ∧ m_ID m = id.
Proof.
  unfold unknown_ids, categorize. simpl.
  rewrite elem_of_list_to_set, list_elem_of_fmap. split.
  - intros (u & -> & (m & -> & Hm)%list_elem_of_fmap).
    apply list_elem_of_filter in Hm as [? ?]. eauto.
  - intros (m & Hm & Hf & <-).
    eexists (mkUnknown _ _ _ _ _). split; [reflexivity|].
    apply (list_elem_of_fmap_2
             (λ m, mkUnknown (m_ID m) (m_Link m) "No comment yet" false
                             "Rejected")).
    by apply list_elem_of_filter.
Qed.

(** The pending identities are those of the upload that are in neither of
    the other two buckets: [pending_df] is [new_df] filtered by that set. *)
Lemma elem_of_pending_ids new_df merged_df id :
  id ∈ pending_ids (categorize new_df merged_df) ↔
  id ∈ identities new_df
  ∧ (id ∉ rejected_ids (categorize new_df merged_df))
  ∧ (id ∉ unknown_ids (categorize new_df merged_df)).
Proof.
  unfold pending_ids, rejected_ids, unknown_ids, identities, categorize.
  simpl. rewrite elem_of_list_to_set, list_elem_of_fmap. split.
  - intros (pr & -> & (c & -> & Hc)%list_elem_of_fmap). simpl.
    apply list_elem_of_filter in Hc as [Hin _].
    apply elem_of_difference in Hin as [Hin Hu].
    apply elem_of_difference in Hin as [Hin Hr]. done.
  - intros (Hid & Hr & Hu).
    apply elem_of_list_to_set, list_elem_of_fmap in Hid as (c & -> & Hc).
    eexists (mkPending _ _ _ _ _). split; [reflexivity|].
    apply (list_elem_of_fmap_2
             (λ c, mkPending (cand_ID c) (cand_cells c)
                             (link_of (cand_ID c)) true false)).
    apply list_elem_of_filter. split; [|done].
    apply elem_of_difference. split; [|done].
    apply elem_of_difference. split; [|done].
    apply elem_of_list_to_set, list_elem_of_fmap. eauto.
Qed.

(** The credibility that the page reads on the joined rows of a
    candidate: the candidate's own cell when the upload has the label. *)
Lemma merge_row_own new_df rows c m x :
  own "Credibility" new_df c = Some x →
  m ∈ merge_row new_df rows c → m_Credibility m = x.
Proof.
  intros Hown Hm.
  apply elem_of_merge_row in Hm
    as (_ & _ & _ & [(_ & -> & _)|(r & _ & _ & -> & _)]);
    by apply merged_cell_own.
Qed.

Lemma isin_false_is_false m : isin_false m = is_false (m_Credibility m).
Proof. reflexivity. Qed.

(** With a "Credibility" column of its own, the upload alone decides. *)
Lemma rejected_ids_own new_df rows id :
  "Credibility" ∈ nd_labels new_df →
  id ∈ rejected_ids
         (categorize new_df (nd_rows new_df ≫= merge_row new_df rows))
  ↔ ∃ c x, c ∈ nd_rows new_df ∧ cand_ID c = id
           ∧ own "Credibility" new_df c = Some x ∧ is_false x = true.
Proof.
  intros Hlabel. rewrite elem_of_rejected_ids. split.
  - intros (m & (c & Hc & Hm)%elem_of_joined & Hf & <-).
    destruct (own_is_Some _ _ c Hlabel) as [x Hx].
    pose proof (merge_row_own _ _ _ _ _ Hx Hm) as Hcred.
    apply elem_of_merge_row in Hm as (-> & _).
    exists c, x. rewrite isin_false_is_false, Hcred in Hf. done.
  - intros (c & x & Hc & <- & Hx & Hf).
    destruct (merge_row_inhabited new_df rows c) as [m Hm].
    exists m. split; [apply elem_of_joined; eauto|].
    rewrite isin_false_is_false, (merge_row_own _ _ _ _ _ Hx Hm).
    apply elem_of_merge_row in Hm as (-> & _). done.
Qed.

Lemma unknown_ids_own new_df rows id :
  "Credibility" ∈ nd_labels new_df →
  id ∈ unknown_ids
         (categorize new_df (nd_rows new_df ≫= merge_row new_df rows))
  ↔ ∃ c, c ∈ nd_rows new_df ∧ cand_ID c = id
         ∧ own "Credibility" new_df c = Some NaN.
Proof.
  intros Hlabel. rewrite elem_of_unknown_ids. split.
  - intros (m & (c & Hc & Hm)%elem_of_joined & Hn & <-).
    destruct (own_is_Some _ _ c Hlabel) as [x Hx].
    exists c. pose proof (merge_row_own _ _ _ _ _ Hx Hm) as Hcred.
    apply elem_of_merge_row in Hm as (-> & _).
    unfold isna in Hn. rewrite Hcred in Hn. by destruct x.
  - intros (c & Hc & <- & Hx).
    destruct (merge_row_inhabited new_df rows c) as [m Hm].
    exists m. split; [apply elem_of_joined; eauto|].
    unfold isna. rewrite (merge_row_own _ _ _ _ _ Hx Hm).
    apply elem_of_merge_row in Hm as (-> & _). done.
Qed.

(** Without one, the roster decides: a joined row has a missing
    credibility exactly when no roster row bears its identity, and reads
    false exactly when it is joined to a roster row that does. *)
Lemma unknown_ids_roster new_df rows id :
  "Credibility" ∉ nd_labels new_df →
  id ∈ unknown_ids
         (categorize new_df (nd_rows new_df ≫= merge_row new_df rows))
  ↔ id ∈ identities new_df ∧ (id ∉ ros_ID <$> rows).
Proof.
  intros Hlabel. rewrite elem_of_unknown_ids.
  unfold identities. rewrite elem_of_list_to_set, list_elem_of_fmap. split.
  - intros (m & (c & Hc & Hm)%elem_of_joined & Hn & <-).
    apply elem_of_merge_row in Hm
      as (-> & _ & _ & [(He & _ & _)|(r & _ & _ & Hcr & _)]).
    + split; [eauto|]. by apply matches_of_nil.
    + unfold isna in Hn. rewrite Hcr, merged_cell_roster in Hn by done.
      discriminate.
  - intros [(c & -> & Hc) Hno]. apply matches_of_nil in Hno.
    eexists. split.
    + apply elem_of_joined. exists c. split; [done|].
      rewrite merge_row_unmatched by done. by left.
    + split; [|done]. unfold isna. simpl.
      by rewrite merged_cell_roster.
Qed.

Lemma rejected_ids_roster new_df rows id :
  "Credibility" ∉ nd_labels new_df →
  id ∈ rejected_ids
         (categorize new_df (nd_rows new_df ≫= merge_row new_df rows))
  ↔ id ∈ identities new_df ∧ rejects rows id = true.
Proof.
  intros Hlabel. rewrite elem_of_rejected_ids.
  unfold identities, rejects.
  rewrite elem_of_list_to_set, list_elem_of_fmap, existsb_exists. split.
  - intros (m & (c & Hc & Hm)%elem_of_joined & Hf & <-).
    apply elem_of_merge_row in Hm
      as (-> & _ & _ & [(_ & Hcr & _)|(r & Hr & Hid & Hcr & _)]);
      unfold isin_false in Hf; rewrite Hcr, merged_cell_roster in Hf by done;
      [discriminate|].
    split; [eauto|]. exists r. split; [by apply list_elem_of_In|].
    apply andb_true_intro. split; [by apply String.eqb_eq|exact Hf].
  - intros [(c & -> & Hc) (r & Hr%list_elem_of_In & Hb)].
    apply andb_prop in Hb as [Hid%String.eqb_eq Hf].
    eexists. split.
    + apply elem_of_joined. exists c. split; [done|].
      by apply (merge_row_matched _ _ _ r).
    + split; [|done]. unfold isin_false. simpl.
      by rewrite merged_cell_roster.
Qed.

Lemma rejects_on_roster rows id :
  rejects rows id = true → id ∈ ros_ID <$> rows.
Proof.
  unfold rejects. rewrite existsb_exists.
  intros (r & Hr%list_elem_of_In & Hb).
  apply andb_prop in Hb as [<-%String.eqb_eq _].
  by apply list_elem_of_fmap_2.
Qed.

(** The identities that are both rejected and unknown. *)
Lemma rejected_and_unknown new_df rows id :
  id ∈ rejected_ids
         (categorize new_df (nd_rows new_df ≫= merge_row new_df rows))
  ∧ id ∈ unknown_ids
           (categorize new_df (nd_rows new_df ≫= merge_row new_df rows))
  ↔ split_identity new_df id.
Proof.
  destruct (decide ("Credibility" ∈ nd_labels new_df)) as [Hl|Hl].
  - rewrite (rejected_ids_own _ _ _ Hl), (unknown_ids_own _ _ _ Hl).
    unfold split_identity. split.
    + intros [(c1 & x & H1 & Hi1 & Hx & Hf) (c2 & H2 & Hi2 & Hn)].
      exists c1, c2, x. done.
    + intros (c1 & c2 & x & H1 & H2 & Hi1 & Hi2 & Hx & Hf & Hn).
      split; [exists c1, x|exists c2]; done.
  - rewrite (rejected_ids_roster _ _ _ Hl), (unknown_ids_roster _ _ _ Hl).
    split.
    + intros [[_ Hr%rejects_on_roster] [_ Hu]]. done.
    + intros (c1 & c2 & x & _ & _ & _ & _ & Hx & _).
      rewrite own_None in Hx by done. discriminate.
Qed.

(** C1, as stated, fails: an upload that has a "Credibility" column of its
    own is classified by that column, and an identity with a row that
    reads "false" there and a row left empty is both rejected and
    unknown; and the merge raises, so that there are no buckets, when the
    roster has the labels "Followers" and "Followers_sheet" and the upload
    has "Followers". *)
Lemma own_credibility_splits_identity :
  let file :=
    mkFrame ["ID"; "Credibility"]
            [[Str "bob"; Str "false"]; [Str "bob"; NaN];
             [Str "alice"; Str "checked"]] in
  let ws_inf :=
    Fetched [["ID"; "Comment"; "Credibility"]; ["bob"; "fine"; "TRUE"]] in
  ∃ v new_df p,
    load_all_data_body Sample.pandas ws_inf FetchFailed
    = ([FailedToLoadWorksheet], Returned v)
    ∧ process_uploaded_file Sample.pandas None file
      = (Some new_df, Some new_df)
    ∧ reconcile Sample.pandas new_df (inf_df v) = Some p
    ∧ "bob" ∈ rejected_ids p ∧ "bob" ∈ unknown_ids p
    ∧ rejected_ids p ∩ unknown_ids p ≠ ∅
    ∧ reconcile Sample.pandas
        (mkNewDf ["Followers"] [mkCandidate "bob" [Num "10"]])
        (mkRoster ["ID"; "Followers"; "Followers_sheet"; "Comment";
                   "Credibility"]
                  [mkRosterRow "bob" (Str "") "true"])
      = None.
Proof.
  do 3 eexists. split; [vm_compute; reflexivity|].
  split; [vm_compute; reflexivity|].
  split; [vm_compute; reflexivity|].
  assert (Hr : "bob" ∈ rejected_ids
                 (mkPartition
                    [mkPending "alice" [Str "checked"]
                               "https://www.instagram.com/alice" true false]
                    [mkRejected "bob" (Str "fine")
                                "https://www.instagram.com/bob"]
                    [mkUnknown "bob" "https://www.instagram.com/bob"
                               "No comment yet" false "Rejected"]))
    by (apply elem_of_list_to_set; left).
  assert (Hu : "bob" ∈ unknown_ids
                 (mkPartition
                    [mkPending "alice" [Str "checked"]
                               "https://www.instagram.com/alice" true false]
                    [mkRejected "bob" (Str "fine")
                                "https://www.instagram.com/bob"]
                    [mkUnknown "bob" "https://www.instagram.com/bob"
                               "No comment yet" false "Rejected"]))
    by (apply elem_of_list_to_set; left).
  split; [exact Hr|]. split; [exact Hu|]. split; [|reflexivity].
  intros He. apply (not_elem_of_empty (C := gset string) "bob").
  rewrite <- He. by apply elem_of_intersection.
Qed.

(** C1, amended: when the merge goes through, the identities of the three
    buckets together are exactly the identities of the upload, and the
    pending ones are in neither of the other two buckets; an identity is
    both rejected and unknown exactly when the upload has a "Credibility"
    column of its own in which one of its rows reads "false" or "False"
    and another is empty; so for an upload without such a column the
    three buckets are pairwise disjoint. *)
Theorem reconcile_partitions_identities pd new_df roster p :
  reconcile pd new_df roster = Some p →
  pending_ids p ∪ rejected_ids p ∪ unknown_ids p = identities new_df
  ∧ pending_ids p ∩ rejected_ids p = ∅
  ∧ pending_ids p ∩ unknown_ids p = ∅
  ∧ (∀ id, id ∈ rejected_ids p ∩ unknown_ids p ↔ split_identity new_df id)
  ∧ ("Credibility" ∉ nd_labels new_df →
     rejected_ids p ∩ unknown_ids p = ∅).
Proof.
  intros ->%reconcile_Some.
  set (merged_df := nd_rows new_df ≫= merge_row new_df (ros_rows roster)).
  split; [|split; [|split; [|split]]].
  - apply set_eq. intros id.
    rewrite !elem_of_union, elem_of_pending_ids. split.
    + intros [[(? & _)|Hr]|Hu]; [done| |].
      * apply elem_of_rejected_ids in Hr
          as (m & (c & Hc & Hm)%elem_of_joined & _ & <-).
        apply elem_of_merge_row in Hm as (-> & _).
        apply elem_of_list_to_set, list_elem_of_fmap. eauto.
      * apply elem_of_unknown_ids in Hu
          as (m & (c & Hc & Hm)%elem_of_joined & _ & <-).
        apply elem_of_merge_row in Hm as (-> & _).
        apply elem_of_list_to_set, list_elem_of_fmap. eauto.
    + intros Hid.
      destruct (decide (id ∈ rejected_ids (categorize new_df merged_df)));
        [tauto|].
      destruct (decide (id ∈ unknown_ids (categorize new_df merged_df)));
        tauto.
  - apply set_eq. intros id.
    rewrite elem_of_intersection, elem_of_pending_ids, elem_of_empty. tauto.
  - apply set_eq. intros id.
    rewrite elem_of_intersection, elem_of_pending_ids, elem_of_empty. tauto.
  - intros id. rewrite elem_of_intersection.
    apply rejected_and_unknown.
  - intros Hl. apply set_eq. intros id.
    rewrite elem_of_intersection, elem_of_empty.
    split; [|done]. intros H.
    apply rejected_and_unknown in H
      as (c1 & c2 & x & _ & _ & _ & _ & Hx & _).
    rewrite own_None in Hx by done. discriminate.
Qed.

Lemma reconcile_partitions_identities_witness :
  let new_df :=
    mkNewDf ["Followers"]
            [mkCandidate "alice" [Num "1000"]; mkCandidate "bob" [Num "500"];
             mkCandidate "carol" [Num "7"]] in
  let p :=
    categorize new_df
      (nd_rows new_df
         ≫= merge_row new_df [mkRosterRow "alice" (Str "spam") "false";
                               mkRosterRow "carol" (Str "") "true"]) in
  pending_ids p ∪ rejected_ids p ∪ unknown_ids p = identities new_df
  ∧ pending_ids p ∩ rejected_ids p = ∅
  ∧ pending_ids p ∩ unknown_ids p = ∅
  ∧ rejected_ids p ∩ unknown_ids p = ∅.
Proof.
  pose proof (reconcile_partitions_identities Sample.pandas
                (mkNewDf ["Followers"]
                   [mkCandidate "alice" [Num "1000"];
                    mkCandidate "bob" [Num "500"];
                    mkCandidate "carol" [Num "7"]])
                (mkRoster ["ID"; "Comment"; "Credibility"]
                   [mkRosterRow "alice" (Str "spam") "false";
                    mkRosterRow "carol" (Str "") "true"])
                _ eq_refl) as (H1 & H2 & H3 & _ & H5).
  split; [exact H1|]. split; [exact H2|]. split; [exact H3|].
  apply H5. intros H. by repeat (apply elem_of_cons in H as [?|H]; [done|]);
    apply elem_of_nil in H.
Defined.

End ReconcileFacts.

(** ** Rejected and unknown candidates *)

Section BucketFacts.
Import PyStr Utils ListPage Buckets.

Implicit Types (pd : Pandas) (new_df : NewDf) (roster : Roster).
Implicit Types (file : Frame Scalar) (p : Partition) (id : string).

(** No blank is the lower-case form of another character, so a blank is
    its own lower-case form. *)
Lemma lower_chr_blank c : is_space c = true → lower_chr c = c.
Proof.
  destruct c as [[] [] [] [] [] [] [] []]; vm_compute; congruence.
Qed.

Lemma not_blank_of_lower c d :
  lower_chr c = d → is_space d = false → is_space c = false.
Proof.
  intros Hl Hd. destruct (is_space c) eqn:Hc; [|done].
  rewrite (lower_chr_blank _ Hc) in Hl. congruence.
Qed.

(** A cell that reads "false" in some mix of cases has no blank to trim. *)
Lemma lower_false_strip v : lower v = "false" → strip v = v.
Proof.
  intros H.
  destruct v as [|c1 [|c2 [|c3 [|c4 [|c5 [|c6 v]]]]]]; try discriminate H.
  simpl in H. injection H as H1 H2 H3 H4 H5.
  apply strip_id; unfold starts_with_space, ends_with_space; simpl.
  - by apply (not_blank_of_lower _ _ H1).
  - by apply (not_blank_of_lower _ _ H5).
Qed.

Lemma load_all_data_body_returned pd ws_inf ws_master msgs v :
  load_all_data_body pd ws_inf ws_master = (msgs, Returned v) →
  ∃ i, index_of "ID" (columns (load_worksheet_df pd ws_inf).2) = Some i
       ∧ inf_df v
         = mkRoster (load_inf_columns (load_worksheet_df pd ws_inf).2)
                    (load_inf_row (load_worksheet_df pd ws_inf).2 i
                       <$> rows (load_worksheet_df pd ws_inf).2)
       ∧ master_df v = add_required (load_worksheet_df pd ws_master).2
       ∧ msgs = (load_worksheet_df pd ws_inf).1
                ++ (load_worksheet_df pd ws_master).1.
Proof.
  unfold load_all_data_body.
  destruct (load_worksheet_df pd ws_inf) as [m1 inf].
  destruct (load_worksheet_df pd ws_master) as [m2 master]. simpl.
  destruct (columns inf) as [|c0 cs] eqn:Hc; [discriminate|].
  destruct (index_of "ID" (c0 :: cs)) as [i|] eqn:Hi; [|discriminate].
  intros [= <- <-]. exists i. simpl. done.
Qed.

(** A call of [process_uploaded_file] that finds no entry runs the body
    and stores what it returns. *)
Lemma process_uploaded_file_fresh pd file cache' result :
  process_uploaded_file pd None file = (cache', result) →
  result = process_uploaded_file_body pd file ∧ cache' = result.
Proof. unfold process_uploaded_file. by intros [= <- <-]. Qed.

(** A call that finds an entry returns it, whatever the file. *)
Lemma process_uploaded_file_cached pd cached file :
  process_uploaded_file pd (Some cached) file = (Some cached, Some cached).
Proof. reflexivity. Qed.

(** The body keeps the rows in order and cleans the identity of each. *)
Lemma process_uploaded_file_body_ids pd file new_df :
  process_uploaded_file_body pd file = Some new_df →
  cand_ID <$> nd_rows new_df
  = (λ raw, normalize (astype_str (cell_at (id_position file) raw)))
      <$> rows file.
Proof.
  unfold process_uploaded_file_body.
  destruct (columns file); [discriminate|]. intros [= <-]. simpl.
  rewrite <- !list_fmap_compose. reflexivity.
Qed.

Lemma process_uploaded_file_body_labels pd file new_df :
  process_uploaded_file_body pd file = Some new_df →
  nd_labels new_df = delete (id_position file) (columns file).
Proof.
  unfold process_uploaded_file_body.
  destruct (columns file); [discriminate|]. by intros [= <-].
Qed.

Lemma processed_candidate pd file new_df raw :
  process_uploaded_file_body pd file = Some new_df →
  raw ∈ rows file →
  ∃ c, c ∈ nd_rows new_df
       ∧ cand_ID c = normalize (astype_str (cell_at (id_position file) raw)).
Proof.
  intros Hp Hraw.
  assert (Hin : normalize (astype_str (cell_at (id_position file) raw))
                ∈ cand_ID <$> nd_rows new_df).
  { rewrite (process_uploaded_file_body_ids _ _ _ Hp).
    by apply (list_elem_of_fmap_2
                (λ raw, normalize (astype_str (cell_at (id_position file) raw)))). }
  apply list_elem_of_fmap in Hin as (c & Hid & Hc). eauto.
Qed.

(** The session keeps the frame of the first upload: a second file, of
    another digest, is handed to [process_uploaded_file], which answers
    with the entry stored for the first. *)
Lemma second_upload_is_stale pd (file1 file2 : File) new_df1 :
  file_hash file1 ≠ file_hash file2 →
  process_uploaded_file_body pd (file_frame file1) = Some new_df1 →
  upload_step pd (upload_step pd (mkUploadState None None None) file1).1
              file2
  = (mkUploadState (Some new_df1) (Some (file_hash file2)) (Some new_df1),
     false).
Proof.
  intros Hne Hbody. unfold upload_step at 2. simpl.
  rewrite Hbody. unfold upload_step. simpl.
  rewrite bool_decide_eq_false_2 by congruence. reflexivity.
Qed.

Example second_upload_keeps_first :
  let file1 := mkFile "3b5d5c37" (mkFrame ["ID"] [[Str "alice"]]) in
  let file2 := mkFile "8d777f38" (mkFrame ["ID"] [[Str "bob"]]) in
  ss_new_df
    (upload_step Sample.pandas
       (upload_step Sample.pandas (mkUploadState None None None) file1).1
       file2).1
  = Some (mkNewDf [] [mkCandidate "alice" []]).
Proof. reflexivity. Qed.

Lemma rejected_row_of_match new_df rows c r :
  "Credibility" ∉ nd_labels new_df →
  c ∈ nd_rows new_df → r ∈ rows → ros_ID r = cand_ID c →
  ros_Credibility r = "false" →
  mkRejected (cand_ID c) (merged_cell "Comment" new_df c (ros_Comment r))
             (link_of (cand_ID c))
  ∈ rejected_df
      (categorize new_df (nd_rows new_df ≫= merge_row new_df rows)).
Proof.
  intros Hl Hc Hr Hid Hcred. unfold categorize. simpl.
  apply (list_elem_of_fmap_2
           (λ m, mkRejected (m_ID m) (m_Comment m) (m_Link m)) _
           (mkMerged (cand_ID c) (cand_cells c)
                     (merged_cell "Comment" new_df c (ros_Comment r))
                     (merged_cell "Credibility" new_df c
                                  (Str (ros_Credibility r)))
                     (link_of (cand_ID c)))).
  apply list_elem_of_filter. split.
  - unfold isin_false. simpl.
    by rewrite merged_cell_roster, Hcred.
  - apply elem_of_joined. exists c. split; [done|].
    by apply merge_row_matched.
Qed.

Lemma rejected_df_ids p r :
  r ∈ rejected_df p → rej_ID r ∈ rejected_ids p.
Proof.
  intros H. unfold rejected_ids.
  apply elem_of_list_to_set, list_elem_of_fmap. eauto.
Qed.

Lemma unknown_df_ids p u :
  u ∈ unknown_df p → unk_ID u ∈ unknown_ids p.
Proof.
  intros H. unfold unknown_ids.
  apply elem_of_list_to_set, list_elem_of_fmap. eauto.
Qed.

(** C3, as stated, fails: the upload has a "Credibility" column of its
    own, the page reads that column on the joined rows, and a candidate
    that the roster marks "false" is pending; and a candidate is in no
    bucket when the merge raises, as it does for a roster with the labels
    "Followers" and "Followers_sheet" and an upload with "Followers". *)
Lemma own_credibility_overrides_roster :
  let file := mkFrame ["ID"; "Credibility"] [[Str "@bob"; Str "checked"]] in
  let ws_inf :=
    Fetched [["ID"; "Comment"; "Credibility"]; ["bob"; "spam"; "FALSE"]] in
  ∃ v new_df p,
    load_all_data_body Sample.pandas ws_inf FetchFailed
    = ([FailedToLoadWorksheet], Returned v)
    ∧ ros_rows (inf_df v) = [mkRosterRow "bob" (Str "spam") "false"]
    ∧ process_uploaded_file Sample.pandas None file
      = (Some new_df, Some new_df)
    ∧ reconcile Sample.pandas new_df (inf_df v) = Some p
    ∧ rejected_df p = []
    ∧ pen_ID <$> pending_df p = ["bob"]
    ∧ reconcile Sample.pandas
        (mkNewDf ["Followers"] [mkCandidate "bob" [Num "10"]])
        (mkRoster ["ID"; "Followers"; "Followers_sheet"; "Comment";
                   "Credibility"]
                  [mkRosterRow "bob" (Str "") "false"])
      = None.
Proof.
  do 3 eexists. split; [vm_compute; reflexivity|].
  split; [reflexivity|]. split; [vm_compute; reflexivity|].
  split; [vm_compute; reflexivity|]. repeat split; reflexivity.
Qed.

(** C3, amended: for an upload that is processed while no entry is
    cached, a candidate whose cleaned identity is that of a roster row
    which reads "false" in any mix of cases is put in the rejected bucket,
    and in no other, when the upload has no "Credibility" column of its
    own; the rejected row bears the comment of the roster row unless the
    upload has a "Comment" column.  When the upload has a "Credibility"
    column, an identity is rejected exactly when one of its rows reads
    "false" or "False" in that column. *)
Theorem false_credibility_is_rejected
    pd (ws_inf ws_master : Fetch) (msgs : list Message) (v : Loaded)
    file (cache' : option NewDf) new_df p (raw sheet_row : list Scalar) :
  let inf := (load_worksheet_df pd ws_inf).2 in
  let id := normalize (astype_str (cell_at (id_position file) raw)) in
  load_all_data_body pd ws_inf ws_master = (msgs, Returned v) →
  process_uploaded_file pd None file = (cache', Some new_df) →
  reconcile pd new_df (inf_df v) = Some p →
  raw ∈ rows file →
  sheet_row ∈ rows inf →
  id = strip (astype_str (get_or "ID" NaN inf sheet_row)) →
  lower (astype_str (get_or "Credibility" (Str "False") inf sheet_row))
  = "false" →
  ("Credibility" ∉ nd_labels new_df →
   (∃ comment,
      mkRejected id comment (link_of id) ∈ rejected_df p
      ∧ ("Comment" ∉ nd_labels new_df →
         comment = get_or "Comment" (Str "") inf sheet_row))
   ∧ id ∈ rejected_ids p ∧ (id ∉ pending_ids p) ∧ (id ∉ unknown_ids p))
  ∧ ("Credibility" ∈ nd_labels new_df →
     (id ∈ rejected_ids p
      ↔ ∃ c x, c ∈ nd_rows new_df ∧ cand_ID c = id
               ∧ own "Credibility" new_df c = Some x ∧ is_false x = true)).
Proof.
  intros inf id Hload Hproc Hrec Hraw Hrow Hid Hfalse.
  apply load_all_data_body_returned in Hload as (i & Hi & Hinf & _ & _).
  fold inf in Hi, Hinf.
  apply process_uploaded_file_fresh in Hproc as [Hbody _].
  symmetry in Hbody.
  apply reconcile_Some in Hrec. rewrite Hinf in Hrec. simpl in Hrec.
  split; [|intros Hl; rewrite Hrec; by apply rejected_ids_own].
  intros Hl.
  destruct (processed_candidate _ _ _ raw Hbody Hraw) as (c & Hc & Hcid).
  fold id in Hcid.
  assert (Hrej : mkRejected id
                   (merged_cell "Comment" new_df c
                                (get_or "Comment" (Str "") inf sheet_row))
                   (link_of id) ∈ rejected_df p).
  { rewrite Hrec, <- Hcid.
    apply (rejected_row_of_match _ _ c (load_inf_row inf i sheet_row));
      [done|done| | |].
    - by apply (list_elem_of_fmap_2 (load_inf_row inf i)).
    - simpl. rewrite Hcid, Hid. unfold get_or. by rewrite Hi.
    - simpl. by rewrite (lower_false_strip _ Hfalse). }
  assert (Hin : id ∈ rejected_ids p) by (apply (rejected_df_ids _ _ Hrej)).
  split; [|split; [done|split]].
  - eexists. split; [exact Hrej|]. intros Hcom.
    by apply merged_cell_roster.
  - intros Hp. rewrite Hrec in Hp, Hin.
    apply elem_of_pending_ids in Hp. tauto.
  - intros Hu. rewrite Hrec in Hu, Hin.
    assert (Hsplit : split_identity new_df id)
      by (by eapply rejected_and_unknown).
    destruct Hsplit as (c1 & c2 & x & _ & _ & _ & _ & Hx & _).
    rewrite own_None in Hx by done. discriminate.
Qed.

Lemma false_credibility_is_rejected_witness :
  let file :=
    mkFrame ["ID"; "Followers"]
            [[Str "alice"; Num "1000"]; [Str "@bob "; Num "500"]] in
  let p :=
    categorize (mkNewDf ["Followers"]
                  [mkCandidate "alice" [Num "1000"];
                   mkCandidate "bob" [Num "500"]])
      (nd_rows (mkNewDf ["Followers"]
                  [mkCandidate "alice" [Num "1000"];
                   mkCandidate "bob" [Num "500"]])
         ≫= merge_row (mkNewDf ["Followers"]
                          [mkCandidate "alice" [Num "1000"];
                           mkCandidate "bob" [Num "500"]])
                       [mkRosterRow "alice" (Str "spam") "false";
                        mkRosterRow "carol" (Str "ok") "true"]) in
  (∃ comment,
     mkRejected "alice" comment "https://www.instagram.com/alice"
       ∈ rejected_df p
     ∧ ("Comment" ∉ ["Followers"] → comment = Str "spam"))
  ∧ "alice" ∈ rejected_ids p ∧ ("alice" ∉ pending_ids p)
  ∧ ("alice" ∉ unknown_ids p).
Proof.
  apply (false_credibility_is_rejected Sample.pandas
           (Fetched [["ID"; "Credibility"; "Comment"];
                     ["alice"; "FALSE"; "spam"]; ["carol"; "TRUE"; "ok"]])
           FetchFailed [FailedToLoadWorksheet]
           (mkLoaded
              (mkRoster ["ID"; "Credibility"; "Comment"]
                        [mkRosterRow "alice" (Str "spam") "false";
                         mkRosterRow "carol" (Str "ok") "true"])
              (mkFrame required_cols []))
           (mkFrame ["ID"; "Followers"]
                    [[Str "alice"; Num "1000"]; [Str "@bob "; Num "500"]])
           (Some (mkNewDf ["Followers"]
                    [mkCandidate "alice" [Num "1000"];
                     mkCandidate "bob" [Num "500"]]))
           (mkNewDf ["Followers"]
              [mkCandidate "alice" [Num "1000"];
               mkCandidate "bob" [Num "500"]])
           _ [Str "alice"; Num "1000"]
           [Str "alice"; Str "FALSE"; Str "spam"]).
  - vm_compute. reflexivity.
  - vm_compute. reflexivity.
  - vm_compute. reflexivity.
  - left.
  - vm_compute. left.
  - reflexivity.
  - reflexivity.
  - intros H. apply list_elem_of_singleton in H. discriminate.
Defined.

(** C4, as stated, fails: with a "Credibility" column of its own whose
    cell is filled, a candidate that is on no roster row is pending; and
    a candidate is in no bucket when the merge raises, as it does for a
    roster with the labels "Followers" and "Followers_sheet" and an upload
    with "Followers". *)
Lemma own_credibility_hides_unknown :
  let file := mkFrame ["ID"; "Credibility"] [[Str "dave"; Str "checked"]] in
  let roster :=
    mkRoster ["ID"; "Comment"; "Credibility"]
             [mkRosterRow "bob" (Str "spam") "false"] in
  ∃ new_df p,
    process_uploaded_file Sample.pandas None file
    = (Some new_df, Some new_df)
    ∧ reconcile Sample.pandas new_df roster = Some p
    ∧ unknown_df p = []
    ∧ pen_ID <$> pending_df p = ["dave"]
    ∧ reconcile Sample.pandas
        (mkNewDf ["Followers"] [mkCandidate "dave" [Num "10"]])
        (mkRoster ["ID"; "Followers"; "Followers_sheet"; "Comment";
                   "Credibility"]
                  [mkRosterRow "bob" (Str "") "false"])
      = None.
Proof.
  do 2 eexists. split; [vm_compute; reflexivity|].
  split; [vm_compute; reflexivity|]. repeat split; reflexivity.
Qed.

(** C4, amended: for an upload that is processed while no entry is
    cached, a candidate whose cleaned identity no roster row has is put in
    the unknown bucket, and in no other, when the upload has no
    "Credibility" column of its own.  When it has one, an identity is
    unknown exactly when one of its rows has that cell empty.  Every
    unknown row has the comment "No comment yet", the status "Rejected"
    and the box for adding it to the sheet not ticked. *)
Theorem unmatched_is_unknown
    pd file (cache' : option NewDf) new_df roster p (raw : list Scalar) :
  let id := normalize (astype_str (cell_at (id_position file) raw)) in
  process_uploaded_file pd None file = (cache', Some new_df) →
  reconcile pd new_df roster = Some p →
  raw ∈ rows file →
  (∀ r, r ∈ ros_rows roster → ros_ID r ≠ id) →
  ("Credibility" ∉ nd_labels new_df →
   mkUnknown id (link_of id) "No comment yet" false "Rejected" ∈ unknown_df p
   ∧ id ∈ unknown_ids p ∧ (id ∉ pending_ids p) ∧ (id ∉ rejected_ids p))
  ∧ ("Credibility" ∈ nd_labels new_df →
     (id ∈ unknown_ids p
      ↔ ∃ c, c ∈ nd_rows new_df ∧ cand_ID c = id
             ∧ own "Credibility" new_df c = Some NaN))
  ∧ (∀ u, u ∈ unknown_df p →
       unk_Comment u = "No comment yet" ∧ unk_Select_Sheet u = false
       ∧ unk_Status u = "Rejected" ∧ unk_Link u = link_of (unk_ID u)).
Proof.
  intros id Hproc Hrec Hraw Hno.
  apply process_uploaded_file_fresh in Hproc as [Hbody _].
  symmetry in Hbody. apply reconcile_Some in Hrec.
  split; [|split].
  - intros Hl.
    destruct (processed_candidate _ _ _ raw Hbody Hraw) as (c & Hc & Hcid).
    fold id in Hcid.
    assert (Hm : matches_of (ros_rows roster) id = []).
    { apply matches_of_nil. intros (r & Hr & Hin)%list_elem_of_fmap.
      by destruct (Hno r Hin). }
    assert (Hu : mkUnknown id (link_of id) "No comment yet" false "Rejected"
                   ∈ unknown_df p).
    { rewrite Hrec. unfold categorize. simpl.
      apply (list_elem_of_fmap_2
               (λ m, mkUnknown (m_ID m) (m_Link m) "No comment yet" false
                               "Rejected") _
               (mkMerged id (cand_cells c)
                         (merged_cell "Comment" new_df c NaN)
                         (merged_cell "Credibility" new_df c NaN)
                         (link_of id))).
      apply list_elem_of_filter. split.
      - unfold isna. simpl. by rewrite merged_cell_roster.
      - apply elem_of_joined. exists c. split; [done|].
        rewrite merge_row_unmatched by (by rewrite Hcid).
        rewrite Hcid. by left. }
    assert (Hin : id ∈ unknown_ids p) by (apply (unknown_df_ids _ _ Hu)).
    split; [done|]. split; [done|]. split.
    + intros Hp. rewrite Hrec in Hp, Hin.
      apply elem_of_pending_ids in Hp. tauto.
    + intros Hr. rewrite Hrec in Hr, Hin.
      assert (Hsplit : split_identity new_df id)
        by (by eapply rejected_and_unknown).
      destruct Hsplit as (c1 & c2 & x & _ & _ & _ & _ & Hx & _).
      rewrite own_None in Hx by done. discriminate.
  - intros Hl. rewrite Hrec. by apply unknown_ids_own.
  - intros u. rewrite Hrec. unfold categorize. simpl.
    intros (m & -> & Hm)%list_elem_of_fmap. simpl.
    apply list_elem_of_filter in Hm as [_ Hm].
    apply elem_of_joined in Hm as (c & _ & Hm).
    apply elem_of_merge_row in Hm as (-> & _ & -> & _). done.
Qed.

Lemma unmatched_is_unknown_witness :
  let p :=
    categorize (mkNewDf ["Followers"]
                  [mkCandidate "alice" [Num "1000"];
                   mkCandidate "bob" [Num "500"]])
      (nd_rows (mkNewDf ["Followers"]
                  [mkCandidate "alice" [Num "1000"];
                   mkCandidate "bob" [Num "500"]])
         ≫= merge_row (mkNewDf ["Followers"]
                          [mkCandidate "alice" [Num "1000"];
                           mkCandidate "bob" [Num "500"]])
                       [mkRosterRow "alice" (Str "") "false"]) in
  mkUnknown "bob" "https://www.instagram.com/bob" "No comment yet" false
            "Rejected" ∈ unknown_df p
  ∧ "bob" ∈ unknown_ids p ∧ ("bob" ∉ pending_ids p)
  ∧ ("bob" ∉ rejected_ids p).
Proof.
  apply (unmatched_is_unknown Sample.pandas
           (mkFrame ["ID"; "Followers"]
                    [[Str "alice"; Num "1000"]; [Str "@bob "; Num "500"]])
           (Some (mkNewDf ["Followers"]
                    [mkCandidate "alice" [Num "1000"];
                     mkCandidate "bob" [Num "500"]]))
           (mkNewDf ["Followers"]
              [mkCandidate "alice" [Num "1000"];
               mkCandidate "bob" [Num "500"]])
           (mkRoster ["ID"; "Comment"; "Credibility"]
                     [mkRosterRow "alice" (Str "") "false"])
           _ [Str "@bob "; Num "500"]).
  - vm_compute. reflexivity.
  - vm_compute. reflexivity.
  - right. left.
  - intros r Hr. apply list_elem_of_singleton in Hr. subst r.
    vm_compute. discriminate.
  - intros H. apply list_elem_of_singleton in H. discriminate.
Defined.

End BucketFacts.

(** ** Loading the roster cache when a fetch fails *)

Section LoadFacts.
Import Utils ListPage.

Implicit Types (pd : Pandas).

Lemma data_frame_Some data cols df :
  data_frame data cols = Some df →
  df = mkFrame cols data ∧ Forall (λ r, length r = length cols) data.
Proof.
  unfold data_frame. destruct (forallb _ data) eqn:E; [|discriminate].
  intros [= <-]. split; [done|].
  apply Forall_forall. intros r Hr. apply Nat.eqb_eq.
  rewrite forallb_forall in E. apply E. by apply list_elem_of_In.
Qed.

Lemma optimize_dataframe_Some pd df df' :
  optimize_dataframe pd df = Some df' →
  NoDup (columns df) ∧ columns df' = columns df
  ∧ length (rows df') = length (rows df)
  ∧ ∀ r', r' ∈ rows df' → ∃ r, r ∈ rows df ∧ length r' = length r.
Proof.
  unfold optimize_dataframe. case_bool_decide as Hnd; [|discriminate].
  intros [= <-]. simpl. split; [done|]. split; [done|].
  split; [by rewrite length_fmap|].
  intros r' (r & -> & Hr)%list_elem_of_fmap. exists r.
  by rewrite length_imap.
Qed.

(** A frame that [load_worksheet_df] returns has no label twice, so a
    column is found by the first position of its label. *)
Lemma load_worksheet_df_columns_nodup pd ws :
  NoDup (columns (load_worksheet_df pd ws).2).
Proof.
  destruct ws as [data|]; simpl; [|constructor].
  destruct data as [|header [|row body]]; simpl; try constructor.
  destruct (data_frame (row :: body) (make_unique_headers header)
            ≫= optimize_dataframe pd) as [df'|] eqn:E; simpl; [|constructor].
  apply bind_Some in E as (df & Hdf & Hopt).
  apply data_frame_Some in Hdf as [-> _].
  apply optimize_dataframe_Some in Hopt as (Hnd & -> & _). done.
Qed.

Lemma load_worksheet_df_failed pd :
  load_worksheet_df pd FetchFailed = ([FailedToLoadWorksheet], empty_frame).
Proof. reflexivity. Qed.

Lemma add_required_empty :
  add_required empty_frame = mkFrame required_cols [].
Proof. vm_compute. reflexivity. Qed.

Lemma load_all_data_body_roster_failed pd ws_master :
  load_all_data_body pd FetchFailed ws_master
  = (FailedToLoadWorksheet
       :: (load_worksheet_df pd ws_master).1 ++ [ErrorLoadingData],
     Stopped).
Proof.
  unfold load_all_data_body. rewrite load_worksheet_df_failed.
  destruct (load_worksheet_df pd ws_master) as [m2 master]. reflexivity.
Qed.

Lemma load_all_data_body_metrics_failed pd ws_inf i :
  index_of "ID" (columns (load_worksheet_df pd ws_inf).2) = Some i →
  load_all_data_body pd ws_inf FetchFailed
  = ((load_worksheet_df pd ws_inf).1 ++ [FailedToLoadWorksheet],
     Returned
       (mkLoaded
          (mkRoster
             (load_inf_columns (load_worksheet_df pd ws_inf).2)
             (load_inf_row (load_worksheet_df pd ws_inf).2 i
                <$> rows (load_worksheet_df pd ws_inf).2))
          (mkFrame required_cols []))).
Proof.
  unfold load_all_data_body. rewrite load_worksheet_df_failed.
  destruct (load_worksheet_df pd ws_inf) as [m1 inf]. simpl. intros Hi.
  destruct (columns inf) as [|c0 cs]; [discriminate|].
  rewrite Hi, add_required_empty. reflexivity.
Qed.

(** What the load makes of a sheet whose identities are numerals and whose
    comments are empty: [optimize_dataframe] reads both columns as
    numbers, so the identity "007" of the sheet is "7" in the roster and
    the comment is a missing value. *)
Example numerals_are_read_as_numbers :
  (load_all_data_body Sample.pandas
     (Fetched [["ID"; "Comment"; "Credibility"]; ["007"; ""; "false"]])
     FetchFailed).2
  = Returned (mkLoaded (mkRoster ["ID"; "Comment"; "Credibility"]
                                 [mkRosterRow "7" NaN "false"])
                       (mkFrame required_cols [])).
Proof. vm_compute. reflexivity. Qed.

(** C9, as stated, fails: the fetch of the metrics sheet fails, the
    request runs on, and the cache and the session receive the roster with
    a metrics table that has no row. *)
Lemma metrics_fetch_failure_is_cached :
  let ws_inf := Fetched [["ID"; "Credibility"]; ["alice"; "false"]] in
  let v := mkLoaded (mkRoster ["ID"; "Credibility"; "Comment"]
                              [mkRosterRow "alice" (Str "") "false"])
                    (mkFrame required_cols []) in
  load_step Sample.pandas None (mkSession false None None) ws_inf FetchFailed
  = (Some v,
     mkSession true (Some (inf_df v)) (Some (mkFrame required_cols [])),
     [FailedToLoadWorksheet], false).
Proof. vm_compute. reflexivity. Qed.

(** C9, amended: when no cache entry is live and the fetch of the roster
    sheet fails, the load reports the failure and ends the request, writes
    no cache entry and leaves the session as it was; when the fetch of the
    metrics sheet alone fails, the failure is reported, and the load
    returns and caches the roster with a metrics table of the required
    columns and no row. *)
Theorem roster_fetch_failure_commits_nothing
    pd (ss : Session) (ws_inf ws_master : Fetch) (i : nat) :
  (negb (data_loaded ss) || bool_decide (ss_inf_df ss = None) = true →
   ∃ msgs,
     load_step pd None ss FetchFailed ws_master = (None, ss, msgs, true)
     ∧ FailedToLoadWorksheet ∈ msgs ∧ ErrorLoadingData ∈ msgs)
  ∧ (index_of "ID" (columns (load_worksheet_df pd ws_inf).2) = Some i →
     let v :=
       mkLoaded
         (mkRoster
            (load_inf_columns (load_worksheet_df pd ws_inf).2)
            (load_inf_row (load_worksheet_df pd ws_inf).2 i
               <$> rows (load_worksheet_df pd ws_inf).2))
         (mkFrame required_cols []) in
     load_all_data pd None ws_inf FetchFailed
     = (Some v, (load_worksheet_df pd ws_inf).1 ++ [FailedToLoadWorksheet],
        Returned v)).
Proof.
  split.
  - intros Hneed. unfold load_step, load_all_data. rewrite Hneed.
    rewrite load_all_data_body_roster_failed.
    eexists. split; [reflexivity|]. split.
    + by left.
    + right. apply elem_of_app. right. by left.
  - intros Hi v. unfold load_all_data.
    by rewrite (load_all_data_body_metrics_failed _ _ _ Hi).
Qed.

Lemma roster_fetch_failure_commits_nothing_witness :
  let ss := mkSession false None None in
  let ws_inf := Fetched [["ID"; "Credibility"]; ["alice"; "false"]] in
  (∃ msgs,
     load_step Sample.pandas None ss FetchFailed FetchFailed
     = (None, ss, msgs, true)
     ∧ FailedToLoadWorksheet ∈ msgs ∧ ErrorLoadingData ∈ msgs)
  ∧ load_all_data Sample.pandas None ws_inf FetchFailed
    = (Some (mkLoaded (mkRoster ["ID"; "Credibility"; "Comment"]
                                [mkRosterRow "alice" (Str "") "false"])
                      (mkFrame required_cols [])),
       [FailedToLoadWorksheet],
       Returned (mkLoaded (mkRoster ["ID"; "Credibility"; "Comment"]
                                    [mkRosterRow "alice" (Str "") "false"])
                          (mkFrame required_cols []))).
Proof.
  pose proof (roster_fetch_failure_commits_nothing Sample.pandas
                (mkSession false None None)
                (Fetched [["ID"; "Credibility"]; ["alice"; "false"]])
                FetchFailed 0) as [H1 H2].
  split.
  - apply H1. reflexivity.
  - apply H2. vm_compute. reflexivity.
Defined.

End LoadFacts.

(** ** The working copy: edits, reload and push *)

Section WorkingCopyFacts.
Import Credibility.

Lemma cell_ne_refl c : cell_ne c c = false.
Proof. unfold cell_ne. by rewrite bool_decide_eq_true_2. Qed.

Lemma comment_ne_refl c : comment_ne c c = false.
Proof. unfold comment_ne. by rewrite bool_decide_eq_true_2. Qed.

(** An edited row that repeats what the table holds changes nothing. *)
Lemma edit_step_same updated_full changes i stored :
  updated_full !! i = Some stored →
  edit_step (Some (updated_full, changes))
            (mkEdited (Some i) (row_cred stored) (row_comment stored))
  = Some (updated_full, changes).
Proof.
  intros Hi. unfold edit_step. simpl. rewrite Hi. simpl.
  by rewrite cell_ne_refl, comment_ne_refl.
Qed.

(** An edited row that differs is written at its index and recorded. *)
Lemma edit_step_changed updated_full changes i stored cred comment :
  updated_full !! i = Some stored →
  cell_ne (row_cred stored) cred || comment_ne (row_comment stored) comment
  = true →
  edit_step (Some (updated_full, changes)) (mkEdited (Some i) cred comment)
  = Some (<[i := mkRow (row_id stored) comment cred]> updated_full,
          changes ++ [i]).
Proof.
  intros Hi Hne. unfold edit_step. simpl. rewrite Hi. simpl.
  by rewrite Hne.
Qed.

(** A batch of edited rows that all repeat what the table holds leaves the
    session as it was, without a rerun. *)
Lemma update_full_table_unchanged ss t edited_table :
  full_table ss = Some t →
  Forall (λ e, match e_orig_index e with
               | None => True
               | Some i => ∃ stored, tbl_rows t !! i = Some stored
                             ∧ row_cred stored = e_cred e
                             ∧ row_comment stored = e_comment e
               end) edited_table →
  update_full_table ss edited_table = Ran ss false.
Proof.
  intros Ht Hall. unfold update_full_table. rewrite Ht.
  assert (Hfold : fold_left edit_step edited_table (Some (tbl_rows t, []))
                  = Some (tbl_rows t, [])).
  { induction Hall as [|e es He _ IH]; [reflexivity|].
    cbn [fold_left]. destruct e as [[i|] cred comment]; simpl in He.
    - destruct He as (stored & Hi & <- & <-).
      by rewrite (edit_step_same _ _ _ _ Hi).
    - exact IH. }
  by rewrite Hfold.
Qed.

Lemma apply_edit_same ss t i stored :
  full_table ss = Some t → tbl_rows t !! i = Some stored →
  apply_edit ss i (row_cred stored) (row_comment stored) = Ran ss false.
Proof.
  intros Ht Hi. unfold apply_edit.
  apply (update_full_table_unchanged _ t); [done|].
  constructor; [|constructor]. simpl. eauto.
Qed.

Lemma apply_edit_changed ss t i stored cred comment :
  full_table ss = Some t → tbl_rows t !! i = Some stored →
  cell_ne (row_cred stored) cred || comment_ne (row_comment stored) comment
  = true →
  apply_edit ss i cred comment
  = Ran (mkSession
           (Some (mkTable (id_col t) (comment_col t) (cred_col t)
                    (<[i := mkRow (row_id stored) comment cred]>
                       (tbl_rows t))))
           (S (editor_version ss)) (sheet_version ss) (sheet_updated ss))
        true.
Proof.
  intros Ht Hi Hne. unfold apply_edit, update_full_table. rewrite Ht.
  cbn [fold_left]. by rewrite (edit_step_changed _ _ _ _ _ _ Hi Hne).
Qed.

(** C5: an edit that proposes what the row already holds changes neither
    the table nor the edit version; an edit of a row that exists runs
    through; and after any edit, the same edit once more is such a no-op,
    so that the two together raise the edit version by one at most. *)
Theorem apply_edit_idempotent
    (ss : Session) (t : Table) (i : nat) (stored : Row)
    (new_cred : Cell) (new_comment : option string) :
  full_table ss = Some t →
  tbl_rows t !! i = Some stored →
  (row_cred stored = new_cred → row_comment stored = new_comment →
   apply_edit ss i new_cred new_comment = Ran ss false)
  ∧ ∃ ss1 rerun,
      apply_edit ss i new_cred new_comment = Ran ss1 rerun
      ∧ apply_edit ss1 i new_cred new_comment = Ran ss1 false
      ∧ (editor_version ss ≤ editor_version ss1 ≤ S (editor_version ss))%nat.
Proof.
  intros Ht Hi. split.
  - intros <- <-. by apply (apply_edit_same _ t).
  - destruct (cell_ne (row_cred stored) new_cred
              || comment_ne (row_comment stored) new_comment) eqn:Hne.
    + eexists _, true. split; [by apply (apply_edit_changed _ t _ stored)|].
      split; [|simpl; lia].
      eapply (apply_edit_same _ _ i (mkRow (row_id stored) new_comment new_cred));
        [reflexivity|].
      simpl. apply list_lookup_insert_eq. by eapply lookup_lt_Some.
    + apply orb_false_elim in Hne as [Hc Hm].
      unfold cell_ne in Hc. unfold comment_ne in Hm.
      apply negb_false_iff, bool_decide_eq_true_1 in Hc.
      apply negb_false_iff, bool_decide_eq_true_1 in Hm. subst.
      exists ss, false.
      split; [by apply (apply_edit_same _ t)|].
      split; [by apply (apply_edit_same _ t)|lia].
Qed.

Lemma apply_edit_idempotent_witness :
  let t := mkTable "ID" "Comment" "Credibility"
             [mkRow "alice" (Some "spam") (PBool false);
              mkRow "bob" (Some "") (PBool true)] in
  let ss := mkSession (Some t) 3 (Some "v1") false in
  apply_edit ss 1 (PBool true) (Some "") = Ran ss false
  ∧ ∃ ss1 rerun,
      apply_edit ss 0 (PBool true) None = Ran ss1 rerun
      ∧ apply_edit ss1 0 (PBool true) None = Ran ss1 false
      ∧ (3 ≤ editor_version ss1 ≤ 4)%nat.
Proof.
  intros t ss. split.
  - apply (proj1 (apply_edit_idempotent ss t 1
                    (mkRow "bob" (Some "") (PBool true)) (PBool true)
                    (Some "") eq_refl eq_refl)); reflexivity.
  - apply (proj2 (apply_edit_idempotent ss t 0
                    (mkRow "alice" (Some "spam") (PBool false)) (PBool true)
                    None eq_refl eq_refl)).
Defined.

(** C7: when the fingerprint just computed is not the recorded one, the
    working copy is replaced by the freshly loaded table, whatever it
    held, the new fingerprint is recorded, the edit version goes up by one
    and the script reruns. *)
Theorem changed_fingerprint_reloads
    (ss : Session) (recorded sheet_version_now : string)
    (influencers_df : Table) :
  sheet_version ss = Some recorded →
  recorded ≠ sheet_version_now →
  manage_session ss sheet_version_now influencers_df
  = (mkSession (Some influencers_df) (S (editor_version ss))
               (Some sheet_version_now) (sheet_updated ss), true).
Proof.
  intros Hrec Hne. unfold manage_session.
  assert (Heqb : String.eqb recorded sheet_version_now = false)
    by (by apply String.eqb_neq).
  destruct (full_table ss); simpl; rewrite Hrec, Heqb; reflexivity.
Qed.

Lemma changed_fingerprint_reloads_witness :
  let edited := mkTable "ID" "Comment" "Credibility"
                  [mkRow "alice" (Some "edited here") (PBool true)] in
  let fresh := mkTable "ID" "Comment" "Credibility"
                 [mkRow "alice" (Some "") (PBool false);
                  mkRow "bob" (Some "") (PBool true)] in
  manage_session (mkSession (Some edited) 5 (Some "v1") false) "v2" fresh
  = (mkSession (Some fresh) 6 (Some "v2") false, true).
Proof.
  intros edited fresh.
  apply (changed_fingerprint_reloads
           (mkSession (Some edited) 5 (Some "v1") false) "v1" "v2" fresh).
  - reflexivity.
  - discriminate.
Defined.

(** With the same fingerprint as recorded, the working copy stays. *)
Lemma same_fingerprint_keeps ss t v influencers_df :
  full_table ss = Some t → sheet_version ss = Some v →
  manage_session ss v influencers_df = (ss, false).
Proof.
  intros Ht Hv. unfold manage_session. rewrite Ht, Hv.
  by rewrite String.eqb_refl.
Qed.

Lemma ws_update_cleared values : ws_update values [] = values.
Proof. by destruct values. Qed.

(** A write alone leaves what lies outside its block. *)
Lemma ws_update_keeps_outside :
  ws_update [[VStr "a"]] [[VStr "x"; VStr "y"]; [VStr "z"]]
  = [[VStr "a"; VStr "y"]; [VStr "z"]].
Proof. reflexivity. Qed.

(** C8: a push that succeeds leaves on the sheet the header row and then
    one row per row of the working copy, a boolean credibility written
    "True" or "False"; what the sheet held before plays no part. *)
Theorem push_overwrites
    (df : Table) (remote : list (list Value)) (clear_ok update_ok : bool)
    (result : list (list Value)) :
  update_google_sheet clear_ok update_ok df remote = Pushed result →
  result
  = [VStr (id_col df); VStr (comment_col df); VStr (cred_col df)]
      :: ((λ r, [VStr (row_id r); comment_value (row_comment r);
                 match row_cred r with
                 | PBool b => VStr (if b then "True" else "False")
                 | _ => VNaN
                 end]) <$> tbl_rows df)
  ∧ ∀ remote', update_google_sheet clear_ok update_ok df remote'
               = Pushed result.
Proof.
  unfold update_google_sheet.
  destruct clear_ok; [|discriminate]. destruct update_ok; [|discriminate].
  unfold ws_clear. rewrite ws_update_cleared. intros [= <-].
  split; [|reflexivity].
  unfold sheet_values. f_equal. apply list_fmap_ext. intros _ r _.
  unfold render_cred. by destruct (row_cred r) as [|[]|].
Qed.

Lemma push_overwrites_witness :
  let df := mkTable "ID" "Comment" "Credibility"
              [mkRow "alice" (Some "spam") (PBool false);
               mkRow "bob" None (PBool true)] in
  let written :=
    [[VStr "ID"; VStr "Comment"; VStr "Credibility"];
     [VStr "alice"; VStr "spam"; VStr "False"];
     [VStr "bob"; VNone; VStr "True"]] in
  update_google_sheet true true df [[VStr "stale"]; [VStr "rows"]; []; []]
  = Pushed written
  ∧ ∀ remote', update_google_sheet true true df remote' = Pushed written.
Proof.
  intros df written. split; [reflexivity|].
  apply (push_overwrites df [[VStr "stale"]; [VStr "rows"]; []; []]
           true true written).
  reflexivity.
Defined.

End WorkingCopyFacts.

(** ** The roster fingerprint *)

Section FingerprintFacts.
Import Credibility.

(** The digest on the test suite of RFC 1321, on two blocks, and on a
    character that takes two bytes. *)
Example md5_empty : Md5.hexdigest "" = "d41d8cd98f00b204e9800998ecf8427e".
Proof. vm_compute. reflexivity. Qed.

Example md5_abc : Md5.hexdigest "abc" = "900150983cd24fb0d6963f7d28e17f72".
Proof. vm_compute. reflexivity. Qed.

Example md5_message_digest :
  Md5.hexdigest "message digest" = "f96b697d7cb7938d525a2f31aaf161d0".
Proof. vm_compute. reflexivity. Qed.

Example md5_two_blocks :
  Md5.hexdigest
    ("1234567890123456789012345678901234567890"
       +:+ "1234567890123456789012345678901234567890")
  = "57edf4a22be3c955ac49da2e2107b67a".
Proof. vm_compute. reflexivity. Qed.

Example md5_e_acute :
  Md5.hexdigest ("2-bob" +:+ String (ascii_of_nat 233) "")
  = "9ecf23a9add9f8d556fafd3a385ba581".
Proof. vm_compute. reflexivity. Qed.

Example get_sheet_version_of_sheet :
  version_str [["ID"; "Credibility"; "Comment"]; ["x"; "TRUE"; ""];
               ["alice"; "FALSE"; "spam"]] = "3-aliceFALSEspam"
  ∧ get_sheet_version [["ID"; "Credibility"; "Comment"]; ["x"; "TRUE"; ""];
                       ["alice"; "FALSE"; "spam"]]
    = "b7b4022f9391bc1a23db41db491527d1".
Proof. split; vm_compute; reflexivity. Qed.

Example get_sheet_version_of_nothing :
  version_str [] = "0-"
  ∧ get_sheet_version [] = "c7941434924b279ad2431314b959c25a".
Proof. split; vm_compute; reflexivity. Qed.

Lemma version_str_ext (rows1 rows2 : list (list string)) :
  length rows1 = length rows2 → last rows1 = last rows2 →
  version_str rows1 = version_str rows2.
Proof. intros Hlen Hlast. unfold version_str. by rewrite Hlen, Hlast. Qed.

(** The rows before the last one count by their number only. *)
Lemma get_sheet_version_blind_spot earlier1 earlier2 (last_row : list string) :
  length earlier1 = length earlier2 →
  get_sheet_version (earlier1 ++ [last_row])
  = get_sheet_version (earlier2 ++ [last_row]).
Proof.
  intros Hlen. unfold get_sheet_version. f_equal.
  apply version_str_ext.
  - by rewrite !length_app, Hlen.
  - by rewrite !last_snoc.
Qed.

(** C6: the fingerprint is the digest of the number of rows, a "-" and
    the cells of the last row put end to end; two lists of rows of one
    length and one last row have one fingerprint. *)
Theorem fingerprint_of_count_and_last_row (rows1 rows2 : list (list string)) :
  get_sheet_version rows1
  = Md5.hexdigest
      (PyStr.str_of_nat (length rows1) +:+ "-"
         +:+ match last rows1 with
             | Some r => PyStr.join r
             | None => ""
             end)
  ∧ (length rows2 = length rows1 → last rows2 = last rows1 →
     get_sheet_version rows2 = get_sheet_version rows1).
Proof.
  split; [reflexivity|].
  intros Hlen Hlast. unfold get_sheet_version. f_equal.
  by apply version_str_ext.
Qed.

Lemma fingerprint_of_count_and_last_row_witness :
  let rows1 := [["ID"; "Credibility"; "Comment"]; ["x"; "TRUE"; ""];
                ["alice"; "FALSE"; "spam"]] in
  let rows2 := [["ID"; "Credibility"; "Comment"]; ["y"; "FALSE"; "changed"];
                ["alice"; "FALSE"; "spam"]] in
  rows2 ≠ rows1 ∧ get_sheet_version rows2 = get_sheet_version rows1.
Proof.
  intros rows1 rows2. split; [discriminate|].
  apply (proj2 (fingerprint_of_count_and_last_row rows1 rows2));
    reflexivity.
Defined.

End FingerprintFacts.

(** ** Decimal numerals and separators *)

Section NumeralFacts.
Import PyStr Headers.

Lemma string_of_uint_digits d :
  all_digits (NilEmpty.string_of_uint d) = true.
Proof. induction d; simpl; rewrite ?IHd; reflexivity. Qed.

Lemma to_uint_nonnil n : Nat.to_uint n ≠ Decimal.Nil.
Proof.
  rewrite <- (DecimalNat.Unsigned.of_to n) at 1.
  rewrite DecimalNat.Unsigned.to_of. apply DecimalFacts.unorm_nonnil.
Qed.

Lemma str_of_nat_unfold n :
  str_of_nat n = NilEmpty.string_of_uint (Nat.to_uint n).
Proof.
  unfold str_of_nat, NilZero.string_of_uint.
  pose proof (to_uint_nonnil n). by destruct (Nat.to_uint n).
Qed.

Lemma str_of_nat_digits n : all_digits (str_of_nat n) = true.
Proof. rewrite str_of_nat_unfold. apply string_of_uint_digits. Qed.

Lemma str_of_nat_inj n m : str_of_nat n = str_of_nat m → n = m.
Proof.
  rewrite !str_of_nat_unfold. intros H.
  apply DecimalNat.Unsigned.to_uint_inj.
  assert (Hs : Some (Nat.to_uint n) = Some (Nat.to_uint m))
    by (by rewrite <- !NilEmpty.usu, H).
  by injection Hs.
Qed.

Lemma all_digits_no_char ch s :
  is_digit ch = false → all_digits s = true → occurs ch s = false.
Proof.
  intros Hch. induction s as [|c s IH]; [done|]. simpl.
  intros [Hc Hs]%andb_prop. rewrite (IH Hs), orb_false_r.
  destruct (Ascii.eqb_spec c ch) as [->|]; [congruence|done].
Qed.

Lemma occurs_app ch s t :
  occurs ch (s +:+ t) = occurs ch s || occurs ch t.
Proof.
  induction s as [|c s IH]; [done|]. simpl. by rewrite IH, orb_assoc.
Qed.

Lemma occurs_sep ch s t : occurs ch (s +:+ String ch t) = true.
Proof.
  rewrite occurs_app. simpl. rewrite Ascii.eqb_refl. apply orb_true_r.
Qed.

(** Two ways of cutting a string at its first [ch] agree. *)
Lemma cut_at_first ch : ∀ a a' b b',
  occurs ch a = false → occurs ch a' = false →
  a +:+ String ch b = a' +:+ String ch b' → a = a' ∧ b = b'.
Proof.
  induction a as [|c a IH]; intros [|c' a'] b b' Ha Ha' H; simpl in *.
  - by injection H.
  - injection H as -> _. rewrite Ascii.eqb_refl in Ha'. done.
  - injection H as -> _. rewrite Ascii.eqb_refl in Ha. done.
  - injection H as -> H.
    apply orb_false_elim in Ha as [_ Ha].
    apply orb_false_elim in Ha' as [_ Ha'].
    destruct (IH _ _ _ Ha Ha' H) as [-> ->]. done.
Qed.

(** Two ways of cutting a string at its last [ch] agree. *)
Lemma cut_at_last ch : ∀ a a' b b',
  occurs ch b = false → occurs ch b' = false →
  a +:+ String ch b = a' +:+ String ch b' → a = a' ∧ b = b'.
Proof.
  induction a as [|c a IH]; intros [|c' a'] b b' Hb Hb' H; simpl in *.
  - by injection H.
  - injection H as _ H. rewrite H, occurs_sep in Hb. done.
  - injection H as _ H. rewrite <- H, occurs_sep in Hb'. done.
  - injection H as -> H.
    destruct (IH _ _ _ Hb Hb' H) as [-> ->]. done.
Qed.

Lemma name_of_inj h h' k k' :
  name_of h (S k) = name_of h' (S k') → h = h' ∧ k = k'.
Proof.
  unfold name_of. intros H.
  apply (cut_at_last "_") in H as [-> H].
  - split; [done|]. by apply str_of_nat_inj in H as [= ->].
  - apply all_digits_no_char; [done|apply str_of_nat_digits].
  - apply all_digits_no_char; [done|apply str_of_nat_digits].
Qed.

End NumeralFacts.

(** ** More on [make_unique_headers] *)

Section HeaderMore.
Import PyStr Utils Headers.

Lemma renamed_name_of seen h : renamed seen h = name_of h (seen_count seen h).
Proof. unfold renamed, seen_count, name_of. by destruct (seen !! h). Qed.

Lemma seen_count_counted seen h k :
  seen_count (counted seen h) k
  = if decide (k = h) then S (seen_count seen h) else seen_count seen k.
Proof.
  unfold seen_count. case_decide as E.
  - subst k. unfold counted.
    destruct (seen !! h); by rewrite lookup_insert_eq.
  - rewrite counted_lookup_ne; [done|congruence].
Qed.

Lemma occurrences_cons h k l :
  occurrences h (k :: l)
  = if decide (h = k) then S (occurrences h l) else occurrences h l.
Proof.
  unfold occurrences. rewrite filter_cons.
  destruct (decide (k = h)); case_decide; simpl; congruence.
Qed.

Lemma unique_from_lookup headers : ∀ seen i h,
  headers !! i = Some h →
  unique_from seen headers !! i
  = Some (name_of h (seen_count seen h + occurrences h (take i headers))).
Proof.
  induction headers as [|k hs IH]; intros seen i h Hi; [done|].
  destruct i as [|i]; simpl in *.
  - injection Hi as ->. rewrite renamed_name_of.
    unfold occurrences. simpl. by rewrite Nat.add_0_r.
  - rewrite (IH _ _ _ Hi), seen_count_counted, occurrences_cons.
    do 2 f_equal.
    destruct (decide (h = k)); simplify_eq; simpl; lia.
Qed.

Lemma occurrences_0 h l : occurrences h l = 0 ↔ h ∉ l.
Proof.
  induction l as [|k l IH]; [by split; [intros _ ?%elem_of_nil|]|].
  rewrite occurrences_cons, not_elem_of_cons.
  case_decide; [|tauto]. split; [done|]. intros [? _]. done.
Qed.

Lemma occurrences_take_lt headers h i j :
  (i < j)%nat → headers !! i = Some h →
  (occurrences h (take i headers) < occurrences h (take j headers))%nat.
Proof.
  revert i j. induction headers as [|k hs IH]; intros i j Hlt Hi; [done|].
  destruct j as [|j]; [lia|]. destruct i as [|i]; simpl in *.
  - injection Hi as ->. rewrite occurrences_cons.
    case_decide; [|done]. unfold occurrences at 1. simpl. lia.
  - rewrite !occurrences_cons.
    assert (occurrences h (take i hs) < occurrences h (take j hs))%nat
      by (apply IH; [lia|done]).
    case_decide; lia.
Qed.

(** X1: the result of [make_unique_headers] has the length of its
    argument, and its entry at each position is the header there when the
    header did not occur before, and otherwise the header, "_" and the
    number of its earlier occurrences. *)
Theorem make_unique_headers_by_position
    (headers : list string) (i : nat) (h : string) :
  length (make_unique_headers headers) = length headers
  ∧ (headers !! i = Some h →
     make_unique_headers headers !! i
     = Some (match occurrences h (take i headers) with
             | O => h
             | S k => h +:+ "_" +:+ str_of_nat (S k)
             end)).
Proof.
  split; [apply make_unique_headers_length|].
  intros Hi. rewrite make_unique_headers_unfold.
  rewrite (unique_from_lookup _ _ _ _ Hi).
  unfold seen_count. rewrite lookup_empty. simpl.
  by destruct (occurrences h (take i headers)).
Qed.

Lemma make_unique_headers_by_position_witness :
  make_unique_headers ["ID"; "Note"; "ID"; "ID"] !! 3 = Some "ID_2".
Proof.
  apply (proj2 (make_unique_headers_by_position
                  ["ID"; "Note"; "ID"; "ID"] 3 "ID")).
  reflexivity.
Defined.

Lemma make_unique_headers_fixes_distinct (headers : list string) :
  NoDup headers → make_unique_headers headers = headers.
Proof.
  intros Hnd. apply list_eq. intros i.
  destruct (headers !! i) as [h|] eqn:Hi.
  - apply make_unique_headers_first_occurrence; [done|].
    intros (j & Hj)%list_elem_of_lookup.
    apply lookup_take_Some in Hj as [Hj Hlt].
    pose proof (NoDup_lookup _ _ _ _ Hnd Hi Hj). lia.
  - apply lookup_ge_None. rewrite make_unique_headers_length.
    by apply lookup_ge_None.
Qed.

(** X2: headers that are already pairwise distinct come back unchanged. *)
Theorem make_unique_headers_distinct_unchanged (headers : list string) :
  NoDup headers → make_unique_headers headers = headers.
Proof. apply make_unique_headers_fixes_distinct. Qed.

Lemma make_unique_headers_distinct_unchanged_witness :
  make_unique_headers ["ID"; "Comment"; "Credibility"]
  = ["ID"; "Comment"; "Credibility"].
Proof.
  apply make_unique_headers_distinct_unchanged.
  apply (bool_decide_eq_true_1 (NoDup ["ID"; "Comment"; "Credibility"])).
  vm_compute. reflexivity.
Defined.

(** X3: when no header is another header followed by "_" and a number
    from 1 on, the result of [make_unique_headers] has no name twice. *)
Theorem make_unique_headers_unique (headers : list string) :
  (∀ h k, h ∈ headers → h +:+ "_" +:+ str_of_nat (S k) ∉ headers) →
  NoDup (make_unique_headers headers).
Proof.
  intros Hfree. apply NoDup_alt. intros i j x Hi Hj.
  destruct (headers !! i) as [hi|] eqn:Ei; last first.
  { apply lookup_ge_None in Ei. apply lookup_lt_Some in Hi.
    rewrite make_unique_headers_length in Hi. lia. }
  destruct (headers !! j) as [hj|] eqn:Ej; last first.
  { apply lookup_ge_None in Ej. apply lookup_lt_Some in Hj.
    rewrite make_unique_headers_length in Hj. lia. }
  rewrite make_unique_headers_unfold in Hi, Hj.
  rewrite (unique_from_lookup _ _ _ _ Ei) in Hi.
  rewrite (unique_from_lookup _ _ _ _ Ej) in Hj.
  unfold seen_count in Hi, Hj. rewrite lookup_empty in Hi, Hj.
  simpl in Hi, Hj. injection Hi as Hi. injection Hj as Hj.
  assert (Hin_i : hi ∈ headers) by (apply list_elem_of_lookup; eauto).
  assert (Hin_j : hj ∈ headers) by (apply list_elem_of_lookup; eauto).
  assert (Hsame : hi = hj →
                  occurrences hi (take i headers)
                  = occurrences hj (take j headers) → i = j).
  { intros <- Hocc. destruct (Nat.lt_trichotomy i j) as [Hlt|[->|Hlt]];
      [|done|].
    - pose proof (occurrences_take_lt _ _ _ _ Hlt Ei). lia.
    - pose proof (occurrences_take_lt _ _ _ _ Hlt Ej). lia. }
  destruct (occurrences hi (take i headers)) as [|ki] eqn:Oi;
    destruct (occurrences hj (take j headers)) as [|kj] eqn:Oj.
  - simpl in Hi, Hj. apply Hsame; congruence.
  - simpl in Hi. destruct (Hfree hj kj Hin_j).
    unfold name_of in Hj. by rewrite Hj, <- Hi.
  - simpl in Hj. destruct (Hfree hi ki Hin_i).
    unfold name_of in Hi. by rewrite Hi, <- Hj.
  - rewrite <- Hj in Hi. apply name_of_inj in Hi as [E1 E2].
    apply Hsame; congruence.
Qed.

Lemma make_unique_headers_unique_witness :
  NoDup (make_unique_headers ["a"; "a"; "b"]).
Proof.
  apply make_unique_headers_unique. intros h k _ Hbad.
  assert (Hno : ∀ x, x ∈ ["a"; "a"; "b"] → occurs "_" x = false).
  { intros x Hx. repeat (apply elem_of_cons in Hx as [->|Hx]; [done|]).
    by apply elem_of_nil in Hx. }
  apply Hno in Hbad.
  pose proof (occurs_sep "_" h (str_of_nat (S k))) as Hsep.
  change (h +:+ "_" +:+ str_of_nat (S k))
    with (h +:+ String "_" (str_of_nat (S k))) in Hbad.
  congruence.
Defined.

End HeaderMore.

(** ** The retry decorator *)

Section RetryFacts.
Import Retry.
Context {A E : Type}.
Implicit Types (func : nat → Attempt A E).

(** The pauses before attempt [k]: [delay], [2 * delay], ... *)
Lemma retry_from_failures func max_retries delay : ∀ remaining attempt slept k,
  (attempt + remaining = max_retries)%nat →
  (k ≤ remaining)%nat → (attempt + k < max_retries)%nat →
  (∀ j, (attempt ≤ j < attempt + k)%nat → ∃ e, func j = Raises e) →
  retry_from func max_retries delay remaining attempt slept
  = retry_from func max_retries delay (remaining - k) (attempt + k)
      (slept ++ ((λ j, delay * (j + 1))%nat <$> seq attempt k)).
Proof.
  intros remaining attempt slept k. revert remaining attempt slept.
  induction k as [|k IH]; intros remaining attempt slept Hsum Hk Hlt Hfail.
  - simpl. by rewrite Nat.sub_0_r, Nat.add_0_r, app_nil_r.
  - destruct remaining as [|remaining]; [lia|]. simpl.
    destruct (Hfail attempt) as [e He]; [lia|]. rewrite He.
    destruct (Nat.eqb_spec attempt (max_retries - 1)) as [Heq|_]; [lia|].
    rewrite (IH remaining (S attempt)); [|lia|lia|lia|].
    + rewrite <- app_assoc. simpl.
      by replace (attempt + S k)%nat with (S (attempt + k)) by lia.
    + intros j Hj. apply Hfail. lia.
Qed.

(** X4: when the calls fail up to call [k] and call [k] returns, with
    [k] below [max_retries], the wrapper returns that value after [k + 1]
    calls and the pauses [delay], [2 * delay], ..., [k * delay]. *)
Theorem retry_returns_first_success
    func (max_retries delay k : nat) (a : A) :
  (k < max_retries)%nat →
  (∀ j, (j < k)%nat → ∃ e, func j = Raises e) →
  func k = Returns a →
  retry_on_failure max_retries delay func
  = mkRun (Value a) (S k) ((λ j, delay * (j + 1))%nat <$> seq 0 k).
Proof.
  intros Hk Hfail Hok. unfold retry_on_failure.
  rewrite (retry_from_failures _ _ _ max_retries 0 [] k);
    [|lia|lia|lia|intros j Hj; apply Hfail; lia].
  destruct (max_retries - k)%nat as [|r] eqn:Hr; [lia|].
  simpl. by rewrite Hok.
Qed.

(** X5: when all of the [max_retries] calls fail, the wrapper raises the
    exception of the last one, after [max_retries] calls and the pauses
    [delay], ..., [(max_retries - 1) * delay]: it does not pause after the
    last failure. *)
Theorem retry_raises_last_failure
    func (max_retries delay : nat) (e : E) :
  (0 < max_retries)%nat →
  (∀ j, (j < max_retries)%nat → ∃ e', func j = Raises e') →
  func (max_retries - 1) = Raises e →
  retry_on_failure max_retries delay func
  = mkRun (Reraised e) max_retries
          ((λ j, delay * (j + 1))%nat <$> seq 0 (max_retries - 1)).
Proof.
  intros Hpos Hfail Hlast. unfold retry_on_failure.
  rewrite (retry_from_failures _ _ _ max_retries 0 [] (max_retries - 1));
    [|lia|lia|lia|intros j Hj; apply Hfail; lia].
  replace (max_retries - (max_retries - 1))%nat with 1%nat by lia.
  simpl. rewrite Hlast, Nat.eqb_refl. f_equal. lia.
Qed.

Lemma retry_from_bounds func max_retries delay : ∀ remaining attempt slept,
  (attempt + remaining = max_retries)%nat → length slept = attempt →
  let run := retry_from func max_retries delay remaining attempt slept in
  (calls run ≤ max_retries)%nat
  ∧ match remaining with
    | O => calls run = attempt ∧ length (sleeps run) = attempt
    | S _ => (length (sleeps run) + 1)%nat = calls run
    end
  ∧ (ended run = NoValue → remaining = 0%nat).
Proof.
  induction remaining as [|remaining IH]; intros attempt slept Hsum Hlen;
    simpl.
  - split; [lia|]. done.
  - destruct (func attempt) as [a|e]; simpl.
    + split; [lia|]. split; [lia|done].
    + destruct (Nat.eqb_spec attempt (max_retries - 1)) as [Heq|Hne]; simpl.
      * split; [lia|]. split; [lia|done].
      * destruct (IH (S attempt) (slept ++ [delay * (attempt + 1)])%nat)
          as (Hc & Hs & Hn); [lia|rewrite length_app; simpl; lia|].
        destruct remaining as [|remaining]; [lia|].
        split; [done|]. split; [done|].
        intros Hend. by apply Hn in Hend.
Qed.

(** X6: whatever the wrapped function does, the wrapper calls it
    [max_retries] times at most and pauses once less than it calls; and
    it ends in the [None] that follows the loop only when [max_retries]
    is 0. *)
Theorem retry_bounds func (max_retries delay : nat) :
  let run := retry_on_failure max_retries delay func in
  (calls run ≤ max_retries)%nat
  ∧ length (sleeps run) = (calls run - 1)%nat
  ∧ (ended run = NoValue ↔ max_retries = 0%nat).
Proof.
  unfold retry_on_failure.
  destruct (retry_from_bounds func max_retries delay max_retries 0 [])
    as (Hc & Hs & Hn); [lia|done|].
  simpl in *. split; [done|]. split.
  - destruct max_retries; [destruct Hs as [-> ->]; done|lia].
  - split; [done|]. intros ->. reflexivity.
Qed.

End RetryFacts.

Lemma retry_returns_first_success_witness :
  Retry.retry_on_failure 3 1
    (λ k, if (k <? 2)%nat then Retry.Raises "timeout"
          else Retry.Returns "sheet")
  = Retry.mkRun (Retry.Value "sheet") 3 [1; 2].
Proof.
  apply (retry_returns_first_success
           (λ k, if (k <? 2)%nat then Retry.Raises "timeout"
                 else Retry.Returns "sheet") 3 1 2 "sheet").
  - lia.
  - intros j Hj. exists "timeout".
    destruct j as [|[|j]]; [reflexivity|reflexivity|lia].
  - reflexivity.
Defined.

Lemma retry_raises_last_failure_witness :
  Retry.retry_on_failure 3 1
    (λ k, Retry.Raises (A:=string) (PyStr.str_of_nat k))
  = Retry.mkRun (Retry.Reraised "2") 3 [1; 2].
Proof.
  apply (retry_raises_last_failure
           (λ k, Retry.Raises (A:=string) (PyStr.str_of_nat k)) 3 1 "2").
  - lia.
  - intros j _. eauto.
  - reflexivity.
Defined.

Section WrappedFacts.
Import Retry.

(** X7: [get_worksheet_by_key], [get_worksheet_by_url] and
    [get_gsheets_client] catch every exception of their remote calls and
    return [None], so under [retry_on_failure] they are called once,
    without a pause and without an exception, whatever the remote does:
    a failed call is never tried again. *)
Theorem wrapped_functions_never_retry
    {W C : Type} (sheet : nat → Attempt W RemoteError)
    (auth : nat → Attempt C RemoteError) :
  get_worksheet_by_key sheet
  = mkRun (Value (match sheet 0 with
                  | Returns w => (Some w, [])
                  | Raises WorksheetNotFound =>
                      (None, [ShownWorksheetNotFound])
                  | Raises OtherException => (None, [ShownFailedToAccess])
                  end)) 1 []
  ∧ get_worksheet_by_url sheet
    = mkRun (Value (match sheet 0 with
                    | Returns w => (Some w, [])
                    | Raises _ => (None, [ShownFailedToAccess])
                    end)) 1 []
  ∧ get_gsheets_client auth
    = mkRun (Value (match auth 0 with
                    | Returns c => (Some c, [])
                    | Raises _ => (None, [ShownFailedToAuthenticate])
                    end)) 1 [].
Proof.
  unfold get_worksheet_by_key, get_worksheet_by_url, get_gsheets_client,
    retry_on_failure. simpl.
  repeat split.
  - by destruct (sheet 0) as [w|[]].
  - by destruct (sheet 0) as [w|[]].
  - by destruct (auth 0) as [c|[]].
Qed.

End WrappedFacts.

(** ** More on loading the worksheets *)

Section LoadMore.
Import PyStr Utils ListPage.

Implicit Types (pd : Pandas).

Lemma index_of_lookup name cols i :
  index_of name cols = Some i → cols !! i = Some name.
Proof.
  revert i. induction cols as [|c cs IH]; intros i; [done|]. simpl.
  destruct (String.eqb_spec c name) as [->|_].
  - by intros [= <-].
  - destruct (index_of name cs) as [j|]; [|done].
    intros [= <-]. by apply IH.
Qed.

Lemma index_of_is_Some name cols :
  is_Some (index_of name cols) ↔ name ∈ cols.
Proof.
  destruct (index_of name cols) as [i|] eqn:E.
  - split; [|by eauto]. intros _. apply list_elem_of_lookup.
    exists i. by apply index_of_lookup.
  - apply index_of_None in E. split; [by intros [? ?]|done].
Qed.

(** X8: the frame that [load_worksheet_df] returns has no label twice and
    every row as wide as its labels; a failure that is reported comes with
    the empty frame; and a frame with rows has one row for each data row
    of the sheet, under the header made unique, and nothing is reported. *)
Theorem load_worksheet_df_frame pd (worksheet : Fetch) :
  let msgs := (load_worksheet_df pd worksheet).1 in
  let df := (load_worksheet_df pd worksheet).2 in
  NoDup (columns df)
  ∧ Forall (λ r, length r = length (columns df)) (rows df)
  ∧ (msgs ≠ [] → df = empty_frame)
  ∧ (rows df ≠ [] →
     ∃ header body, worksheet = Fetched (header :: body)
                    ∧ length (rows df) = length body
                    ∧ columns df = make_unique_headers header ∧ msgs = []).
Proof.
  intros msgs df. subst msgs df.
  split; [apply load_worksheet_df_columns_nodup|].
  destruct worksheet as [data|]; simpl; [|by repeat split].
  destruct data as [|header [|row body]]; simpl; [by repeat split..|].
  destruct (data_frame (row :: body) (make_unique_headers header)
            ≫= optimize_dataframe pd) as [df'|] eqn:E; simpl;
    [|by repeat split].
  apply bind_Some in E as (df & Hdf & Hopt).
  apply data_frame_Some in Hdf as [-> Hwide].
  apply optimize_dataframe_Some in Hopt as (_ & Hcols & Hlen & Hrows).
  simpl in *. split; [|split; [done|]].
  - apply Forall_forall. intros r' (r & Hr & ->)%Hrows. rewrite Hcols.
    rewrite Forall_forall in Hwide. by apply Hwide.
  - intros _. by exists header, (row :: body).
Qed.

Lemma load_worksheet_df_frame_witness :
  ∃ header body,
    Fetched [["ID"; "ID"]; ["a"; "b"]] = Fetched (header :: body)
    ∧ 1%nat = length body
    ∧ ["ID"; "ID_1"] = make_unique_headers header.
Proof.
  destruct (proj2 (proj2 (proj2 (load_worksheet_df_frame
                                   Sample.pandas
                                   (Fetched [["ID"; "ID"]; ["a"; "b"]])))))
    as (header & body & Hw & Hl & Hc & _); [discriminate|].
  exists header, body. split; [exact Hw|]. split; [exact Hl|exact Hc].
Defined.

(** X9: a roster sheet that holds its header row only, or nothing, ends
    the load with "Error loading data", although the fetch went through
    and [load_worksheet_df] reported nothing for it. *)
Theorem header_only_roster_stops
    pd (sheet : list (list string)) (ws_master : Fetch) :
  (length sheet ≤ 1)%nat →
  (load_worksheet_df pd (Fetched sheet)).1 = []
  ∧ load_all_data_body pd (Fetched sheet) ws_master
    = ((load_worksheet_df pd ws_master).1 ++ [ErrorLoadingData], Stopped)
  ∧ load_all_data pd None (Fetched sheet) ws_master
    = (None, (load_worksheet_df pd ws_master).1 ++ [ErrorLoadingData],
       Stopped).
Proof.
  intros Hlen.
  assert (E : load_worksheet_df pd (Fetched sheet) = ([], empty_frame)).
  { destruct sheet as [|header [|row body]]; [done|done|simpl in Hlen; lia]. }
  split; [by rewrite E|].
  assert (Hbody : load_all_data_body pd (Fetched sheet) ws_master
            = ((load_worksheet_df pd ws_master).1 ++ [ErrorLoadingData],
               Stopped)).
  { unfold load_all_data_body. rewrite E.
    by destruct (load_worksheet_df pd ws_master) as [m2 master]. }
  split; [exact Hbody|]. unfold load_all_data. by rewrite Hbody.
Qed.

Lemma header_only_roster_stops_witness :
  load_all_data Sample.pandas None
                (Fetched [["ID"; "Comment"; "Credibility"]])
                (Fetched [["ID"; "Follower"]; ["alice"; "10"]])
  = (None, [ErrorLoadingData], Stopped).
Proof.
  apply (proj2 (proj2 (header_only_roster_stops Sample.pandas
                         [["ID"; "Comment"; "Credibility"]]
                         (Fetched [["ID"; "Follower"]; ["alice"; "10"]])
                         (le_n 1)))).
Defined.

(** X10: the load returns exactly when the roster frame has a column
    labelled "ID"; in every other case it ends the request. *)
Theorem load_returns_iff_id_column pd (ws_inf ws_master : Fetch) :
  (∃ msgs v, load_all_data_body pd ws_inf ws_master = (msgs, Returned v))
  ↔ "ID" ∈ columns (load_worksheet_df pd ws_inf).2.
Proof.
  rewrite <- index_of_is_Some. split.
  - intros (msgs & v & H).
    apply load_all_data_body_returned in H as (i & Hi & _). eauto.
  - intros [i Hi]. unfold load_all_data_body.
    destruct (load_worksheet_df pd ws_inf) as [m1 inf].
    destruct (load_worksheet_df pd ws_master) as [m2 master]. simpl in *.
    destruct (columns inf) as [|c0 cs]; [done|]. rewrite Hi. eauto.
Qed.

Lemma is_space_lower_chr c : is_space (lower_chr c) = is_space c.
Proof. destruct c as [[] [] [] [] [] [] [] []]; vm_compute; reflexivity. Qed.

Lemma lower_chr_idempotent c : lower_chr (lower_chr c) = lower_chr c.
Proof. destruct c as [[] [] [] [] [] [] [] []]; vm_compute; reflexivity. Qed.

Lemma lower_idempotent s : lower (lower s) = lower s.
Proof.
  induction s as [|c s IH]; [done|]. simpl.
  by rewrite lower_chr_idempotent, IH.
Qed.

Lemma first_chr_lower s : first_chr (lower s) = lower_chr <$> first_chr s.
Proof. by destruct s. Qed.

Lemma last_chr_lower s : last_chr (lower s) = lower_chr <$> last_chr s.
Proof.
  induction s as [|c s IH]; [done|]. simpl.
  destruct s as [|d s]; [done|]. simpl in *. exact IH.
Qed.

Lemma strip_lower s : strip s = s → strip (lower s) = lower s.
Proof.
  intros Hs. apply strip_id.
  - unfold starts_with_space. rewrite first_chr_lower.
    pose proof (strip_no_leading_space s) as H. rewrite Hs in H.
    unfold starts_with_space in H.
    destruct (first_chr s); simpl; [by rewrite is_space_lower_chr|done].
  - unfold ends_with_space. rewrite last_chr_lower.
    pose proof (strip_no_trailing_space s) as H. rewrite Hs in H.
    unfold ends_with_space in H.
    destruct (last_chr s); simpl; [by rewrite is_space_lower_chr|done].
Qed.

(** X11: when the load returns, the roster has one row per data row of
    the sheet, every identity is trimmed, and every credibility is trimmed
    and in lower case. *)
Theorem loaded_roster_is_clean
    pd (ws_inf ws_master : Fetch) (msgs : list Message) (v : Loaded) :
  load_all_data_body pd ws_inf ws_master = (msgs, Returned v) →
  length (ros_rows (inf_df v)) = length (rows (load_worksheet_df pd ws_inf).2)
  ∧ ∀ r, r ∈ ros_rows (inf_df v) →
      strip (ros_ID r) = ros_ID r
      ∧ strip (ros_Credibility r) = ros_Credibility r
      ∧ lower (ros_Credibility r) = ros_Credibility r.
Proof.
  intros H. apply load_all_data_body_returned in H as (i & _ & -> & _).
  simpl. split; [by rewrite length_fmap|].
  intros r (row & -> & _)%list_elem_of_fmap. simpl.
  split; [apply strip_idempotent|].
  split; [apply strip_lower, strip_idempotent|apply lower_idempotent].
Qed.

Lemma loaded_roster_is_clean_witness :
  Forall (λ r, strip (ros_ID r) = ros_ID r
               ∧ strip (ros_Credibility r) = ros_Credibility r
               ∧ lower (ros_Credibility r) = ros_Credibility r)
         [mkRosterRow "alice" (Str "") "false";
          mkRosterRow "bob" (Str "ok") "true"].
Proof.
  apply Forall_forall.
  apply (proj2 (loaded_roster_is_clean Sample.pandas
                  (Fetched [["Comment"; "ID"; "Credibility"];
                            [""; " alice "; " FALSE"];
                            ["ok"; "bob"; "True "]])
                  FetchFailed [FailedToLoadWorksheet]
                  (mkLoaded
                     (mkRoster ["Comment"; "ID"; "Credibility"]
                               [mkRosterRow "alice" (Str "") "false";
                                mkRosterRow "bob" (Str "ok") "true"])
                     (mkFrame required_cols []))
                  eq_refl)).
Defined.

End LoadMore.

Section LoadMore2.
Import PyStr Utils ListPage Buckets.

Implicit Types (pd : Pandas) (new_df : NewDf) (roster : Roster).
Implicit Types (rows : list RosterRow).

Lemma pending_df_nil new_df merged_df :
  (∀ id, id ∈ identities new_df →
         id ∈ rejected_ids (categorize new_df merged_df)
         ∨ id ∈ unknown_ids (categorize new_df merged_df)) →
  pending_df (categorize new_df merged_df) = [].
Proof.
  intros Hall.
  destruct (pending_df (categorize new_df merged_df)) as [|p ps] eqn:E;
    [done|].
  assert (Hin : pen_ID p ∈ pending_ids (categorize new_df merged_df)).
  { unfold pending_ids. apply elem_of_list_to_set, list_elem_of_fmap.
    exists p. split; [done|]. rewrite E. by left. }
  apply elem_of_pending_ids in Hin as (Hid & Hr & Hu).
  destruct (Hall _ Hid); done.
Qed.

Lemma rejects_all_false rows id :
  (∀ r, r ∈ rows → ros_Credibility r = "false") →
  id ∈ ros_ID <$> rows → rejects rows id = true.
Proof.
  intros Hall (r & -> & Hr)%list_elem_of_fmap.
  unfold rejects. apply existsb_exists. exists r.
  split; [by apply list_elem_of_In|].
  rewrite String.eqb_refl. unfold reads_false. by rewrite (Hall r Hr).
Qed.

(** X12: when the roster sheet has no column labelled "Credibility", the
    load gives every roster row the credibility "false"; then, for an
    upload that has no "Credibility" column of its own either, no
    candidate is pending: each one is rejected or unknown. *)
Theorem roster_without_credibility_rejects_all
    pd (ws_inf ws_master : Fetch) (msgs : list Message) (v : Loaded)
    new_df (p : Partition) :
  load_all_data_body pd ws_inf ws_master = (msgs, Returned v) →
  "Credibility" ∉ columns (load_worksheet_df pd ws_inf).2 →
  "Credibility" ∉ nd_labels new_df →
  reconcile pd new_df (inf_df v) = Some p →
  (∀ r, r ∈ ros_rows (inf_df v) → ros_Credibility r = "false")
  ∧ pending_df p = [].
Proof.
  intros H Hno Hown ->%reconcile_Some.
  apply load_all_data_body_returned in H as (i & _ & Hinf & _).
  apply index_of_None in Hno.
  assert (Hall : ∀ r, r ∈ ros_rows (inf_df v) → ros_Credibility r = "false").
  { rewrite Hinf. intros r (row & -> & _)%list_elem_of_fmap. simpl.
    unfold get_or. by rewrite Hno. }
  split; [exact Hall|].
  apply pending_df_nil. intros id Hid.
  rewrite (rejected_ids_roster _ _ _ Hown), (unknown_ids_roster _ _ _ Hown).
  destruct (decide (id ∈ ros_ID <$> ros_rows (inf_df v))) as [Hin|Hout];
    [left|by right].
  split; [done|]. by apply rejects_all_false.
Qed.

Lemma roster_without_credibility_rejects_all_witness :
  pending_df
    (categorize (mkNewDf [] [mkCandidate "alice" []; mkCandidate "bob" []])
       (nd_rows (mkNewDf [] [mkCandidate "alice" []; mkCandidate "bob" []])
          ≫= merge_row
                (mkNewDf [] [mkCandidate "alice" []; mkCandidate "bob" []])
                [mkRosterRow "alice" (Str "fine") "false"]))
  = [].
Proof.
  apply (proj2 (roster_without_credibility_rejects_all Sample.pandas
                  (Fetched [["ID"; "Comment"]; ["alice"; "fine"]])
                  FetchFailed [FailedToLoadWorksheet]
                  (mkLoaded
                     (mkRoster ["ID"; "Comment"; "Credibility"]
                               [mkRosterRow "alice" (Str "fine") "false"])
                     (mkFrame required_cols []))
                  (mkNewDf [] [mkCandidate "alice" []; mkCandidate "bob" []])
                  _ eq_refl
                  ltac:(vm_compute; intros H;
                        repeat (apply elem_of_cons in H as [H|H];
                                [discriminate|]);
                        by apply elem_of_nil in H)
                  ltac:(by intros H%elem_of_nil)
                  eq_refl)).
Defined.

(** X13: after the load the metrics frame has every required column; it
    keeps its own labels in front and as many rows, each one the cells it
    had followed by missing values; and rows as wide as the labels stay
    so. *)
Theorem add_required_columns (master : Frame Scalar) :
  (∀ c, c ∈ required_cols → c ∈ columns (add_required master))
  ∧ columns master `prefix_of` columns (add_required master)
  ∧ length (Utils.rows (add_required master)) = length (Utils.rows master)
  ∧ (∀ i r, Utils.rows master !! i = Some r →
       ∃ pad, Utils.rows (add_required master) !! i
              = Some ((Some <$> r) ++ pad)
              ∧ Forall (λ x, x = None) pad)
  ∧ (Forall (λ r, length r = length (columns master)) (Utils.rows master) →
     Forall (λ r, length r = length (columns (add_required master)))
            (Utils.rows (add_required master))).
Proof.
  unfold add_required. simpl. repeat split.
  - intros c Hc. apply elem_of_app.
    destruct (decide (c ∈ columns master)); [by left|right].
    by apply list_elem_of_filter.
  - by eexists.
  - by rewrite length_fmap.
  - intros i r Hi. eexists. rewrite list_lookup_fmap, Hi. simpl.
    split; [reflexivity|]. apply Forall_forall.
    by intros x [-> _]%elem_of_replicate.
  - intros Hw. apply Forall_fmap. eapply Forall_impl; [exact Hw|].
    intros r Hr. simpl.
    by rewrite !length_app, length_fmap, length_replicate, Hr.
Qed.

Lemma add_required_columns_witness :
  Forall (λ r, length r = 7%nat)
    (Utils.rows
       (add_required (mkFrame ["ID"; "CPV"] [[Str "alice"; Num "3"]]))).
Proof.
  apply (proj2 (proj2 (proj2 (proj2
           (add_required_columns
              (mkFrame ["ID"; "CPV"] [[Str "alice"; Num "3"]])))))).
  repeat constructor.
Defined.

(** X14: once a run of the load step was not stopped, the session holds
    the roster, and a later run changes nothing, shows nothing and reads
    neither the cache nor the sheets: the roster of the session is fetched
    again only after [data_loaded] is reset. *)
Theorem load_step_settles
    pd (cache cache' : option Loaded) (ss ss' : Session)
    (ws_inf ws_master : Fetch) (msgs : list Message) :
  load_step pd cache ss ws_inf ws_master = (cache', ss', msgs, false) →
  data_loaded ss' = true ∧ ss_inf_df ss' ≠ None
  ∧ ∀ later_cache ws_inf' ws_master',
      load_step pd later_cache ss' ws_inf' ws_master'
      = (later_cache, ss', [], false).
Proof.
  unfold load_step at 1.
  destruct (negb (data_loaded ss) || bool_decide (ss_inf_df ss = None))
    eqn:Hneed.
  - destruct (load_all_data pd cache ws_inf ws_master) as [[c m] [v|]];
      [|discriminate].
    intros [= <- <- <-]. simpl.
    split; [reflexivity|]. split; [discriminate|].
    intros. reflexivity.
  - intros [= <- <- <-].
    apply orb_false_elim in Hneed as [Hd Hn].
    apply negb_false_iff in Hd. apply bool_decide_eq_false_1 in Hn.
    split; [exact Hd|]. split; [exact Hn|].
    intros. unfold load_step. rewrite Hd. simpl.
    by rewrite bool_decide_eq_false_2.
Qed.

Lemma load_step_settles_witness :
  load_step Sample.pandas None
    (mkSession true
       (Some (mkRoster ["ID"; "Credibility"; "Comment"]
                       [mkRosterRow "alice" (Str "") "false"]))
       (Some (mkFrame required_cols [])))
    (Fetched [["ID"; "Credibility"]; ["alice"; "true"]]) FetchFailed
  = (None,
     mkSession true
       (Some (mkRoster ["ID"; "Credibility"; "Comment"]
                       [mkRosterRow "alice" (Str "") "false"]))
       (Some (mkFrame required_cols [])),
     [], false).
Proof.
  apply (proj2 (proj2 (load_step_settles Sample.pandas None _
                         (mkSession false None None) _
                         (Fetched [["ID"; "Credibility"]; ["alice"; "false"]])
                         FetchFailed _ eq_refl))).
Defined.

End LoadMore2.

(** ** More on the buckets *)

Section BucketMore.
Import PyStr Utils ListPage Buckets.

Implicit Types (pd : Pandas) (new_df : NewDf) (roster : Roster).
Implicit Types (rows : list RosterRow) (c : Candidate) (p : Partition).

Lemma on_roster_true rows id :
  on_roster rows id = true ↔ matches_of rows id ≠ [].
Proof.
  unfold on_roster. rewrite bool_decide_eq_true, matches_of_nil.
  split; [tauto|]. intros H. by destruct (decide (id ∈ ros_ID <$> rows)).
Qed.

Lemma on_roster_false rows id :
  on_roster rows id = false ↔ id ∉ ros_ID <$> rows.
Proof. unfold on_roster. by rewrite bool_decide_eq_false. Qed.

Lemma rejects_true rows id :
  rejects rows id = true
  ↔ ∃ r, r ∈ rows ∧ ros_ID r = id ∧ reads_false r = true.
Proof.
  unfold rejects. rewrite existsb_exists. split.
  - intros (r & Hr & [Hid Hf]%andb_prop).
    exists r. apply list_elem_of_In in Hr. by apply String.eqb_eq in Hid.
  - intros (r & Hr & <- & Hf). exists r.
    split; [by apply list_elem_of_In|]. by rewrite String.eqb_refl.
Qed.

(** X15: for an upload without a "Credibility" column of its own, an
    identity is pending exactly when it is in the upload, some roster row
    has it, and no roster row that has it reads "false" or "False". *)
Theorem pending_iff_matched_and_not_false
    pd new_df roster p (id : string) :
  "Credibility" ∉ nd_labels new_df →
  reconcile pd new_df roster = Some p →
  id ∈ pending_ids p
  ↔ id ∈ identities new_df
    ∧ (∃ r, r ∈ ros_rows roster ∧ ros_ID r = id)
    ∧ ∀ r, r ∈ ros_rows roster → ros_ID r = id →
        ros_Credibility r ≠ "false" ∧ ros_Credibility r ≠ "False".
Proof.
  intros Hown ->%reconcile_Some.
  rewrite elem_of_pending_ids, (rejected_ids_roster _ _ _ Hown),
    (unknown_ids_roster _ _ _ Hown).
  split.
  - intros (Hid & Hr & Hu). split; [done|]. split.
    + destruct (decide (id ∈ ros_ID <$> ros_rows roster)) as [E|E];
        [|tauto].
      apply list_elem_of_fmap in E as (r & -> & Hin). eauto.
    + intros r Hin Hrid.
      destruct (reads_false r) eqn:Hf.
      * destruct Hr. split; [done|]. apply rejects_true. eauto.
      * unfold reads_false in Hf. apply orb_false_elim in Hf as [H1 H2].
        by apply String.eqb_neq in H1, H2.
  - intros (Hid & (r & Hr & Hrid) & Hnone). split; [done|]. split.
    + intros [_ (r' & Hr' & Hrid' & Hf)%rejects_true].
      destruct (Hnone r' Hr' Hrid') as [H1 H2].
      unfold reads_false in Hf. apply orb_prop in Hf as [Hf|Hf];
        by apply String.eqb_eq in Hf.
    + intros [_ Hoff]. apply Hoff, list_elem_of_fmap. eauto.
Qed.

Lemma pending_iff_matched_and_not_false_witness :
  let new_df :=
    mkNewDf ["Followers"]
            [mkCandidate "alice" [Num "10"]; mkCandidate "carol" [Num "7"]] in
  "carol"
  ∈ pending_ids
      (categorize new_df
         (nd_rows new_df
            ≫= merge_row new_df [mkRosterRow "alice" (Str "") "false";
                                  mkRosterRow "carol" (Str "") "true"])).
Proof.
  apply (proj2 (pending_iff_matched_and_not_false Sample.pandas
                  (mkNewDf ["Followers"]
                     [mkCandidate "alice" [Num "10"];
                      mkCandidate "carol" [Num "7"]])
                  (mkRoster ["ID"; "Comment"; "Credibility"]
                     [mkRosterRow "alice" (Str "") "false";
                      mkRosterRow "carol" (Str "") "true"])
                  _ "carol"
                  ltac:(intros H; apply list_elem_of_singleton in H;
                        discriminate)
                  eq_refl)).
  split; [apply elem_of_list_to_set; right; left|]. split.
  - eexists. split; [right; left|]. reflexivity.
  - intros r Hr Hid.
    apply elem_of_cons in Hr as [->|Hr]; [discriminate|].
    apply list_elem_of_singleton in Hr as ->. split; discriminate.
Defined.

Lemma unknown_of_merge_row new_df rows c :
  "Credibility" ∉ nd_labels new_df →
  (λ m, mkUnknown (m_ID m) (m_Link m) "No comment yet" false "Rejected")
    <$> filter (λ m, isna m = true) (merge_row new_df rows c)
  = if on_roster rows (cand_ID c) then []
    else [mkUnknown (cand_ID c) (link_of (cand_ID c)) "No comment yet"
                    false "Rejected"].
Proof.
  intros Hown. unfold merge_row.
  destruct (matches_of rows (cand_ID c)) as [|r rs] eqn:Hm.
  - assert (on_roster rows (cand_ID c) = false) as ->.
    { destruct (on_roster rows (cand_ID c)) eqn:E; [|done].
      by apply on_roster_true in E. }
    rewrite filter_cons_True; [done|].
    unfold isna. simpl. by rewrite merged_cell_roster.
  - assert (on_roster rows (cand_ID c) = true) as ->.
    { apply on_roster_true. by rewrite Hm. }
    generalize (r :: rs). intros l.
    induction l as [|x l IH]; [done|]. rewrite fmap_cons.
    rewrite filter_cons_False; [exact IH|].
    unfold isna. simpl. by rewrite merged_cell_roster.
Qed.

Lemma unknown_df_in_order new_df rows :
  "Credibility" ∉ nd_labels new_df →
  unknown_df (categorize new_df (nd_rows new_df ≫= merge_row new_df rows))
  = (λ id, mkUnknown id (link_of id) "No comment yet" false "Rejected")
      <$> filter (λ id, id ∉ ros_ID <$> rows) (cand_ID <$> nd_rows new_df).
Proof.
  intros Hown. unfold categorize. simpl.
  induction (nd_rows new_df) as [|c cs IH]; [done|].
  rewrite bind_cons, filter_app, fmap_app, IH, fmap_cons, filter_cons.
  rewrite (unknown_of_merge_row _ _ _ Hown). unfold on_roster.
  destruct (decide (cand_ID c ∉ ros_ID <$> rows)) as [Hno|Hyes].
  - by rewrite bool_decide_eq_false_2.
  - rewrite bool_decide_eq_true_2; [done|].
    by destruct (decide (cand_ID c ∈ ros_ID <$> rows)).
Qed.

(** X16: for an upload without a "Credibility" column of its own, the
    unknown bucket holds one row for each row of the upload whose identity
    is on no roster row, in the order of the upload, repeats included,
    each with the link of its identity and the default comment, status
    and tick. *)
Theorem unknown_rows_follow_upload pd new_df roster p :
  "Credibility" ∉ nd_labels new_df →
  reconcile pd new_df roster = Some p →
  unknown_df p
  = (λ id, mkUnknown id (link_of id) "No comment yet" false "Rejected")
      <$> filter (λ id, id ∉ ros_ID <$> ros_rows roster)
                 (cand_ID <$> nd_rows new_df).
Proof.
  intros Hown ->%reconcile_Some. by apply unknown_df_in_order.
Qed.

Lemma unknown_rows_follow_upload_witness :
  let new_df :=
    mkNewDf ["Followers"]
            [mkCandidate "dave" [Num "10"]; mkCandidate "alice" [Num "7"];
             mkCandidate "dave" [Num "11"]] in
  unknown_df
    (categorize new_df
       (nd_rows new_df
          ≫= merge_row new_df [mkRosterRow "alice" (Str "") "false"]))
  = [mkUnknown "dave" "https://www.instagram.com/dave" "No comment yet"
               false "Rejected";
     mkUnknown "dave" "https://www.instagram.com/dave" "No comment yet"
               false "Rejected"].
Proof.
  exact (unknown_rows_follow_upload Sample.pandas
             (mkNewDf ["Followers"]
                [mkCandidate "dave" [Num "10"]; mkCandidate "alice" [Num "7"];
                 mkCandidate "dave" [Num "11"]])
             (mkRoster ["ID"; "Comment"; "Credibility"]
                [mkRosterRow "alice" (Str "") "false"])
             _
             ltac:(intros H; apply list_elem_of_singleton in H; discriminate)
             eq_refl).
Defined.

Lemma matches_of_at_most_one rows id :
  NoDup (ros_ID <$> rows) → (length (matches_of rows id) ≤ 1)%nat.
Proof.
  unfold matches_of. induction rows as [|r rs IH]; [simpl; lia|].
  rewrite fmap_cons, NoDup_cons. intros [Hnot Hnd].
  rewrite filter_cons. case_decide as E; [|by apply IH].
  subst id. apply matches_of_nil in Hnot. unfold matches_of in Hnot.
  rewrite Hnot. simpl. lia.
Qed.

Lemma filter_false_merge_row new_df rows c :
  "Credibility" ∉ nd_labels new_df →
  NoDup (ros_ID <$> rows) →
  length (filter (λ m, isin_false m = true) (merge_row new_df rows c))
  = if rejects rows (cand_ID c) then 1%nat else 0%nat.
Proof.
  intros Hown Hnd.
  pose proof (matches_of_at_most_one rows (cand_ID c) Hnd) as H1.
  unfold merge_row.
  destruct (matches_of rows (cand_ID c)) as [|r [|r' rs]] eqn:Hm;
    [| |simpl in H1; lia].
  - rewrite filter_cons_False
      by (unfold isin_false; simpl; by rewrite merged_cell_roster).
    destruct (rejects rows (cand_ID c)) eqn:E; [|done].
    apply rejects_true in E as (r & Hr & Hid & _).
    assert (Hin : r ∈ matches_of rows (cand_ID c))
      by (by apply list_elem_of_filter).
    rewrite Hm in Hin. by apply elem_of_nil in Hin.
  - assert (Hr : r ∈ matches_of rows (cand_ID c)) by (rewrite Hm; by left).
    apply list_elem_of_filter in Hr as [Hid Hr].
    simpl. destruct (reads_false r) eqn:Hf.
    + rewrite filter_cons_True
        by (unfold isin_false; simpl; by rewrite merged_cell_roster).
      assert (rejects rows (cand_ID c) = true) as ->; [|done].
      apply rejects_true. eauto.
    + rewrite filter_cons_False
        by (unfold isin_false; simpl; rewrite merged_cell_roster by done;
            fold (reads_false r); congruence).
      assert (rejects rows (cand_ID c) = false) as ->; [|done].
      destruct (rejects rows (cand_ID c)) eqn:E; [|done].
      apply rejects_true in E as (r2 & Hr2 & Hid2 & Hf2).
      assert (Hin : r2 ∈ matches_of rows (cand_ID c))
        by (by apply list_elem_of_filter).
      rewrite Hm in Hin. apply list_elem_of_singleton in Hin. congruence.
Qed.

Lemma filter_iff_on {X} (P Q : X → Prop)
    `{!∀ x, Decision (P x), !∀ x, Decision (Q x)} (l : list X) :
  (∀ x, x ∈ l → P x ↔ Q x) → filter P l = filter Q l.
Proof.
  induction l as [|x l IH]; intros Hall; [done|].
  rewrite !filter_cons.
  assert (Hx : P x ↔ Q x) by (apply Hall; by left).
  rewrite IH by (intros y Hy; apply Hall; by right).
  destruct (decide (P x)), (decide (Q x)); tauto.
Qed.

Lemma three_way_count {X} (f g h : X → bool) (l : list X) :
  (∀ x, x ∈ l →
     (f x = true ∧ g x = false ∧ h x = false)
     ∨ (f x = false ∧ g x = true ∧ h x = false)
     ∨ (f x = false ∧ g x = false ∧ h x = true)) →
  (length (filter (λ x, f x = true) l)
   + length (filter (λ x, g x = true) l)
   + length (filter (λ x, h x = true) l) = length l)%nat.
Proof.
  induction l as [|x l IH]; intros Hx; [done|].
  rewrite !filter_cons.
  assert (Hl : ∀ y, y ∈ l → _) by (intros y Hy; apply (Hx y); by right).
  specialize (IH Hl).
  destruct (Hx x) as [(-> & -> & ->)|[(-> & -> & ->)|(-> & -> & ->)]];
    [by left|..]; simpl; lia.
Qed.

(** X17: for an upload without a "Credibility" column of its own, and
    when no two roster rows have one identity, every row of the upload is
    in exactly one bucket: the numbers of pending, rejected and unknown
    rows add up to the number of rows of the upload. *)
Theorem buckets_count_rows pd new_df roster p :
  "Credibility" ∉ nd_labels new_df →
  NoDup (ros_ID <$> ros_rows roster) →
  reconcile pd new_df roster = Some p →
  (length (pending_df p) + length (rejected_df p) + length (unknown_df p)
   = length (nd_rows new_df))%nat.
Proof.
  intros Hown Hnd ->%reconcile_Some.
  set (rows := ros_rows roster) in *.
  set (p := categorize new_df (nd_rows new_df ≫= merge_row new_df rows)).
  assert (Hu : length (unknown_df p)
               = length (filter (λ c, on_roster rows (cand_ID c) = false)
                                (nd_rows new_df))).
  { subst p. rewrite (unknown_df_in_order _ _ Hown), length_fmap.
    clear. induction (nd_rows new_df) as [|c cs IH]; [done|].
    pose proof (on_roster_false rows (cand_ID c)) as Hiff.
    rewrite fmap_cons, !filter_cons.
    destruct (decide (cand_ID c ∉ ros_ID <$> rows)),
      (decide (on_roster rows (cand_ID c) = false));
      simpl; rewrite ?IH; tauto. }
  assert (Hr : length (rejected_df p)
               = length (filter (λ c, rejects rows (cand_ID c) = true)
                                (nd_rows new_df))).
  { subst p. unfold categorize. simpl. rewrite length_fmap.
    clear Hu. induction (nd_rows new_df) as [|c cs IH]; [done|].
    rewrite bind_cons, filter_app, length_app, IH.
    rewrite (filter_false_merge_row _ _ _ Hown Hnd).
    destruct (rejects rows (cand_ID c)) eqn:E.
    - by rewrite filter_cons_True by exact E.
    - by rewrite filter_cons_False by congruence. }
  assert (Hp : length (pending_df p)
               = length (filter
                           (λ c, on_roster rows (cand_ID c)
                                 && negb (rejects rows (cand_ID c)) = true)
                           (nd_rows new_df))).
  { subst p. unfold categorize at 1. simpl. rewrite length_fmap.
    f_equal. apply filter_iff_on. intros c Hc.
    rewrite !elem_of_difference.
    fold (identities new_df).
    change (list_to_set (rej_ID <$> ?l))
      with (rejected_ids
              (categorize new_df (nd_rows new_df ≫= merge_row new_df rows))).
    change (list_to_set (unk_ID <$> ?l))
      with (unknown_ids
              (categorize new_df (nd_rows new_df ≫= merge_row new_df rows))).
    rewrite (rejected_ids_roster _ _ _ Hown), (unknown_ids_roster _ _ _ Hown).
    assert (cand_ID c ∈ identities new_df)
      by (apply elem_of_list_to_set, list_elem_of_fmap; eauto).
    pose proof (on_roster_false rows (cand_ID c)).
    destruct (on_roster rows (cand_ID c)),
      (rejects rows (cand_ID c)); simpl; intuition congruence. }
  rewrite Hp, Hr, Hu.
  rewrite <- (three_way_count
                (λ c, on_roster rows (cand_ID c)
                      && negb (rejects rows (cand_ID c)))
                (λ c, rejects rows (cand_ID c))
                (λ c, negb (on_roster rows (cand_ID c))) (nd_rows new_df)).
  - f_equal. f_equal. apply list_filter_iff. intros c.
    by rewrite negb_true_iff.
  - intros c _.
    destruct (on_roster rows (cand_ID c)) eqn:Eo,
      (rejects rows (cand_ID c)) eqn:Er; simpl; auto.
    apply rejects_true in Er as (r & Hr' & Hid & _).
    assert (on_roster rows (cand_ID c) = true); [|congruence].
    apply bool_decide_eq_true_2, list_elem_of_fmap. eauto.
Qed.

Lemma buckets_count_rows_witness :
  let new_df :=
    mkNewDf [] [mkCandidate "alice" []; mkCandidate "bob" [];
                mkCandidate "alice" []; mkCandidate "carol" []] in
  let p :=
    categorize new_df
      (nd_rows new_df
         ≫= merge_row new_df [mkRosterRow "alice" (Str "") "false";
                               mkRosterRow "carol" (Str "") "true"]) in
  (length (pending_df p) + length (rejected_df p) + length (unknown_df p)
   = 4)%nat.
Proof.
  apply (buckets_count_rows Sample.pandas
           (mkNewDf [] [mkCandidate "alice" []; mkCandidate "bob" [];
                        mkCandidate "alice" []; mkCandidate "carol" []])
           (mkRoster ["ID"; "Comment"; "Credibility"]
                     [mkRosterRow "alice" (Str "") "false";
                      mkRosterRow "carol" (Str "") "true"])).
  - by intros H%elem_of_nil.
  - apply (bool_decide_eq_true_1 (NoDup ["alice"; "carol"])).
    vm_compute. reflexivity.
  - reflexivity.
Defined.

(** With an identity on two roster rows, a row of the upload is joined
    twice and counted twice; with a "Credibility" column of its own, a
    row of the upload that reads neither "false" nor nothing there can be
    in no bucket, when another row of its identity is rejected. *)
Example buckets_count_rows_needs_both :
  let once := mkNewDf [] [mkCandidate "alice" []] in
  let own :=
    mkNewDf ["Credibility"]
            [mkCandidate "bob" [Str "false"]; mkCandidate "bob" [Str "x"]] in
  length (rejected_df
            (categorize once
               (nd_rows once
                  ≫= merge_row once [mkRosterRow "alice" (Str "") "false";
                                      mkRosterRow "alice" (Str "again")
                                                  "false"])))
  = 2%nat
  ∧ categorize own (nd_rows own ≫= merge_row own [])
    = mkPartition [] [mkRejected "bob" NaN "https://www.instagram.com/bob"]
                  [].
Proof. split; vm_compute; reflexivity. Qed.

End BucketMore.

(** ** The editor of the working copy *)

Section EditorFacts.
Import Credibility Editor.

Implicit Types (rows : list Row) (edits : list EditedRow).

Lemma fold_edit_repeats edits : ∀ rows changes,
  Forall (repeats rows) edits →
  fold_left edit_step edits (Some (rows, changes)) = Some (rows, changes).
Proof.
  induction edits as [|e es IH]; intros rows changes Hall; [done|].
  apply Forall_cons in Hall as [He Hes]. cbn [fold_left].
  destruct e as [[i|] cred comment]; unfold repeats in He; simpl in He.
  - destruct He as (stored & Hi & <- & <-).
    rewrite (edit_step_same _ _ _ _ Hi). by apply IH.
  - by apply IH.
Qed.

Lemma fold_edit_raised edits : fold_left edit_step edits None = None.
Proof. induction edits as [|e es IH]; [done|]. exact IH. Qed.

Lemma edit_step_spec rows changes e :
  match edit_step (Some (rows, changes)) e with
  | Some (rows', changes') =>
      in_range (length rows) e
      ∧ length rows' = length rows ∧ row_id <$> rows' = row_id <$> rows
  | None => ¬ in_range (length rows) e
  end.
Proof.
  unfold edit_step, in_range. simpl.
  destruct (e_orig_index e) as [i|]; [|done].
  destruct (rows !! i) as [stored|] eqn:Hi; simpl.
  - assert (Hlt : (i < length rows)%nat) by (by eapply lookup_lt_Some).
    destruct (_ || _); [|done].
    split; [done|]. split; [by rewrite length_insert|].
    rewrite list_fmap_insert. simpl. apply list_insert_id.
    by rewrite list_lookup_fmap, Hi.
  - apply lookup_ge_None in Hi. lia.
Qed.

Lemma fold_edit_spec edits : ∀ rows changes,
  match fold_left edit_step edits (Some (rows, changes)) with
  | Some (rows', changes') =>
      Forall (in_range (length rows)) edits
      ∧ length rows' = length rows ∧ row_id <$> rows' = row_id <$> rows
  | None => Exists (λ e, ¬ in_range (length rows) e) edits
  end.
Proof.
  induction edits as [|e es IH]; intros rows changes; [done|].
  cbn [fold_left]. pose proof (edit_step_spec rows changes e) as He.
  destruct (edit_step (Some (rows, changes)) e) as [[rows1 changes1]|].
  - destruct He as (Hin & Hlen & Hids).
    specialize (IH rows1 changes1). rewrite Hlen in IH.
    destruct (fold_left edit_step es (Some (rows1, changes1)))
      as [[rows2 changes2]|].
    + destruct IH as (Hall & Hlen2 & Hids2).
      split; [by constructor|]. split; congruence.
    + by apply Exists_cons_tl.
  - rewrite fold_edit_raised. by apply Exists_cons_hd.
Qed.

(** X18: whatever the edits, a run of the update loop that goes through
    keeps the number of rows, every identity and the column labels, and
    leaves the recorded fingerprint; the edit version goes up by one
    exactly when the script reruns, and without a rerun the session is the
    one before. *)
Theorem update_full_table_keeps_shape
    (ss ss' : Session) edits (rerun : bool) :
  update_full_table ss edits = Ran ss' rerun →
  ∃ t t', full_table ss = Some t ∧ full_table ss' = Some t'
    ∧ id_col t' = id_col t ∧ comment_col t' = comment_col t
    ∧ cred_col t' = cred_col t
    ∧ length (tbl_rows t') = length (tbl_rows t)
    ∧ row_id <$> tbl_rows t' = row_id <$> tbl_rows t
    ∧ sheet_version ss' = sheet_version ss
    ∧ editor_version ss' = (if rerun then S (editor_version ss)
                            else editor_version ss)
    ∧ (rerun = false → ss' = ss).
Proof.
  unfold update_full_table.
  destruct (full_table ss) as [t|] eqn:Ht; [|discriminate].
  pose proof (fold_edit_spec edits (tbl_rows t) []) as Hspec.
  destruct (fold_left edit_step edits (Some (tbl_rows t, [])))
    as [[rows' [|c cs]]|]; [| |discriminate].
  - intros [= <- <-]. exists t, t. by rewrite Ht.
  - intros [= <- <-]. destruct Hspec as (_ & Hlen & Hids).
    eexists t, _. simpl. repeat split; done.
Qed.

Lemma update_full_table_keeps_shape_witness :
  let t := mkTable "ID" "Comment" "Credibility"
             [mkRow "alice" (Some "") (PBool false);
              mkRow "bob" None (PBool true)] in
  ∃ t', row_id <$> tbl_rows t' = ["alice"; "bob"]
        ∧ update_full_table (mkSession (Some t) 0 (Some "v") false)
            [mkEdited (Some 1) (PBool false) (Some "no");
             mkEdited None PNone None;
             mkEdited (Some 0) (PBool true) (Some "yes")]
          = Ran (mkSession (Some t') 1 (Some "v") false) true.
Proof.
  intros t.
  destruct (update_full_table_keeps_shape
              (mkSession (Some t) 0 (Some "v") false)
              (mkSession
                 (Some (mkTable "ID" "Comment" "Credibility"
                          [mkRow "alice" (Some "yes") (PBool true);
                           mkRow "bob" (Some "no") (PBool false)]))
                 1 (Some "v") false)
              [mkEdited (Some 1) (PBool false) (Some "no");
               mkEdited None PNone None;
               mkEdited (Some 0) (PBool true) (Some "yes")]
              true eq_refl)
    as (t0 & t' & Ht0 & Ht' & _ & _ & _ & _ & Hids & _).
  injection Ht0 as <-. injection Ht' as <-.
  eexists. split; [exact Hids|reflexivity].
Defined.

(** X19: on a session with a working copy, the update loop raises exactly
    when some edited row bears an index that is no row of the table; no
    other edit makes it raise. *)
Theorem update_full_table_raises_iff (ss : Session) (t : Table) edits :
  full_table ss = Some t →
  update_full_table ss edits = Raised
  ↔ ∃ e i, e ∈ edits ∧ e_orig_index e = Some i
           ∧ (length (tbl_rows t) ≤ i)%nat.
Proof.
  intros Ht. unfold update_full_table. rewrite Ht.
  pose proof (fold_edit_spec edits (tbl_rows t) []) as Hspec.
  destruct (fold_left edit_step edits (Some (tbl_rows t, [])))
    as [[rows' changes]|].
  - destruct Hspec as (Hall & _). split.
    + by destruct changes.
    + intros (e & i & He & Hi & Hle).
      rewrite Forall_forall in Hall. specialize (Hall e He).
      unfold in_range in Hall. rewrite Hi in Hall. lia.
  - split; [|done]. intros _.
    apply Exists_exists in Hspec as (e & He & Hout).
    unfold in_range in Hout. destruct (e_orig_index e) as [i|] eqn:Hi;
      [|done].
    exists e, i. repeat split; [done..|lia].
Qed.

Lemma update_full_table_raises_iff_witness :
  update_full_table
    (mkSession (Some (mkTable "ID" "Comment" "Credibility"
                        [mkRow "alice" (Some "") (PBool false)]))
               0 None false)
    [mkEdited (Some 0) (PBool true) (Some ""); mkEdited (Some 1) PNone None]
  = Raised.
Proof.
  apply (update_full_table_raises_iff
           (mkSession (Some (mkTable "ID" "Comment" "Credibility"
                               [mkRow "alice" (Some "") (PBool false)]))
                      0 None false)
           (mkTable "ID" "Comment" "Credibility"
              [mkRow "alice" (Some "") (PBool false)])
           [mkEdited (Some 0) (PBool true) (Some "");
            mkEdited (Some 1) PNone None]
           eq_refl).
  exists (mkEdited (Some 1) PNone None), 1%nat.
  split; [right; left|]. split; [reflexivity|simpl; lia].
Defined.

Lemma display_df_lookup t cred_filter comment_filter i r :
  (i, r) ∈ display_df t cred_filter comment_filter →
  tbl_rows t !! i = Some r.
Proof.
  unfold display_df. intros [_ Hin]%list_elem_of_filter.
  apply elem_of_lookup_imap in Hin as (j & y & [= -> ->] & Hj). done.
Qed.

Lemma display_df_NoDup t cred_filter comment_filter :
  NoDup (display_df t cred_filter comment_filter).
Proof.
  unfold display_df. apply NoDup_filter, NoDup_alt.
  intros a b x Ha Hb.
  apply list_lookup_imap_Some in Ha as (ya & _ & ->).
  apply list_lookup_imap_Some in Hb as (yb & _ & Hx). by injection Hx.
Qed.

(** X20: feeding the displayed table back as it is, under any filter,
    changes nothing: the session stays, the edit version stays, and the
    script does not rerun. *)
Theorem unedited_display_changes_nothing
    (ss : Session) (t : Table) (cred_filter : option bool)
    (comment_filter : string) :
  full_table ss = Some t →
  update_full_table ss
    (as_edited <$> display_df t cred_filter comment_filter)
  = Ran ss false.
Proof.
  intros Ht. apply (update_full_table_unchanged _ t); [done|].
  apply Forall_fmap, Forall_forall. intros [i r] Hin. simpl.
  exists r. split; [|done]. by eapply display_df_lookup.
Qed.

Lemma unedited_display_changes_nothing_witness :
  let t := mkTable "ID" "Comment" "Credibility"
             [mkRow "alice" (Some "x") (PBool false);
              mkRow "bob" None (PStr "maybe");
              mkRow "carol" (Some "x") (PBool true)] in
  let ss := mkSession (Some t) 2 (Some "v") false in
  display_df t None "x"
  = [(0%nat, mkRow "alice" (Some "x") (PBool false));
     (2%nat, mkRow "carol" (Some "x") (PBool true))]
  ∧ update_full_table ss (as_edited <$> display_df t None "x")
    = Ran ss false.
Proof.
  intros t ss. split; [reflexivity|].
  apply (unedited_display_changes_nothing ss t None "x"). reflexivity.
Defined.

(** X21: an edit of one displayed row, under any filter, is written to
    the row of the working copy that the displayed row came from, and to
    no other: that row gets the new credibility and comment and keeps its
    identity, the edit version goes up by one and the script reruns. *)
Theorem edit_under_filter_hits_its_row
    (ss : Session) (t : Table) (cred_filter : option bool)
    (comment_filter : string) (k i : nat) (stored : Row)
    (new_cred : Cell) (new_comment : option string) :
  full_table ss = Some t →
  display_df t cred_filter comment_filter !! k = Some (i, stored) →
  cell_ne (row_cred stored) new_cred
  || comment_ne (row_comment stored) new_comment = true →
  tbl_rows t !! i = Some stored
  ∧ update_full_table ss
      (<[k := mkEdited (Some i) new_cred new_comment]>
         (as_edited <$> display_df t cred_filter comment_filter))
    = Ran (mkSession
             (Some (mkTable (id_col t) (comment_col t) (cred_col t)
                      (<[i := mkRow (row_id stored) new_comment new_cred]>
                         (tbl_rows t))))
             (S (editor_version ss)) (sheet_version ss) (sheet_updated ss))
          true.
Proof.
  intros Ht Hk Hne.
  set (shown := display_df t cred_filter comment_filter) in *.
  assert (Hi : tbl_rows t !! i = Some stored).
  { eapply display_df_lookup, list_elem_of_lookup_2, Hk. }
  split; [exact Hi|].
  assert (Hklt : (k < length (as_edited <$> shown))%nat).
  { rewrite length_fmap. by eapply lookup_lt_Some. }
  unfold update_full_table. rewrite Ht.
  rewrite (insert_take_drop _ _ _ Hklt), fold_left_app. cbn [fold_left].
  rewrite fold_edit_repeats; last first.
  { apply Forall_take, Forall_fmap, Forall_forall. intros [j r] Hin.
    unfold repeats. simpl. exists r. split; [|done].
    by eapply display_df_lookup. }
  rewrite (edit_step_changed _ _ _ _ _ _ Hi Hne).
  rewrite fold_edit_repeats; [done|].
  rewrite <- fmap_drop. apply Forall_fmap, Forall_forall. intros [j r] Hin.
  unfold repeats. simpl. exists r. split; [|done].
  apply list_elem_of_lookup in Hin as (d & Hd). rewrite lookup_drop in Hd.
  assert (Hj : tbl_rows t !! j = Some r).
  { eapply display_df_lookup, list_elem_of_lookup_2, Hd. }
  rewrite list_lookup_insert_ne; [done|].
  intros <-. assert (r = stored) as -> by congruence.
  pose proof (NoDup_lookup _ _ _ _
                (display_df_NoDup t cred_filter comment_filter) Hk Hd).
  lia.
Qed.

Lemma edit_under_filter_hits_its_row_witness :
  let t := mkTable "ID" "Comment" "Credibility"
             [mkRow "alice" (Some "x") (PBool true);
              mkRow "bob" (Some "y") (PBool false);
              mkRow "carol" (Some "z") (PBool false)] in
  update_full_table (mkSession (Some t) 0 None false)
    [mkEdited (Some 1) (PBool false) (Some "y");
     mkEdited (Some 2) (PBool true) (Some "z")]
  = Ran (mkSession
           (Some (mkTable "ID" "Comment" "Credibility"
                    [mkRow "alice" (Some "x") (PBool true);
                     mkRow "bob" (Some "y") (PBool false);
                     mkRow "carol" (Some "z") (PBool true)]))
           1 None false) true.
Proof.
  intros t.
  apply (proj2 (edit_under_filter_hits_its_row
                  (mkSession (Some t) 0 None false) t (Some false) "All"
                  1 2 (mkRow "carol" (Some "z") (PBool false))
                  (PBool true) (Some "z") eq_refl eq_refl eq_refl)).
Defined.

End EditorFacts.

(** ** The session of the credibility page *)

Section SessionFacts.
Import Credibility Editor.

Implicit Types (rows : list Row) (j : nat).

(** X22: after a pass through the session block with a fingerprint, the
    session holds a working copy and that fingerprint, and a second pass
    with the same fingerprint changes nothing and does not rerun, whatever
    is loaded meanwhile; one pass raises the edit version by one at most;
    a rerun means the working copy is the table just loaded; and a session
    without a recorded fingerprint keeps its working copy and its edit
    version. *)
Theorem manage_session_settles
    (ss : Session) (v : string) (df df' : Table) :
  let ss1 := (manage_session ss v df).1 in
  manage_session ss1 v df' = (ss1, false)
  ∧ sheet_version ss1 = Some v
  ∧ is_Some (full_table ss1)
  ∧ (editor_version ss ≤ editor_version ss1 ≤ S (editor_version ss))%nat
  ∧ ((manage_session ss v df).2 = true → full_table ss1 = Some df)
  ∧ (sheet_version ss = None →
     (manage_session ss v df).2 = false
     ∧ editor_version ss1 = editor_version ss
     ∧ full_table ss1 = Some (default df (full_table ss))).
Proof.
  unfold manage_session.
  destruct ss as [[t|] ver [rec|] upd]; simpl;
    try destruct (String.eqb_spec rec v) as [->|Hne]; simpl;
    rewrite ?String.eqb_refl; simpl;
    repeat split; eauto; try lia; try done.
Qed.

Lemma find_id_Some id rows j :
  find_id id rows = Some j →
  ∃ r, rows !! j = Some r ∧ row_id r = id.
Proof.
  revert j. induction rows as [|r rs IH]; intros j; [done|]. simpl.
  destruct (String.eqb_spec (row_id r) id) as [Heq|_].
  - intros [= <-]. eauto.
  - destruct (find_id id rs) as [k|]; [|done].
    intros [= <-]. by apply IH.
Qed.

Lemma find_id_ids id rows rows' :
  row_id <$> rows = row_id <$> rows' → find_id id rows = find_id id rows'.
Proof.
  revert rows'. induction rows as [|r rs IH]; intros [|r' rs'] H;
    try done.
  injection H as Hr Hrs. simpl. rewrite Hr, (IH rs' Hrs). done.
Qed.

Lemma alter_keeps_ids (f : Row → Row) j rows :
  (∀ r, row_id (f r) = row_id r) →
  row_id <$> alter f j rows = row_id <$> rows.
Proof.
  intros Hf. apply list_eq. intros i.
  rewrite !list_lookup_fmap.
  destruct (decide (j = i)) as [->|Hne].
  - rewrite list_lookup_alter_eq. destruct (rows !! i); simpl; [|done].
    by rewrite Hf.
  - by rewrite list_lookup_alter_ne.
Qed.

Lemma alter_fixed (f : Row → Row) j rows r :
  rows !! j = Some r → f r = r → alter f j rows = rows.
Proof.
  intros Hj Hf. apply list_eq. intros i.
  destruct (decide (j = i)) as [->|Hne].
  - by rewrite list_lookup_alter_eq, Hj; simpl; rewrite Hf.
  - by rewrite list_lookup_alter_ne.
Qed.

(** What the form leaves in the table. *)
Lemma add_or_update_rows (t : Table) new_id new_comment new_cred :
  let id := normalize new_id in
  let put := mkRow id (Some new_comment) (PBool new_cred) in
  let rows' :=
    match find_id id (tbl_rows t) with
    | Some idx =>
        alter (λ r, mkRow (row_id r) (Some new_comment) (PBool new_cred))
              idx (tbl_rows t)
    | None => put :: tbl_rows t
    end in
  row_of id rows' = Some put
  ∧ (∀ id', id' ≠ id → row_of id' rows' = row_of id' (tbl_rows t))
  ∧ length rows'
    = match find_id id (tbl_rows t) with
      | Some _ => length (tbl_rows t)
      | None => S (length (tbl_rows t))
      end.
Proof.
  intros id put rows'. subst rows'. unfold row_of.
  destruct (find_id id (tbl_rows t)) as [j|] eqn:Hfind.
  - destruct (find_id_Some _ _ _ Hfind) as (r & Hj & Hr).
    assert (Hids : row_id <$> alter
                     (λ r, mkRow (row_id r) (Some new_comment)
                                 (PBool new_cred)) j (tbl_rows t)
                   = row_id <$> tbl_rows t) by (by apply alter_keeps_ids).
    split; [|split; [|by rewrite length_alter]].
    + rewrite (find_id_ids _ _ _ Hids), Hfind. simpl.
      rewrite list_lookup_alter_eq, Hj. simpl. by rewrite Hr.
    + intros id' Hne. rewrite (find_id_ids _ _ _ Hids).
      destruct (find_id id' (tbl_rows t)) as [j'|] eqn:Hfind'; [|done].
      simpl. apply list_lookup_alter_ne. intros <-.
      destruct (find_id_Some _ _ _ Hfind') as (r' & Hj' & Hr'). congruence.
  - split; [|split; [|done]].
    + simpl. by rewrite String.eqb_refl.
    + intros id' Hne. simpl.
      destruct (String.eqb_spec id id') as [?|_]; [congruence|].
      by destruct (find_id id' (tbl_rows t)).
Qed.

(** X23: a submitted form with an ID stores the row under the cleaned ID:
    afterwards the first row of that identity holds the comment and the
    credibility of the form, every other identity has the first row it
    had, the table is one row longer exactly when the identity was not in
    it, and the edit version is one higher. *)
Theorem add_or_update_stores
    (ss : Session) (t : Table) (new_id new_comment : string)
    (new_cred : bool) :
  new_id ≠ "" → full_table ss = Some t →
  ∃ rows',
    add_or_update ss new_id new_comment new_cred
    = Ran (mkSession
             (Some (mkTable (id_col t) (comment_col t) (cred_col t) rows'))
             (S (editor_version ss)) (sheet_version ss) (sheet_updated ss))
          true
    ∧ row_of (normalize new_id) rows'
      = Some (mkRow (normalize new_id) (Some new_comment) (PBool new_cred))
    ∧ (∀ id', id' ≠ normalize new_id →
         row_of id' rows' = row_of id' (tbl_rows t))
    ∧ length rows'
      = match find_id (normalize new_id) (tbl_rows t) with
        | Some _ => length (tbl_rows t)
        | None => S (length (tbl_rows t))
        end.
Proof.
  intros Hid Ht. unfold add_or_update.
  apply String.eqb_neq in Hid. rewrite Hid, Ht.
  eexists. split; [reflexivity|].
  apply (add_or_update_rows t new_id new_comment new_cred).
Qed.

Lemma add_or_update_stores_witness :
  ∃ rows',
    add_or_update
      (mkSession (Some (mkTable "ID" "Comment" "Credibility"
                          [mkRow "alice" (Some "old") (PBool false)]))
                 0 None false)
      "@bob " "new" true
    = Ran (mkSession (Some (mkTable "ID" "Comment" "Credibility" rows'))
                     1 None false) true
    ∧ row_of "bob" rows' = Some (mkRow "bob" (Some "new") (PBool true))
    ∧ row_of "alice" rows' = Some (mkRow "alice" (Some "old") (PBool false))
    ∧ length rows' = 2%nat.
Proof.
  destruct (add_or_update_stores
              (mkSession (Some (mkTable "ID" "Comment" "Credibility"
                                  [mkRow "alice" (Some "old") (PBool false)]))
                         0 None false)
              (mkTable "ID" "Comment" "Credibility"
                 [mkRow "alice" (Some "old") (PBool false)])
              "@bob " "new" true)
    as (rows' & Hrun & Hput & Hother & Hlen); [discriminate|reflexivity|].
  exists rows'. split; [exact Hrun|]. split; [exact Hput|].
  split; [|exact Hlen].
  rewrite (Hother "alice"); [reflexivity|discriminate].
Defined.

(** X24: submitting the same form once more adds no row and changes no
    cell, but raises the edit version again and reruns: unlike an edit in
    the table, the form does not look at whether anything changed. *)
Theorem add_or_update_twice
    (ss ss1 : Session) (new_id new_comment : string) (new_cred rerun : bool) :
  new_id ≠ "" →
  add_or_update ss new_id new_comment new_cred = Ran ss1 rerun →
  add_or_update ss1 new_id new_comment new_cred
  = Ran (mkSession (full_table ss1) (S (editor_version ss1))
                   (sheet_version ss1) (sheet_updated ss1)) true.
Proof.
  intros Hid. unfold add_or_update.
  apply String.eqb_neq in Hid. rewrite Hid.
  destruct (full_table ss) as [t|]; [|discriminate].
  intros [= <- <-]. simpl.
  destruct (add_or_update_rows t new_id new_comment new_cred)
    as (Hput & _ & _). cbv zeta in Hput.
  set (rows' := match find_id (normalize new_id) (tbl_rows t) with
                | Some idx => _
                | None => _
                end) in *.
  unfold row_of in Hput.
  destruct (find_id (normalize new_id) rows') as [j|]; [|done].
  simpl in Hput. by rewrite (alter_fixed _ _ _ _ Hput).
Qed.

Lemma add_or_update_twice_witness :
  let t := mkTable "ID" "Comment" "Credibility"
             [mkRow "bob" (Some "new") (PBool true);
              mkRow "alice" (Some "old") (PBool false)] in
  add_or_update (mkSession (Some t) 1 None false) "@bob " "new" true
  = Ran (mkSession (Some t) 2 None false) true.
Proof.
  intros t.
  apply (add_or_update_twice
           (mkSession (Some (mkTable "ID" "Comment" "Credibility"
                               [mkRow "alice" (Some "old") (PBool false)]))
                      0 None false)
           (mkSession (Some t) 1 None false) "@bob " "new" true true).
  - discriminate.
  - reflexivity.
Defined.

(** X25: the form checks the ID before it cleans it: an empty ID changes
    nothing, but an ID that is not empty and cleans to nothing, such as
    "@" or a blank, is stored, as a row of the empty identity. *)
Theorem add_or_update_blank_id
    (ss : Session) (t : Table) (new_id new_comment : string)
    (new_cred : bool) :
  add_or_update ss "" new_comment new_cred = Ran ss false
  ∧ (new_id ≠ "" → normalize new_id = "" → full_table ss = Some t →
     ∃ rows',
       add_or_update ss new_id new_comment new_cred
       = Ran (mkSession
                (Some (mkTable (id_col t) (comment_col t) (cred_col t)
                               rows'))
                (S (editor_version ss)) (sheet_version ss)
                (sheet_updated ss))
             true
       ∧ row_of "" rows' = Some (mkRow "" (Some new_comment)
                                       (PBool new_cred))).
Proof.
  split; [reflexivity|].
  intros Hid Hblank Ht. unfold add_or_update.
  apply String.eqb_neq in Hid. rewrite Hid, Ht.
  eexists. split; [reflexivity|].
  destruct (add_or_update_rows t new_id new_comment new_cred) as (Hput & _).
  cbv zeta in Hput. rewrite Hblank in Hput. by rewrite Hblank.
Qed.

Lemma add_or_update_blank_id_witness :
  ∃ rows',
    add_or_update
      (mkSession (Some (mkTable "ID" "Comment" "Credibility" []))
                 0 None false) "@ " "who" true
    = Ran (mkSession (Some (mkTable "ID" "Comment" "Credibility" rows'))
                     1 None false) true
    ∧ row_of "" rows' = Some (mkRow "" (Some "who") (PBool true)).
Proof.
  apply (proj2 (add_or_update_blank_id
                  (mkSession (Some (mkTable "ID" "Comment" "Credibility" []))
                             0 None false)
                  (mkTable "ID" "Comment" "Credibility" []) "@ " "who" true)).
  - discriminate.
  - reflexivity.
  - reflexivity.
Defined.

End SessionFacts.

(** ** Push, load and fingerprint together *)
(** ** Push, load and fingerprint together *)

Section RoundTrip.
Import PyStr Utils Headers Credibility Editor.

Lemma get_all_values_rows (rows : list Row) :
  Forall writable rows →
  mapM (mapM shown)
       ((λ r, [VStr (row_id r); comment_value (row_comment r);
               render_cred (row_cred r)]) <$> rows)
  = Some (row_texts <$> rows).
Proof.
  induction 1 as [|r rs (c & b & Hc & Hb) _ IH]; [done|].
  rewrite !fmap_cons. cbn [mapM]. rewrite IH. unfold row_texts.
  rewrite Hc, Hb. by destruct b.
Qed.

Lemma row_texts_width (rows : list Row) (n : nat) :
  n = 3%nat →
  forallb (λ r, length r =? n)%nat (row_texts <$> rows) = true.
Proof. intros ->. induction rows as [|r rs IH]; [done|]. exact IH. Qed.

(** The rows that [load_data] makes of the texts of writable rows, and
    the rows that the selection makes of them. *)
Lemma load_rows_back (rows : list Row) (ic mc cc : string) :
  String.eqb ic cc = false → String.eqb mc cc = false →
  Forall writable rows →
  (λ r, mkRow (default "" (r !! 0%nat ≫= cell_text))
              (r !! 1%nat ≫= cell_text)
              (default PNone (r !! 2%nat)))
    <$> ((λ r, zip_with (λ label s, if String.eqb label cc
                                    then replace_cred s else PStr s)
                        [ic; mc; cc] r)
           <$> (row_texts <$> rows))
  = rows.
Proof.
  intros E1 E2. induction 1 as [|r rs (c & b & Hc & Hb) _ IH]; [done|].
  rewrite !fmap_cons, IH. f_equal.
  destruct r as [id comment cred]. simpl in *. subst.
  rewrite E1, E2, String.eqb_refl. by destruct b.
Qed.

Lemma occurrences_NoDup h (l : list string) :
  NoDup l → h ∈ l → occurrences h l = 1%nat.
Proof.
  induction 1 as [|k l Hk Hnd IH]; [by intros ?%elem_of_nil|].
  rewrite occurrences_cons. intros Hin. case_decide as E.
  - subst k. f_equal. by apply occurrences_0.
  - apply IH. by apply elem_of_cons in Hin as [?|?].
Qed.

Lemma find_col_elem needle cols c :
  find_col needle cols = Some c → c ∈ cols.
Proof.
  unfold find_col. intros H.
  assert (Hin : c ∈ filter (λ c, contains needle c = true) cols).
  { destruct (filter _ cols) as [|x l]; [done|].
    injection H as ->. by left. }
  by apply list_elem_of_filter in Hin as [_ ?].
Qed.

(** X26: what a push writes, a load reads back: for a working copy whose
    three labels are distinct and are the ones that the load picks for
    "ID", "Comment" and "Credibility", and whose rows all have a string
    comment and a boolean credibility, a push that succeeds leaves a sheet
    from which [load_data] and the selection of the three columns give
    that very working copy. *)
Theorem push_then_load_round_trip
    (t : Table) (remote : list (list Value)) :
  let labels := [id_col t; comment_col t; cred_col t] in
  NoDup labels →
  find_col "ID" labels = Some (id_col t) →
  find_col "Credibility" labels = Some (cred_col t) →
  find_col "Comment" labels = Some (comment_col t) →
  Forall writable (tbl_rows t) →
  ∃ sheet data df,
    update_google_sheet true true t remote = Pushed sheet
    ∧ get_all_values sheet = Some data
    ∧ load_data data
      = LoadedFrame df (id_col t) (cred_col t) (comment_col t)
    ∧ select_table df (id_col t) (comment_col t) (cred_col t) = Some t.
Proof.
  intros labels Hnd Hid Hcred Hcomment Hrows.
  pose proof Hnd as Hlabels.
  apply NoDup_cons in Hnd as [Hn1 Hnd].
  apply NoDup_cons in Hnd as [Hn2 _].
  assert (E1 : String.eqb (id_col t) (comment_col t) = false).
  { apply String.eqb_neq. intros E. apply Hn1. rewrite E. by left. }
  assert (E2 : String.eqb (id_col t) (cred_col t) = false).
  { apply String.eqb_neq. intros E. apply Hn1. rewrite E. right. by left. }
  assert (E3 : String.eqb (comment_col t) (cred_col t) = false).
  { apply String.eqb_neq. intros E. apply Hn2. rewrite E. by left. }
  exists (sheet_values t), (labels :: (row_texts <$> tbl_rows t)).
  eexists. split; [|split; [|split]].
  - unfold update_google_sheet, ws_clear. by rewrite ws_update_cleared.
  - unfold get_all_values, sheet_values. cbn [mapM].
    rewrite (get_all_values_rows _ Hrows). reflexivity.
  - unfold load_data, data_frame.
    rewrite (make_unique_headers_fixes_distinct _ Hlabels).
    rewrite row_texts_width by done. fold labels.
    rewrite Hid, Hcred, Hcomment. reflexivity.
  - unfold select_table. simpl columns. fold labels.
    rewrite (bool_decide_eq_true_2 _ Hlabels).
    assert (forallb (λ label, (occurrences label labels =? 1)%nat) labels
            = true) as ->.
    { apply forallb_forall. intros label Hl%list_elem_of_In.
      apply Nat.eqb_eq. by apply occurrences_NoDup. }
    subst labels. cbn [index_of rows].
    rewrite !String.eqb_refl, E1, E2, E3.
    cbn [fmap option_fmap option_map mbind option_bind].
    rewrite (load_rows_back _ _ _ _ E2 E3 Hrows). by destruct t.
Qed.

Lemma push_then_load_round_trip_witness :
  let t := mkTable "ID" "Comment" "Credibility"
             [mkRow "alice" (Some "spam") (PBool false);
              mkRow "bob" (Some "") (PBool true)] in
  ∃ sheet data df,
    update_google_sheet true true t [[VStr "old"; VStr "sheet"]]
    = Pushed sheet
    ∧ get_all_values sheet = Some data
    ∧ load_data data = LoadedFrame df "ID" "Credibility" "Comment"
    ∧ select_table df "ID" "Comment" "Credibility" = Some t.
Proof.
  intros t.
  apply (push_then_load_round_trip t [[VStr "old"; VStr "sheet"]]).
  - apply (bool_decide_eq_true_1 (NoDup ["ID"; "Comment"; "Credibility"])).
    vm_compute. reflexivity.
  - reflexivity.
  - reflexivity.
  - reflexivity.
  - repeat constructor; eexists _, _; split; reflexivity.
Defined.

(** The code's [load_data] returns on a header whose label for the
    credibility is also its label for the comment; the selection of the
    three columns is then no table of three columns. *)
Example load_data_one_label_twice :
  load_data [["ID"; "Credibility Comment"]; ["alice"; "TRUE"]]
  = LoadedFrame (mkFrame ["ID"; "Credibility Comment"]
                         [[PStr "alice"; PBool true]])
                "ID" "Credibility Comment" "Credibility Comment"
  ∧ select_table (mkFrame ["ID"; "Credibility Comment"]
                          [[PStr "alice"; PBool true]])
                 "ID" "Credibility Comment" "Credibility Comment"
    = None.
Proof. split; reflexivity. Qed.

Lemma load_data_loaded header body df ic cc mc :
  load_data (header :: body) = LoadedFrame df ic cc mc →
  let headers := make_unique_headers header in
  Forall (λ r, length r = length header) body
  ∧ columns df = headers
  ∧ ic ∈ headers ∧ mc ∈ headers ∧ cc ∈ headers
  ∧ length (rows df) = length body.
Proof.
  unfold load_data. intros H. cbv zeta in *.
  set (headers := make_unique_headers header) in *.
  destruct (data_frame body headers) as [df0|] eqn:Hdf; [|discriminate].
  apply data_frame_Some in Hdf as [-> Hw].
  destruct (find_col "ID" headers) as [ic'|] eqn:Hi; [|discriminate].
  destruct (find_col "Credibility" headers) as [cc'|] eqn:Hc;
    [|discriminate].
  destruct (find_col "Comment" headers) as [mc'|] eqn:Hm; [|discriminate].
  injection H as <- <- <- <-. simpl.
  split; [|split; [done|]].
  - eapply Forall_impl; [exact Hw|]. intros r Hr. simpl in Hr.
    subst headers. by rewrite make_unique_headers_length in Hr.
  - repeat split; [by eapply find_col_elem..|].
    by rewrite length_fmap.
Qed.

Lemma select_table_Some df ic mc cc t :
  select_table df ic mc cc = Some t →
  NoDup [ic; mc; cc]
  ∧ id_col t = ic ∧ comment_col t = mc ∧ cred_col t = cc
  ∧ length (tbl_rows t) = length (rows df).
Proof.
  unfold select_table.
  destruct (bool_decide (NoDup [ic; mc; cc]) && _) eqn:E; [|discriminate].
  apply andb_prop in E as [Hnd%bool_decide_eq_true_1 _].
  destruct (index_of ic (columns df)); [|discriminate].
  destruct (index_of mc (columns df)); [|discriminate].
  destruct (index_of cc (columns df)); [|discriminate].
  simpl. intros [= <-]. simpl. by rewrite length_fmap.
Qed.

(** X27: when the three labels that [load_data] found are three columns
    of the sheet, the sheet is three columns wide at least, and a push of
    the working copy made of them writes three columns whatever that
    width: the header and one row for each data row, each of three cells.
    The cells of every other column of the sheet are not written back. *)
Theorem push_after_load_keeps_three_columns
    (header : list string) (body : list (list string))
    (df : Frame Cell) (ic cc mc : string) (t : Table)
    (remote sheet : list (list Value)) :
  load_data (header :: body) = LoadedFrame df ic cc mc →
  select_table df ic mc cc = Some t →
  update_google_sheet true true t remote = Pushed sheet →
  (3 ≤ length header)%nat
  ∧ Forall (λ r, length r = length header) body
  ∧ Forall (λ r, length r = 3%nat) sheet
  ∧ length sheet = S (length body).
Proof.
  intros Hload Hsel Hpush.
  destruct (load_data_loaded _ _ _ _ _ _ Hload)
    as (Hw & Hcols & H1 & H2 & H3 & Hlen).
  destruct (select_table_Some _ _ _ _ _ Hsel)
    as (Hnd & _ & _ & _ & Hrows).
  unfold update_google_sheet, ws_clear in Hpush.
  rewrite ws_update_cleared in Hpush. injection Hpush as <-.
  split; [|split; [done|split]].
  - rewrite <- (make_unique_headers_length header).
    change 3%nat with (length [ic; mc; cc]).
    apply submseteq_length, NoDup_submseteq; [done|].
    intros x Hx. repeat (apply elem_of_cons in Hx as [->|Hx]; [done|]).
    by apply elem_of_nil in Hx.
  - unfold sheet_values. constructor; [done|].
    apply Forall_fmap, Forall_forall. by intros r _.
  - unfold sheet_values. simpl. by rewrite length_fmap, Hrows, Hlen.
Qed.

Lemma push_after_load_keeps_three_columns_witness :
  (3 ≤ 4)%nat
  ∧ Forall (λ r, length r = 4%nat) [["a"; "1000"; "ok"; "TRUE"]]
  ∧ Forall (λ r, length r = 3%nat)
      [[VStr "ID"; VStr "Comment"; VStr "Credibility"];
       [VStr "a"; VStr "ok"; VStr "True"]]
  ∧ 2%nat = 2%nat.
Proof.
  apply (push_after_load_keeps_three_columns
           ["ID"; "Followers"; "Comment"; "Credibility"]
           [["a"; "1000"; "ok"; "TRUE"]]
           (mkFrame ["ID"; "Followers"; "Comment"; "Credibility"]
                    [[PStr "a"; PStr "1000"; PStr "ok"; PBool true]])
           "ID" "Credibility" "Comment"
           (mkTable "ID" "Comment" "Credibility"
                    [mkRow "a" (Some "ok") (PBool true)])
           []
           [[VStr "ID"; VStr "Comment"; VStr "Credibility"];
            [VStr "a"; VStr "ok"; VStr "True"]]).
  - vm_compute. reflexivity.
  - vm_compute. reflexivity.
  - reflexivity.
Defined.

Lemma version_str_parts (all_values : list (list string)) :
  version_str all_values
  = str_of_nat (length all_values)
      +:+ String "-" (match last all_values with
                      | Some r => join r
                      | None => ""
                      end).
Proof. reflexivity. Qed.

(** X28: the string that the fingerprint digests tells two grids apart
    exactly when they differ in the number of rows or in the cells of the
    last row put end to end. *)
Theorem version_str_tells_apart (rows1 rows2 : list (list string)) :
  version_str rows1 = version_str rows2
  ↔ length rows1 = length rows2
    ∧ match last rows1 with Some r => join r | None => "" end
      = match last rows2 with Some r => join r | None => "" end.
Proof.
  rewrite !version_str_parts. split.
  - intros H. apply (cut_at_first "-") in H as [Hn Hl].
    + split; [by apply str_of_nat_inj|done].
    + apply all_digits_no_char; [done|apply str_of_nat_digits].
    + apply all_digits_no_char; [done|apply str_of_nat_digits].
  - by intros [-> ->].
Qed.

End RoundTrip.

(** ** Adding unknown candidates to the sheet *)

Section CommitFacts.
Import Utils Credibility ListPage Commit.

(** X29: without a ticked row the button calls nothing and changes
    nothing; and the unknown frame that the categorisation makes has no
    ticked row, so that, handed back untouched, it is never written to the
    sheet. *)
Theorem untouched_unknowns_are_not_added
    (append_ok : bool) (st : State) (unknown_edited : list EditedUnknown)
    (new_df : NewDf) (merged_df : list Merged) :
  (Forall (λ e, eu_Select_Sheet e = false) unknown_edited →
   add_selected append_ok unknown_edited st = NothingSelected)
  ∧ add_selected append_ok
      (untouched <$> unknown_df (categorize new_df merged_df)) st
    = NothingSelected.
Proof.
  assert (Hnone : ∀ l, Forall (λ e, eu_Select_Sheet e = false) l →
                       add_selected append_ok l st = NothingSelected).
  { intros l Hall. unfold add_selected.
    assert (filter (λ e, eu_Select_Sheet e = true) l = []) as ->; [|done].
    induction Hall as [|e es He _ IH]; [done|].
    rewrite filter_cons_False by congruence. exact IH. }
  split; [apply Hnone|]. apply Hnone.
  apply Forall_fmap, Forall_forall. intros u Hu.
  unfold categorize in Hu. simpl in Hu.
  by apply list_elem_of_fmap in Hu as (m & -> & _).
Qed.

Lemma untouched_unknowns_are_not_added_witness :
  add_selected true
    [mkEditedUnknown (Some "bob") (Some "looks fine") "Approved" false]
    (mkState [] None None false (mkSession false None None))
  = NothingSelected.
Proof.
  apply (proj1 (untouched_unknowns_are_not_added true
                  (mkState [] None None false (mkSession false None None))
                  [mkEditedUnknown (Some "bob") (Some "looks fine")
                                   "Approved" false] (mkNewDf [] []) [])).
  repeat constructor.
Defined.

Lemma load_step_fresh pd ss ws_inf ws_master :
  data_loaded ss = false →
  load_step pd None ss ws_inf ws_master
  = match load_all_data_body pd ws_inf ws_master with
    | (msgs, Returned v) =>
        (Some v, mkSession true (Some (inf_df v)) (Some (master_df v)),
         msgs, false)
    | (msgs, Stopped) => (None, ss, msgs, true)
    end.
Proof.
  intros Hd. unfold load_step, load_all_data. rewrite Hd. simpl.
  by destruct (load_all_data_body pd ws_inf ws_master) as [msgs [v|]].
Qed.

(** X30: when the remote call goes through, the button leaves the rows of
    the sheet as they were and puts after them one row for each ticked
    row, in order: the identity, the comment, and "True" for the status
    "Approved" or "False" for "Rejected".  The run of the page that follows
    takes its roster from a fresh fetch of the sheets, not from the cache
    nor from the session. *)
Theorem added_rows_and_reload
    (pd : Pandas) (st : State) (unknown_edited : list EditedUnknown)
    (ws_inf ws_master : Fetch) :
  let to_add := filter (λ e, eu_Select_Sheet e = true) unknown_edited in
  to_add ≠ [] →
  ∃ st',
    add_selected true unknown_edited st = Added st'
    ∧ st_remote st'
      = st_remote st
        ++ ((λ e, [comment_value (eu_ID e); comment_value (eu_Comment e);
                   if String.eqb (eu_Status e) "Approved" then VStr "True"
                   else if String.eqb (eu_Status e) "Rejected"
                        then VStr "False" else VNaN]) <$> to_add)
    ∧ run_to_load pd st' ws_inf ws_master
      = match load_all_data_body pd ws_inf ws_master with
        | (msgs, Returned v) =>
            (mkState (st_remote st') (Some v) (Some "list") false
                     (mkSession true (Some (inf_df v))
                                (Some (master_df v))),
             msgs, false)
        | (msgs, Stopped) =>
            (mkState (st_remote st') None (Some "list") false
                     (mkSession false (ss_inf_df (st_session st))
                                (ss_master_df (st_session st))),
             msgs, true)
        end.
Proof.
  intros to_add Hsome. unfold add_selected. fold to_add.
  destruct to_add as [|e es] eqn:E; [done|].
  eexists. split; [reflexivity|]. split; [reflexivity|].
  unfold run_to_load, enter_page. simpl.
  destruct (String.eqb_spec (default "list" (st_current_page st)) "list")
    as [Hpage|_]; simpl; rewrite ?Hpage, load_step_fresh by done;
    by destruct (load_all_data_body pd ws_inf ws_master) as [msgs [v|]].
Qed.

Lemma added_rows_and_reload_witness :
  ∃ st',
    add_selected true
      [mkEditedUnknown (Some "bob") (Some "ok") "Approved" true;
       mkEditedUnknown (Some "dan") None "Rejected" false;
       mkEditedUnknown (Some "eve") None "Rejected" true]
      (mkState [[VStr "ID"; VStr "Comment"; VStr "Credibility"]]
               None (Some "list") false
               (mkSession true (Some (mkRoster [] [])) None))
    = Added st'
    ∧ st_remote st'
      = [[VStr "ID"; VStr "Comment"; VStr "Credibility"];
         [VStr "bob"; VStr "ok"; VStr "True"];
         [VStr "eve"; VNone; VStr "False"]].
Proof.
  destruct (added_rows_and_reload Sample.pandas
              (mkState [[VStr "ID"; VStr "Comment"; VStr "Credibility"]]
                       None (Some "list") false
                       (mkSession true (Some (mkRoster [] [])) None))
              [mkEditedUnknown (Some "bob") (Some "ok") "Approved" true;
               mkEditedUnknown (Some "dan") None "Rejected" false;
               mkEditedUnknown (Some "eve") None "Rejected" true]
              FetchFailed FetchFailed)
    as (st' & Hadd & Hrows & _); [discriminate|].
  exists st'. split; [exact Hadd|exact Hrows].
Defined.

End CommitFacts.
